(** * BehavePlus5: the EqCalc computation graph

    A shallow embedding of the parts of [xeqcalc.cpp] and
    [xeqcalcreconfig.cpp] that route values between the variables of the
    equation tree: the wind-direction transform, the fuel-bed intermediates,
    the two-fuel-model weighting, the containment status crosswalk, the
    eleven module reconfiguration procedures, and the functions that convert
    directions and map distances and that fill the fuel particle arrays and
    their moistures.

    Conventions.
    - Every [EqVar] and [EqFun] is bound once, by name, in the [EqCalc]
      constructor ([getVarPtr( "vName" )], [setEqFunAddress( "fName", ... )]);
      the embedding keys the equation tree by these names.
    - A C++ [double] is embedded as an exact rational ([Q]), and equality
      of computed values is [Qeq] ([==]).  Properties that state what is
      copied, compared or computed by one expression of the source read the
      same in double arithmetic.  Properties that depend on the rounding of
      double arithmetic are stated on a second embedding of the function, in
      the module [Rounded], in which every operation is rounded.
      Infinities and NaN are outside the model, except for the quotients by
      a spread rate of zero in [FuelBedWeighted].
    - The physics library ([FBL_*]), the containment simulator, the parser
      and the unit converter are not part of these files; they enter through
      the classes [XfbLib], [SurfaceNodes] and [ContainLib].
    - A discrete variable is embedded by the index of its active item:
      [updateItem( i )] sets it and [activeItemDataIndex()] reads it; the
      item lists themselves belong to the tree description, not to these
      files, so the native value that [updateItem] derives from the item is
      not modelled, and no property relies on what the native value of a
      variable is after [updateItem].
    - The [m_log] trace writes no variable and is left out. *)

From Stdlib Require Import QArith Qabs Qminmax Qround Qpower Lqa ZArith Lia List.
From stdpp Require Import gmap strings.

Open Scope Q_scope.

(** ** The equation tree: variables, functions and their flags *)

Record EqTree : Type := mkEqTree {
  m_nativeValue  : gmap string Q;      (* EqVar::m_nativeValue *)
  m_activeItem   : gmap string Z;      (* active item of a discrete EqVar *)
  m_store        : gmap string string; (* EqVar::m_store *)
  m_isUserInput  : gmap string bool;   (* EqVar::m_isUserInput *)
  m_isUserOutput : gmap string bool;   (* EqVar::m_isUserOutput *)
  m_isConstant   : gmap string bool;   (* EqVar::m_isConstant *)
  m_label        : gmap string string; (* EqTree::setLabel *)
  m_active       : gmap string bool    (* EqFun::m_active *)
}.

(** The tree before the first reconfiguration: nothing stored, every function
    inactive, every masking flag cleared. *)
Definition emptyTree : EqTree := mkEqTree ∅ ∅ ∅ ∅ ∅ ∅ ∅ ∅.

(** Readers.  A variable that was never written reads as zero, a flag that
    was never assigned as cleared. *)
Definition nativeValue (v : string) (t : EqTree) : Q :=
  default 0 (m_nativeValue t !! v).
Definition activeItemDataIndex (v : string) (t : EqTree) : Z :=
  default 0%Z (m_activeItem t !! v).
Definition store (v : string) (t : EqTree) : string :=
  default EmptyString (m_store t !! v).
Definition isUserInput (v : string) (t : EqTree) : bool :=
  default false (m_isUserInput t !! v).
Definition isUserOutput (v : string) (t : EqTree) : bool :=
  default false (m_isUserOutput t !! v).
Definition isConstant (v : string) (t : EqTree) : bool :=
  default false (m_isConstant t !! v).
Definition isActive (f : string) (t : EqTree) : bool :=
  default false (m_active t !! f).

(** Writers: [v->update( x )], [v->updateItem( i )], [setLabel( v, s )] and
    the flag assignments [v->m_isUserInput = b], [f->m_active = b], ...
    [update] and [updateItem] also refresh the display value of the variable,
    which no function embedded here reads; [updateItem] keeps the index
    only (the native value of a discrete variable is not modelled). *)
Definition update (v : string) (x : Q) (t : EqTree) : EqTree :=
  mkEqTree (<[v := x]> (m_nativeValue t)) (m_activeItem t) (m_store t)
           (m_isUserInput t) (m_isUserOutput t) (m_isConstant t) (m_label t)
           (m_active t).
Definition updateItem (v : string) (i : Z) (t : EqTree) : EqTree :=
  mkEqTree (m_nativeValue t) (<[v := i]> (m_activeItem t)) (m_store t)
           (m_isUserInput t) (m_isUserOutput t) (m_isConstant t) (m_label t)
           (m_active t).
Definition set_isUserInput (v : string) (b : bool) (t : EqTree) : EqTree :=
  mkEqTree (m_nativeValue t) (m_activeItem t) (m_store t)
           (<[v := b]> (m_isUserInput t)) (m_isUserOutput t) (m_isConstant t)
           (m_label t) (m_active t).
Definition set_isUserOutput (v : string) (b : bool) (t : EqTree) : EqTree :=
  mkEqTree (m_nativeValue t) (m_activeItem t) (m_store t)
           (m_isUserInput t) (<[v := b]> (m_isUserOutput t)) (m_isConstant t)
           (m_label t) (m_active t).
Definition set_isConstant (v : string) (b : bool) (t : EqTree) : EqTree :=
  mkEqTree (m_nativeValue t) (m_activeItem t) (m_store t)
           (m_isUserInput t) (m_isUserOutput t) (<[v := b]> (m_isConstant t))
           (m_label t) (m_active t).
Definition setLabel (v : string) (s : string) (t : EqTree) : EqTree :=
  mkEqTree (m_nativeValue t) (m_activeItem t) (m_store t)
           (m_isUserInput t) (m_isUserOutput t) (m_isConstant t)
           (<[v := s]> (m_label t)) (m_active t).
Definition set_active (f : string) (b : bool) (t : EqTree) : EqTree :=
  mkEqTree (m_nativeValue t) (m_activeItem t) (m_store t)
           (m_isUserInput t) (m_isUserOutput t) (m_isConstant t) (m_label t)
           (<[f := b]> (m_active t)).

(** The configuration: [PropertyDict::boolean] and [PropertyDict::integer]. *)
Record PropertyDict : Type := mkPropertyDict {
  boolean : string -> bool;
  integer : string -> Z
}.

(** A body of assignments is a command on the tree; [c1 ;; c2] runs [c1]
    first.  [ifTree] is an [if] whose condition reads the tree. *)
Definition cmd : Type := EqTree -> EqTree.
Definition skip : cmd := fun t => t.
Definition andThen (c1 c2 : cmd) : cmd := fun t => c2 (c1 t).
Definition ifTree (cond : EqTree -> bool) (c1 c2 : cmd) : cmd :=
  fun t => if cond t then c1 t else c2 t.

Declare Scope cmd_scope.
Delimit Scope cmd_scope with cmd.
Notation "c1 ;; c2" := (andThen c1 c2)
  (at level 100, c2 at level 200, right associativity) : cmd_scope.
Open Scope cmd_scope.

(** Comparisons of doubles as booleans. *)
Definition Qltb (x y : Q) : bool := if Qlt_le_dec x y then true else false.
Notation "x <? y" := (Qltb x y) : Q_scope.
Notation "x >? y" := (Qltb y x) : Q_scope.

(** ** [EqCalc::WindDirFromUpslope] *)

Definition WindDirFromUpslope (t : EqTree) : EqTree :=
  let sd := nativeValue "vSiteUpslopeDirFromNorth" t in
  let wd := nativeValue "vWindDirFromNorth" t in
  (* if ( (wd -= 180.) < 0. ) wd += 360.; *)
  let wd := wd - 180 in
  let wd := if wd <? 0 then wd + 360 else wd in
  let dd := wd - sd in
  let dd := if dd <? 0 then dd + 360 else dd in
  let dd := if Qabs dd <? 0.5 then 0 else dd in
  update "vWindDirFromUpslope" dd t.

(** The same transform in the words of its description: source direction to
    wind vector, angle of the vector from the upslope direction, snap of a
    small angle to zero. *)
Definition windVector (source : Q) : Q :=
  if source - 180 <? 0 then source - 180 + 360 else source - 180.
Definition angleFrom (upslope vector : Q) : Q :=
  if vector - upslope <? 0 then vector - upslope + 360 else vector - upslope.
Definition snapToZero (tolerance angle : Q) : Q :=
  if Qabs angle <? tolerance then 0 else angle.

(** A tree that holds the two inputs of [WindDirFromUpslope]. *)
Definition windInputs (wd sd : Q) : EqTree :=
  (update "vSiteUpslopeDirFromNorth" sd ;;
   update "vWindDirFromNorth" wd) emptyTree.

(** ** The fire behavior library, [xfblib.h]

    Declarations only are visible from [xeqcalc.cpp]: the threshold
    [SMIDGEN] and the formulas called by the functions embedded below.
    [FBL_SurfaceFuelBedIntermediates] returns [sigma] and, through its three
    pointer arguments, the bulk density, packing ratio and beta ratio. *)

Class XfbLib : Type := {
  SMIDGEN : Q;
  FBL_SurfaceFuelBedIntermediates :
    Q -> Q -> nat -> list Z -> list Q -> list Q -> list Q -> list Q ->
    list Q -> list Q -> Q * Q * Q * Q;
  FBL_SurfaceFireExpectedSpreadRate :
    list Q -> list Q -> nat -> Q -> Z -> Z -> Z -> Q;
  FBL_SurfaceFireWidth : Q -> Q -> Q;
  FBL_SurfaceFirePerimeter : Q -> Q -> Q;
  FBL_SurfaceFireArea : Q -> Q -> Q
}.

(** ** Fuel particle arrays *)

Definition MaxParts : nat := 8.

(** [EqVar *vSurfaceFuelLoad[8]] and its siblings are bound to
    ["vSurfaceFuelLoad0"] ... ["vSurfaceFuelLoad7"]. *)
Definition particles (base : string) : list string :=
  map (fun d => base +:+ d) ["0"; "1"; "2"; "3"; "4"; "5"; "6"; "7"]%string.

Definition vSurfaceFuelDens : list string := particles "vSurfaceFuelDens".
Definition vSurfaceFuelHeat : list string := particles "vSurfaceFuelHeat".
Definition vSurfaceFuelLife : list string := particles "vSurfaceFuelLife".
Definition vSurfaceFuelLoad : list string := particles "vSurfaceFuelLoad".
Definition vSurfaceFuelMois : list string := particles "vSurfaceFuelMois".
Definition vSurfaceFuelSavr : list string := particles "vSurfaceFuelSavr".
Definition vSurfaceFuelSeff : list string := particles "vSurfaceFuelSeff".
Definition vSurfaceFuelStot : list string := particles "vSurfaceFuelStot".

(** [arr[p]] for a name array and for a local array of doubles or ints. *)
Definition var (arr : list string) (p : nat) : string := nth p arr EmptyString.
Definition at_ (arr : list Q) (p : nat) : Q := nth p arr 0.
Definition atZ (arr : list Z) (p : nat) : Z := nth p arr 0%Z.

Definition nativeValues (arr : list string) (t : EqTree) : list Q :=
  map (fun v => nativeValue v t) arr.
Definition activeItems (arr : list string) (t : EqTree) : list Z :=
  map (fun v => activeItemDataIndex v t) arr.

(** [for ( int i = 0; i < MaxParts; i++ ) body( i )] *)
Definition forParts (body : nat -> cmd) : cmd :=
  fun t => fold_left (fun t i => body i t) (seq 0 MaxParts) t.

(** [v->update( w->m_nativeValue )] *)
Definition updateFrom (v w : string) : cmd :=
  fun t => update v (nativeValue w t) t.

(** ** [EqCalc::FuelBedParms] *)

Definition FuelBedParms : cmd :=
  (* Give default values to all particles. *)
  forParts (fun i =>
    update (var vSurfaceFuelDens i) 32 ;;
    updateItem (var vSurfaceFuelLife i) 0 ;;
    update (var vSurfaceFuelLoad i) 0.0 ;;
    update (var vSurfaceFuelSavr i) 1 ;;
    update (var vSurfaceFuelStot i) 0.0555 ;;
    update (var vSurfaceFuelSeff i) 0.0100) ;;
  (* Assign fixed life values *)
  updateItem (var vSurfaceFuelLife 0) 0 ;;
  updateItem (var vSurfaceFuelLife 1) 0 ;;
  updateItem (var vSurfaceFuelLife 2) 0 ;;
  updateItem (var vSurfaceFuelLife 3) 1 ;;
  updateItem (var vSurfaceFuelLife 4) 2 ;;
  updateItem (var vSurfaceFuelLife 5) 0 ;;
  (* Assign load values *)
  updateFrom (var vSurfaceFuelLoad 0) "vSurfaceFuelLoadDead1" ;;
  updateFrom (var vSurfaceFuelLoad 1) "vSurfaceFuelLoadDead10" ;;
  updateFrom (var vSurfaceFuelLoad 2) "vSurfaceFuelLoadDead100" ;;
  updateFrom (var vSurfaceFuelLoad 3) "vSurfaceFuelLoadLiveHerb" ;;
  updateFrom (var vSurfaceFuelLoad 4) "vSurfaceFuelLoadLiveWood" ;;
  update (var vSurfaceFuelLoad 5) 0.0 ;;
  (* Assign heat values *)
  updateFrom (var vSurfaceFuelHeat 0) "vSurfaceFuelHeatDead" ;;
  updateFrom (var vSurfaceFuelHeat 1) "vSurfaceFuelHeatDead" ;;
  updateFrom (var vSurfaceFuelHeat 2) "vSurfaceFuelHeatDead" ;;
  updateFrom (var vSurfaceFuelHeat 3) "vSurfaceFuelHeatLive" ;;
  updateFrom (var vSurfaceFuelHeat 4) "vSurfaceFuelHeatLive" ;;
  updateFrom (var vSurfaceFuelHeat 5) "vSurfaceFuelHeatDead" ;;
  (* Assign savr values *)
  updateFrom (var vSurfaceFuelSavr 0) "vSurfaceFuelSavrDead1" ;;
  update (var vSurfaceFuelSavr 1) 109.0 ;;
  update (var vSurfaceFuelSavr 2) 30.0 ;;
  updateFrom (var vSurfaceFuelSavr 3) "vSurfaceFuelSavrLiveHerb" ;;
  updateFrom (var vSurfaceFuelSavr 4) "vSurfaceFuelSavrLiveWood" ;;
  updateFrom (var vSurfaceFuelSavr 5) "vSurfaceFuelSavrLiveHerb".

(** ** [EqCalc::FuelBedIntermediates] *)

(** The locals [load], [deadLoad] and [liveLoad]. *)
Record Loads : Type := mkLoads {
  load : list Q;
  deadLoad : Q;
  liveLoad : Q
}.

(** The body of the first loop: the load of particle [p] goes to the dead
    or to the live total.  [// Dead=0, Herb=1, Wood=2, Litter=3] *)
Definition accumulateLoad (life : list Z) (l : Loads) (p : nat) : Loads :=
  if (atZ life p =? 0)%Z || (atZ life p =? 3)%Z
  then mkLoads (load l) (deadLoad l + at_ (load l) p) (liveLoad l)
  else mkLoads (load l) (deadLoad l) (liveLoad l + at_ (load l) p).

(** [for ( int p = 0; p < MaxParts; p++ )], from [deadLoad = liveLoad = 0]. *)
Definition accumulateLoads (life : list Z) (loads : list Q) : Loads :=
  fold_left (accumulateLoad life) (seq 0 MaxParts) (mkLoads loads 0 0).

(** The sum of a list of loads. *)
Definition totalLoad (loads : list Q) : Q := fold_right Qplus 0 loads.

Definition LiveHerb : nat := 3.
Definition DeadHerb : nat := 5.

(** [if ( fraction > 0.00001 ) { ... }] *)
Definition loadTransfer (fraction : Q) (l : Loads) : Loads :=
  if fraction >? 0.00001 then
    (* load[DeadHerb] = fraction * load[LiveHerb]; *)
    let load1 := <[DeadHerb := fraction * at_ (load l) LiveHerb]> (load l) in
    (* load[LiveHerb] -= load[DeadHerb]; *)
    let load2 :=
      <[LiveHerb := at_ load1 LiveHerb - at_ load1 DeadHerb]> load1 in
    (* deadLoad += load[DeadHerb];  liveLoad -= load[DeadHerb]; *)
    mkLoads load2 (deadLoad l + at_ load2 DeadHerb)
                  (liveLoad l - at_ load2 DeadHerb)
  else l.

(** [fraction]: zero unless the transfer equation selector is non-zero. *)
Definition transferFraction (t : EqTree) : Q :=
  let transferEq := activeItemDataIndex "vSurfaceFuelLoadTransferEq" t in
  if negb (transferEq =? 0)%Z
  then nativeValue "vSurfaceFuelLoadTransferFraction" t
  else 0.0.

(** The loads as they are after the transfer step. *)
Definition bedLoads (t : EqTree) : Loads :=
  loadTransfer (transferFraction t)
    (accumulateLoads (activeItems vSurfaceFuelLife t)
                     (nativeValues vSurfaceFuelLoad t)).

(** [( totalLoad < SMIDGEN ) ? ( 0. ) : ( deadLoad / totalLoad )] *)
Definition deadLoadFraction `{XfbLib} (l : Loads) : Q :=
  let total := deadLoad l + liveLoad l in
  if total <? SMIDGEN then 0 else deadLoad l / total.

Definition FuelBedIntermediates `{XfbLib} : cmd := fun t =>
  (* Access current input values *)
  let dens := nativeValues vSurfaceFuelDens t in
  let heat := nativeValues vSurfaceFuelHeat t in
  let life := activeItems vSurfaceFuelLife t in
  let savr := nativeValues vSurfaceFuelSavr t in
  let seff := nativeValues vSurfaceFuelSeff t in
  let stot := nativeValues vSurfaceFuelStot t in
  (* Particle loads, fuel load transfer *)
  let l := bedLoads t in
  (* Fuel bed dead load fraction *)
  let deadFraction := deadLoadFraction l in
  (* Fuel bed intermediates *)
  let depth := nativeValue "vSurfaceFuelBedDepth" t in
  let deadMext := nativeValue "vSurfaceFuelBedMextDead" t in
  let '(sigma, bulkDensity, packingRatio, betaRatio) :=
    FBL_SurfaceFuelBedIntermediates depth deadMext MaxParts
      life (load l) savr heat dens stot seff in
  (* Store results *)
  (update "vSurfaceFuelBedSigma" sigma ;;
   update "vSurfaceFuelBedBulkDensity" bulkDensity ;;
   update "vSurfaceFuelBedPackingRatio" packingRatio ;;
   update "vSurfaceFuelBedBetaRatio" betaRatio ;;
   update "vSurfaceFuelBedDeadFraction" deadFraction ;;
   update "vSurfaceFuelBedLiveFraction" (1 - deadFraction) ;;
   update "vSurfaceFuelLoadDeadHerb" (at_ (load l) DeadHerb) ;;
   update "vSurfaceFuelLoadUndeadHerb" (at_ (load l) LiveHerb) ;;
   update "vSurfaceFuelLoadDead" (deadLoad l) ;;
   update "vSurfaceFuelLoadLive" (liveLoad l)) t.

(** ** [EqCalc::FuelBedWeighted] *)

(** The fields of a [FuelModel] that [FuelBedWeighted] reads. *)
Record FuelModel : Type := mkFuelModel {
  m_depth : Q;
  m_mext : Q;
  m_heatDead : Q;
  m_heatLive : Q;
  m_load1 : Q;
  m_load10 : Q;
  m_load100 : Q;
  m_loadHerb : Q;
  m_loadWood : Q;
  m_savr1 : Q;
  m_savrHerb : Q;
  m_savrWood : Q;
  m_transfer : Z
}.

(** The other [EqCalc] functions that [FuelBedWeighted] calls for each fuel
    model.  Each reads and writes variables of the tree and evaluates a
    formula of the fire behavior library on the way; each may consult the
    property dictionary of the tree. *)
Class SurfaceNodes : Type := {
  FuelLoadTransferFraction : PropertyDict -> cmd;
  FireResidenceTime : PropertyDict -> cmd;
  FuelMoisLifeClass : PropertyDict -> cmd;
  FuelMoisScenarioModel : PropertyDict -> cmd;
  FuelMoisTimeLag : PropertyDict -> cmd;
  FuelBedHeatSink : PropertyDict -> cmd;
  FirePropagatingFlux : PropertyDict -> cmd;
  FireReactionInt : PropertyDict -> cmd;
  FireNoWindRate : PropertyDict -> cmd;
  WindAdjFactor : PropertyDict -> cmd;
  WindSpeedAt20Ft : PropertyDict -> cmd;
  WindSpeedAtMidflame : PropertyDict -> cmd;
  FireSpreadAtHead : PropertyDict -> cmd;
  FireLineIntAtHead : PropertyDict -> cmd;
  FireFlameLengAtHead : PropertyDict -> cmd;
  FireLengthToWidth : PropertyDict -> cmd;
  FireEccentricity : PropertyDict -> cmd;
  FireVectorBeta : PropertyDict -> cmd;
  FireSpreadAtBeta : PropertyDict -> cmd;
  FireLineIntAtVector : PropertyDict -> cmd;
  FireFlameLengAtVector : PropertyDict -> cmd;
  FireEffWindAtVector : PropertyDict -> cmd;
  FireHeatPerUnitArea : PropertyDict -> cmd
}.

(** The intermediate outputs kept for one fuel model: element [i] of the
    local arrays [rxi], [waf], ..., [hua]. *)
Record ModelOutputs : Type := mkModelOutputs {
  rxi : Q;   (* reaction intensity *)
  waf : Q;   (* wind adjustment factor *)
  wmf : Q;   (* wind speed at midflame *)
  rosh : Q;  (* ros at head *)
  mxd : Q;   (* dir of max spread *)
  ewsh : Q;  (* effective wind speed at head *)
  wsl : Q;   (* wind speed limit *)
  wsf : Z;   (* wind speed flag *)
  flih : Q;  (* fireline intensity at head *)
  flh : Q;   (* flame length at head *)
  flw : Q;   (* fire length-to-width ratio *)
  rosv : Q;  (* ros at vector *)
  fliv : Q;  (* fireline intensity at vector *)
  flv : Q;   (* flame length at vector *)
  ewsv : Q;  (* effective wind speed at vector *)
  hua : Q    (* heat per unit area *)
}.

(** [// Load the fuel attributes into the equation tree's fuel model] *)
Definition loadFuelModel (fm : FuelModel) : cmd :=
  update "vSurfaceFuelBedDepth" (m_depth fm) ;;
  update "vSurfaceFuelBedMextDead" (m_mext fm) ;;
  update "vSurfaceFuelHeatDead" (m_heatDead fm) ;;
  update "vSurfaceFuelHeatLive" (m_heatLive fm) ;;
  update "vSurfaceFuelLoadDead1" (m_load1 fm) ;;
  update "vSurfaceFuelLoadDead10" (m_load10 fm) ;;
  update "vSurfaceFuelLoadDead100" (m_load100 fm) ;;
  update "vSurfaceFuelLoadLiveHerb" (m_loadHerb fm) ;;
  update "vSurfaceFuelLoadLiveWood" (m_loadWood fm) ;;
  update "vSurfaceFuelSavrDead1" (m_savr1 fm) ;;
  update "vSurfaceFuelSavrLiveHerb" (m_savrHerb fm) ;;
  update "vSurfaceFuelSavrLiveWood" (m_savrWood fm) ;;
  updateItem "vSurfaceFuelLoadTransferEq" (m_transfer fm).

(** One turn of the loop [for ( int i=0; i<2; i++ )]: the tree after the
    calls for fuel model [fm], and the values stored into the local arrays
    at index [i]. *)
Definition fuelModelPass `{XfbLib} `{SurfaceNodes}
    (prop : PropertyDict) (fm : FuelModel) (t : EqTree)
    : EqTree * ModelOutputs :=
  let t := loadFuelModel fm t in
  let t := FuelBedParms t in
  let t := FuelLoadTransferFraction prop t in
  let t := FuelBedIntermediates t in
  let t := FireResidenceTime prop t in
  let t := (if boolean prop "surfaceConfMoisLifeCat" then
              FuelMoisLifeClass prop
            else if boolean prop "surfaceConfMoisScenario" then
              FuelMoisScenarioModel prop
            else skip) t in
  let t := FuelMoisTimeLag prop t in
  let t := FuelBedHeatSink prop t in
  let t := FirePropagatingFlux prop t in
  let t := FireReactionInt prop t in
  let rxi_i := nativeValue "vSurfaceFireReactionInt" t in
  let t := FireNoWindRate prop t in
  let t := (if boolean prop "surfaceConfWindSpeedAt10MCalc"
               || boolean prop "surfaceConfWindSpeedAt20FtCalc"
            then WindAdjFactor prop else skip) t in
  let waf_i := nativeValue "vWindAdjFactor" t in
  let t := (if boolean prop "surfaceConfWindSpeedAt10M"
               || boolean prop "surfaceConfWindSpeedAt10MCalc"
            then WindSpeedAt20Ft prop else skip) t in
  let t := (if negb (boolean prop "surfaceConfWindSpeedAtMidflame")
            then WindSpeedAtMidflame prop else skip) t in
  let wmf_i := nativeValue "vWindSpeedAtMidflame" t in
  let t := FireSpreadAtHead prop t in
  let rosh_i := nativeValue "vSurfaceFireSpreadAtHead" t in
  let mxd_i := nativeValue "vSurfaceFireMaxDirFromUpslope" t in
  let ewsh_i := nativeValue "vSurfaceFireEffWindAtHead" t in
  let wsl_i := nativeValue "vSurfaceFireWindSpeedLimit" t in
  let wsf_i := if wmf_i >? wsl_i then 1%Z else 0%Z in
  let t := FireLineIntAtHead prop t in
  let flih_i := nativeValue "vSurfaceFireLineIntAtHead" t in
  let t := FireFlameLengAtHead prop t in
  let flh_i := nativeValue "vSurfaceFireFlameLengAtHead" t in
  let t := FireLengthToWidth prop t in
  let flw_i := nativeValue "vSurfaceFireLengthToWidth" t in
  let t := FireEccentricity prop t in
  let t := (if boolean prop "surfaceConfSpreadDirMax"
            then update "vSurfaceFireVectorBeta" 0
            else FireVectorBeta prop) t in
  let t := FireSpreadAtBeta prop t in
  let rosv_i := nativeValue "vSurfaceFireSpreadAtVector" t in
  let t := FireLineIntAtVector prop t in
  let fliv_i := nativeValue "vSurfaceFireLineIntAtVector" t in
  let t := FireFlameLengAtVector prop t in
  let flv_i := nativeValue "vSurfaceFireFlameLengAtVector" t in
  let t := FireEffWindAtVector prop t in
  let ewsv_i := nativeValue "vSurfaceFireEffWindAtVector" t in
  let t := FireHeatPerUnitArea prop t in
  let hua_i := nativeValue "vSurfaceFireHeatPerUnitArea" t in
  (t, mkModelOutputs rxi_i waf_i wmf_i rosh_i mxd_i ewsh_i wsl_i wsf_i
        flih_i flh_i flw_i rosv_i fliv_i flv_i ewsv_i hua_i).

(** Both turns of the loop, the secondary model on the tree the primary
    model left behind. *)
Definition fuelModelPasses `{XfbLib} `{SurfaceNodes}
    (prop : PropertyDict) (fm0 fm1 : FuelModel) (t : EqTree)
    : EqTree * ModelOutputs * ModelOutputs :=
  let '(t, m0) := fuelModelPass prop fm0 t in
  let '(t, m1) := fuelModelPass prop fm1 t in
  (t, m0, m1).

(** A quotient of doubles whose divisor may be zero is a number, an
    infinity or not a number. *)
Inductive ieee : Type :=
  | Finite (x : Q)
  | Infinity (negative : bool)
  | NaN.

(** [x / y]: a nonzero number divided by zero is an infinity, zero divided
    by zero is not a number.  A zero is taken as the positive zero. *)
Definition ieeeDiv (x y : Q) : ieee :=
  if Qeq_bool y 0 then
    if Qeq_bool x 0 then NaN else Infinity (x <? 0)
  else Finite (x / y).

(** [a + b]: infinities of opposite sign add up to no number. *)
Definition ieeeAdd (a b : ieee) : ieee :=
  match a, b with
  | NaN, _ | _, NaN => NaN
  | Infinity s, Infinity s' => if Bool.eqb s s' then Infinity s else NaN
  | Infinity s, Finite _ | Finite _, Infinity s => Infinity s
  | Finite x, Finite y => Finite (x + y)
  end.

(** [1. / a]: the reciprocal of an infinity is zero, that of zero is an
    infinity. *)
Definition ieeeInv (a : ieee) : ieee :=
  match a with
  | Finite x => if Qeq_bool x 0 then Infinity false else Finite (1 / x)
  | Infinity _ => Finite 0
  | NaN => NaN
  end.

(** The tree holds numbers only.  Where the source stores an infinity or a
    NaN the embedding stores [nonFinite], a number of which nothing can be
    proved but that it is one. *)
Definition nonFinite : Q.
Proof. exact 0. Qed.

Definition numberOf (a : ieee) : Q :=
  match a with
  | Finite x => x
  | Infinity _ | NaN => nonFinite
  end.

(** [1. / ( ( c0 / r0 ) + ( c1 / r1 ) )] for rates that may be zero. *)
Definition harmonicMean (c0 r0 c1 r1 : Q) : Q :=
  numberOf (ieeeInv (ieeeAdd (ieeeDiv c0 r0) (ieeeDiv c1 r1))).

(** [// Fire spread rate depends upon the weighting method...]: the pair
    [(wtdh, wtdv)].  In the harmonic mean the head rates are divisors only
    when both exceed 0.000001; the vector rates are divisors unguarded. *)
Definition weightedSpread `{XfbLib}
    (prop : PropertyDict) (cov0 cov1 : Q) (m0 m1 : ModelOutputs) (t : EqTree)
    : Q * Q :=
  if boolean prop "surfaceConfFuelAreaWeighted" then
    (cov0 * rosh m0 + cov1 * rosh m1, cov0 * rosv m0 + cov1 * rosv m1)
  else if boolean prop "surfaceConfFuelHarmonicMean" then
    if (rosh m0 >? 0.000001) && (rosh m1 >? 0.000001) then
      (1 / (cov0 / rosh m0 + cov1 / rosh m1),
       harmonicMean cov0 (rosv m0) cov1 (rosv m1))
    else (0.0, 0.0)
  else if boolean prop "surfaceConfFuel2Dimensional" then
    let lbRatio := nativeValue "vSurfaceFireLengthToWidth" t in
    let samples := integer prop "surfaceConfFuel2DSamples" in
    let depth := integer prop "surfaceConfFuel2DDepth" in
    let laterals := integer prop "surfaceConfFuel2DLaterals" in
    (FBL_SurfaceFireExpectedSpreadRate [rosh m0; rosh m1] [cov0; cov1] 2
       lbRatio samples depth laterals,
     FBL_SurfaceFireExpectedSpreadRate [rosv m0; rosv m1] [cov0; cov1] 2
       lbRatio samples depth laterals)
  else (0, 0).

(** [// If only 1 fuel is present (whether primary or secondary), use its
    values exclusively]: the assignments for the model [m] at index [i]. *)
Definition storeDominant (m : ModelOutputs) (fm : FuelModel) : cmd :=
  update "vSurfaceFireReactionInt" (rxi m) ;;
  update "vSurfaceFireMaxDirFromUpslope" (mxd m) ;;
  update "vWindAdjFactor" (waf m) ;;
  update "vWindSpeedAtMidflame" (wmf m) ;;
  update "vSurfaceFireEffWindAtHead" (ewsh m) ;;
  update "vSurfaceFireEffWindAtVector" (ewsv m) ;;
  update "vSurfaceFireWindSpeedLimit" (wsl m) ;;
  updateItem "vSurfaceFireWindSpeedFlag" (wsf m) ;;
  update "vSurfaceFireLengthToWidth" (flw m) ;;
  update "vSurfaceFireHeatPerUnitArea" (hua m) ;;
  update "vSurfaceFireLineIntAtHead" (flih m) ;;
  update "vSurfaceFireLineIntAtVector" (fliv m) ;;
  update "vSurfaceFireFlameLengAtHead" (flh m) ;;
  update "vSurfaceFireFlameLengAtVector" (flv m) ;;
  update "vSurfaceFuelBedDepth" (m_depth fm).

(** [// Otherwise the wtd value depends upon Pat's criteria; could be wtd,
    min, max, or primary] *)
Definition storeCombined (m0 m1 : ModelOutputs) (fm0 fm1 : FuelModel) : cmd :=
  update "vSurfaceFireReactionInt"
    (if rxi m0 >? rxi m1 then rxi m0 else rxi m1) ;;
  update "vSurfaceFireMaxDirFromUpslope" (mxd m0) ;;
  update "vWindAdjFactor" (waf m0) ;;
  update "vWindSpeedAtMidflame" (wmf m0) ;;
  update "vSurfaceFireEffWindAtHead" (ewsh m0) ;;
  update "vSurfaceFireEffWindAtVector" (ewsv m0) ;;
  update "vSurfaceFireWindSpeedLimit"
    (if wsl m0 <? wsl m1 then wsl m0 else wsl m1) ;;
  updateItem "vSurfaceFireWindSpeedFlag"
    (Z.b2z (negb (wsf m0 =? 0)%Z || negb (wsf m1 =? 0)%Z)) ;;
  update "vSurfaceFireLengthToWidth" (flw m0) ;;
  update "vSurfaceFireHeatPerUnitArea"
    (if hua m0 >? hua m1 then hua m0 else hua m1) ;;
  update "vSurfaceFireLineIntAtHead"
    (if flih m0 >? flih m1 then flih m0 else flih m1) ;;
  update "vSurfaceFireLineIntAtVector"
    (if fliv m0 >? fliv m1 then fliv m0 else fliv m1) ;;
  update "vSurfaceFireFlameLengAtHead"
    (if flh m0 >? flh m1 then flh m0 else flh m1) ;;
  update "vSurfaceFireFlameLengAtVector"
    (if flv m0 >? flv m1 then flv m0 else flv m1) ;;
  update "vSurfaceFuelBedDepth"
    (if m_depth fm0 >? m_depth fm1 then m_depth fm0 else m_depth fm1).

(** [// Determine and store combined fuel model outputs] *)
Definition storeWeighted `{XfbLib}
    (prop : PropertyDict) (cov0 cov1 : Q) (fm0 fm1 : FuelModel)
    (m0 m1 : ModelOutputs) : cmd := fun t =>
  let '(wtdh, wtdv) := weightedSpread prop cov0 cov1 m0 m1 t in
  (update "vSurfaceFireSpreadAtHead" wtdh ;;
   update "vSurfaceFireSpreadAtVector" wtdv ;;
   (if (cov0 >? 0.999) || (cov1 >? 0.999) then
      if cov0 >? 0.999 then storeDominant m0 fm0 else storeDominant m1 fm1
    else storeCombined m0 m1 fm0 fm1)) t.

(** [fm0] and [fm1] are [currentFuelModel( 1 )] and [currentFuelModel( 2 )],
    looked up in the fuel model list by the caller. *)
Definition FuelBedWeighted `{XfbLib} `{SurfaceNodes}
    (prop : PropertyDict) (fm0 fm1 : FuelModel) : cmd := fun t =>
  let cov0 := nativeValue "vSurfaceFuelBedCoverage1" t in
  let cov1 := 1 - cov0 in
  let '(t', m0, m1) := fuelModelPasses prop fm0 fm1 t in
  storeWeighted prop cov0 cov1 fm0 fm1 m0 m1 t'.

(** The local arrays after the loop, as pairs of a model's record, and the
    tree the loop leaves. *)
Definition capturedOutputs `{XfbLib} `{SurfaceNodes}
    (prop : PropertyDict) (fm0 fm1 : FuelModel) (t : EqTree)
    : ModelOutputs * ModelOutputs :=
  let '(_, m0, m1) := fuelModelPasses prop fm0 fm1 t in (m0, m1).

Definition treeAfterPasses `{XfbLib} `{SurfaceNodes}
    (prop : PropertyDict) (fm0 fm1 : FuelModel) (t : EqTree) : EqTree :=
  let '(t', _, _) := fuelModelPasses prop fm0 fm1 t in t'.

(** Every combined output other than the two spread rates holds the value
    kept for the model [m] of fuel model [fm]. *)
Definition storesModel (m : ModelOutputs) (fm : FuelModel) (t : EqTree)
    : Prop :=
  nativeValue "vSurfaceFireReactionInt" t = rxi m
  /\ nativeValue "vSurfaceFireMaxDirFromUpslope" t = mxd m
  /\ nativeValue "vWindAdjFactor" t = waf m
  /\ nativeValue "vWindSpeedAtMidflame" t = wmf m
  /\ nativeValue "vSurfaceFireEffWindAtHead" t = ewsh m
  /\ nativeValue "vSurfaceFireEffWindAtVector" t = ewsv m
  /\ nativeValue "vSurfaceFireWindSpeedLimit" t = wsl m
  /\ activeItemDataIndex "vSurfaceFireWindSpeedFlag" t = wsf m
  /\ nativeValue "vSurfaceFireLengthToWidth" t = flw m
  /\ nativeValue "vSurfaceFireHeatPerUnitArea" t = hua m
  /\ nativeValue "vSurfaceFireLineIntAtHead" t = flih m
  /\ nativeValue "vSurfaceFireLineIntAtVector" t = fliv m
  /\ nativeValue "vSurfaceFireFlameLengAtHead" t = flh m
  /\ nativeValue "vSurfaceFireFlameLengAtVector" t = flv m
  /\ nativeValue "vSurfaceFuelBedDepth" t = m_depth fm.

(** The aggregation of the two models when neither dominates: maximum,
    first model, minimum, or logical or, output by output. *)
Definition storesCombination (m0 m1 : ModelOutputs) (fm0 fm1 : FuelModel)
    (t : EqTree) : Prop :=
  nativeValue "vSurfaceFireReactionInt" t == Qmax (rxi m0) (rxi m1)
  /\ nativeValue "vSurfaceFireMaxDirFromUpslope" t = mxd m0
  /\ nativeValue "vWindAdjFactor" t = waf m0
  /\ nativeValue "vWindSpeedAtMidflame" t = wmf m0
  /\ nativeValue "vSurfaceFireEffWindAtHead" t = ewsh m0
  /\ nativeValue "vSurfaceFireEffWindAtVector" t = ewsv m0
  /\ nativeValue "vSurfaceFireLengthToWidth" t = flw m0
  /\ nativeValue "vSurfaceFireWindSpeedLimit" t == Qmin (wsl m0) (wsl m1)
  /\ activeItemDataIndex "vSurfaceFireWindSpeedFlag" t
     = Z.b2z ((wmf m0 >? wsl m0) || (wmf m1 >? wsl m1))
  /\ nativeValue "vSurfaceFireHeatPerUnitArea" t == Qmax (hua m0) (hua m1)
  /\ nativeValue "vSurfaceFireLineIntAtHead" t == Qmax (flih m0) (flih m1)
  /\ nativeValue "vSurfaceFireLineIntAtVector" t == Qmax (fliv m0) (fliv m1)
  /\ nativeValue "vSurfaceFireFlameLengAtHead" t == Qmax (flh m0) (flh m1)
  /\ nativeValue "vSurfaceFireFlameLengAtVector" t == Qmax (flv m0) (flv m1)
  /\ nativeValue "vSurfaceFuelBedDepth" t == Qmax (m_depth fm0) (m_depth fm1).

(** ** [EqCalc::ContainFF] and [EqCalc::ContainFFSingle] *)

(** The Contain status codes, in the order of their values 0 to 7 as the
    crosswalk table lists them. *)
Inductive ContainStatus : Type :=
  | Unreported   (* 0: fire started but not yet reported *)
  | Reported     (* 1: fire reported but not yet attacked *)
  | Attacked     (* 2: fire attacked but not yet resolved *)
  | Contained    (* 3: fire contained by attacking forces *)
  | Overrun      (* 4: attacking resources are overrun *)
  | Exhausted    (* 5: attacking resources are exhausted *)
  | Overflow     (* 6: simulation max step overflow *)
  | DistLimit.   (* 7: fire spread distance limit exceeded *)

Definition statusIndex (s : ContainStatus) : nat :=
  match s with
  | Unreported => 0 | Reported => 1 | Attacked => 2 | Contained => 3
  | Overrun => 4 | Exhausted => 5 | Overflow => 6 | DistLimit => 7
  end.

(** The BehavePlus status codes: [// 0 == Contained], [// 1 == Withdrawn],
    [// 2 == Escaped]. *)
Definition StatusContained : Z := 0.
Definition StatusWithdrawn : Z := 1.
Definition StatusEscaped : Z := 2.

(** [static int Status[8]] *)
Definition Status : list Z := [2; 2; 2; 0; 1; 2; 2; 2]%Z.

(** What the two functions read from the simulator after [sim->run()]:
    the fields of [sim->m_left] and of [sim] itself. *)
Record Contain : Type := mkContain {
  m_status : ContainStatus;
  m_attackBack : Q;
  m_attackHead : Q;
  m_initialAttackBack : Q;
  m_initialAttackHead : Q;
  m_reportBack : Q;
  m_reportHead : Q;
  m_step : Z
}.

Record ContainSim : Type := mkContainSim {
  m_left : Contain;
  m_finalSize : Q;
  m_finalLine : Q;
  m_finalCost : Q;
  m_finalTime : Q;
  m_used : Z;
  m_xMax : Q;
  m_xMin : Q;
  m_yMax : Q
}.

(** One [ContainForce::addResource( arrival, prod, duration, LeftFlank,
    name, baseCost, hourCost )]. *)
Record ContainResource : Type := mkContainResource {
  m_arrival : Q;
  m_production : Q;
  m_duration : Q;
  m_desc : string;
  m_baseCost : Q;
  m_hourCost : Q
}.

(** The collaborators of the containment functions.  [resourceTokens] is the
    force that the loop of [ContainFF] assembles from the token lists of the
    resource variables with [Parser] and [appSiUnits()->convert];
    [runContainSim] constructs a [ContainSim] from its ten arguments, runs
    it, and yields what is read from it afterwards. *)
Class ContainLib : Type := {
  resourceTokens : EqTree -> list ContainResource;
  runContainSim :
    Q -> Q -> Q -> list ContainResource -> Z -> Q -> Q -> bool -> Z -> Z ->
    ContainSim
}.

(** The block that follows [sim->run()], the same in both functions: the
    pair [(status, finalSize)]. *)
Definition containOutcome (sim : ContainSim) : Z * Q :=
  let status := atZ Status (statusIndex (m_status (m_left sim))) in
  let finalSize := m_finalSize sim in
  if negb (status =? 0)%Z && negb (status =? 3)%Z then
    (* Reset final size to -1 acres;
       if fire line was built, then Withdrawn, otherwise Escaped *)
    (if m_finalLine sim >? 0.0 then 1%Z else 2%Z, -1)
  else (status, finalSize).

(** The simulator run of [ContainFF]. *)
Definition ContainFF_sim `{ContainLib} (prop : PropertyDict) (t : EqTree)
    : ContainSim :=
  let attackDist := nativeValue "vContainAttackDist" t in
  let tactic := activeItemDataIndex "vContainAttackTactic" t in
  let lwRatio := nativeValue "vContainReportRatio" t in
  let reportSize := nativeValue "vContainReportSize" t in
  let reportRate := nativeValue "vContainReportSpread" t in
  let distLimit := if boolean prop "containConfLimitDistOff" then 1000000
                   else nativeValue "vContainLimitDist" t in
  let force := resourceTokens t in
  let maxSteps := integer prop "containConfMaxSteps" in
  let minSteps := integer prop "containConfMinSteps" in
  let retry := boolean prop "containConfRetry" in
  runContainSim reportSize reportRate lwRatio force tactic attackDist
    distLimit retry minSteps maxSteps.

Definition ContainFF `{XfbLib} `{ContainLib} (prop : PropertyDict) : cmd :=
  fun t =>
  let lwRatio := nativeValue "vContainReportRatio" t in
  let sim := ContainFF_sim prop t in
  let '(status, finalSize) := containOutcome sim in
  (* useFirstResourceArrivalTimeAsInitialAttack = true *)
  let length := m_initialAttackBack (m_left sim)
              + m_initialAttackHead (m_left sim) in
  let width := FBL_SurfaceFireWidth length lwRatio in
  let perim := FBL_SurfaceFirePerimeter length width in
  let size := FBL_SurfaceFireArea length width * 0.1 in
  (update "vContainAttackBack" (m_initialAttackBack (m_left sim)) ;;
   update "vContainAttackHead" (m_initialAttackHead (m_left sim)) ;;
   update "vContainAttackPerimeter" perim ;;
   update "vContainAttackSize" size ;;
   update "vContainCost" (m_finalCost sim) ;;
   update "vContainLine" (m_finalLine sim) ;;
   update "vContainPoints" (inject_Z (m_step (m_left sim) + 1)) ;;
   update "vContainReportBack" (m_reportBack (m_left sim)) ;;
   update "vContainReportHead" (m_reportHead (m_left sim)) ;;
   update "vContainResourcesUsed" (inject_Z (m_used sim)) ;;
   update "vContainSize" finalSize ;;
   updateItem "vContainStatus" status ;;
   update "vContainTime" (m_finalTime sim) ;;
   update "vContainXMax" (m_xMax sim) ;;
   update "vContainXMin" (m_xMin sim) ;;
   update "vContainYMax" (m_yMax sim)) t.

(** The simulator run of [ContainFFSingle]: one resource, read from the
    native values of the resource variables. *)
Definition ContainFFSingle_sim `{ContainLib} (prop : PropertyDict)
    (t : EqTree) : ContainSim :=
  let attackDist := nativeValue "vContainAttackDist" t in
  let tactic := activeItemDataIndex "vContainAttackTactic" t in
  let lwRatio := nativeValue "vContainReportRatio" t in
  let reportSize := nativeValue "vContainReportSize" t in
  let reportRate := nativeValue "vContainReportSpread" t in
  let distLimit := if boolean prop "containConfLimitDistOff" then 1000000
                   else nativeValue "vContainLimitDist" t in
  let name := store "vContainResourceName" t in
  let arrival := nativeValue "vContainResourceArrival" t in
  let duration := nativeValue "vContainResourceDuration" t in
  let prod := nativeValue "vContainResourceProd" t in
  let doCost := isUserOutput "vContainCost" t in
  let baseCost := if doCost then nativeValue "vContainResourceBaseCost" t
                  else 0 in
  let hourCost := if doCost then nativeValue "vContainResourceHourCost" t
                  else 0 in
  let force :=
    [mkContainResource arrival prod duration name baseCost hourCost] in
  let maxSteps := integer prop "containConfMaxSteps" in
  let minSteps := integer prop "containConfMinSteps" in
  let retry := boolean prop "containConfRetry" in
  runContainSim reportSize reportRate lwRatio force tactic attackDist
    distLimit retry minSteps maxSteps.

Definition ContainFFSingle `{XfbLib} `{ContainLib} (prop : PropertyDict)
    : cmd := fun t =>
  let lwRatio := nativeValue "vContainReportRatio" t in
  let sim := ContainFFSingle_sim prop t in
  let '(status, finalSize) := containOutcome sim in
  let length := m_attackBack (m_left sim) + m_attackHead (m_left sim) in
  let width := FBL_SurfaceFireWidth length lwRatio in
  let perim := FBL_SurfaceFirePerimeter length width in
  let size := FBL_SurfaceFireArea length width * 0.1 in
  (update "vContainAttackBack" (m_attackBack (m_left sim)) ;;
   update "vContainAttackHead" (m_attackHead (m_left sim)) ;;
   update "vContainAttackPerimeter" perim ;;
   update "vContainAttackSize" size ;;
   update "vContainCost" (m_finalCost sim) ;;
   update "vContainLine" (m_finalLine sim) ;;
   update "vContainPoints" (inject_Z (m_step (m_left sim) + 1)) ;;
   update "vContainReportBack" (m_reportBack (m_left sim)) ;;
   update "vContainReportHead" (m_reportHead (m_left sim)) ;;
   update "vContainResourcesUsed" (inject_Z (m_used sim)) ;;
   update "vContainSize" finalSize ;;
   updateItem "vContainStatus" status ;;
   update "vContainTime" (m_finalTime sim) ;;
   update "vContainXMax" (m_xMax sim) ;;
   update "vContainXMin" (m_xMin sim) ;;
   update "vContainYMax" (m_yMax sim)) t.

(** The stored outcome of a run, in the words of its description: a
    contained fire is stored as Contained with the final size of the
    simulator; every other fire is stored with the final size -1, as
    Withdrawn when fire line was built and as Escaped otherwise. *)
Definition storesOutcome (sim : ContainSim) (t : EqTree) : Prop :=
  (m_status (m_left sim) = Contained ->
     activeItemDataIndex "vContainStatus" t = StatusContained
     /\ nativeValue "vContainSize" t = m_finalSize sim)
  /\ (m_status (m_left sim) <> Contained ->
     nativeValue "vContainSize" t = -1
     /\ (0 < m_finalLine sim ->
         activeItemDataIndex "vContainStatus" t = StatusWithdrawn)
     /\ (m_finalLine sim <= 0 ->
         activeItemDataIndex "vContainStatus" t = StatusEscaped)).
(** ** Further functions of [EqCalc]

    The functions below are members of the class [EqCalc] like the ones
    above; they live in a module of that name because two of them
    ([FuelMoisLifeClass], [FuelMoisTimeLag]) are also fields of
    [SurfaceNodes], through which [FuelBedWeighted] calls them. *)

(** [v->m_store.setNum( v->m_displayValue, 'f', v->m_displayDecimals )]:
    the text of the display value of a variable.  The unit conversion that
    [update] applies to get the display value, the number of decimals and
    the formatting belong to [EqVar] and to Qt; [displayStore v x] is the
    text stored for variable [v] when its native value is [x]. *)
Class EqVarDisplay : Type := {
  displayStore : string -> Q -> string
}.

Module EqCalc.

Definition setNum `{EqVarDisplay} (v : string) : cmd := fun t =>
  mkEqTree (m_nativeValue t) (m_activeItem t)
           (<[v := displayStore v (nativeValue v t)]> (m_store t))
           (m_isUserInput t) (m_isUserOutput t) (m_isConstant t) (m_label t)
           (m_active t).

(** [enum FuelLifeType], declared in [fuelmodel.h]; the values are the ones
    the comments of [FuelBedIntermediates] ([// Dead=0, Herb=1, Wood=2,
    Litter=3]) and of [FuelMoisTimeLag] give. *)
Definition FuelLifeType_DeadTimeLag : Z := 0.
Definition FuelLifeType_LiveHerb : Z := 1.
Definition FuelLifeType_LiveWood : Z := 2.
Definition FuelLifeType_DeadLitter : Z := 3.

(** *** Compass points and directions *)

(** [EqCalc::SiteAspectDirFromNorth] *)
Definition SiteAspectDirFromNorth : cmd := fun t =>
  let id := activeItemDataIndex "vSiteAspectDirFromCompass" t in
  let deg := 22.5 * inject_Z id in
  update "vSiteAspectDirFromNorth" deg t.

(** [EqCalc::SiteUpslopeDirFromNorth] *)
Definition SiteUpslopeDirFromNorth : cmd := fun t =>
  let aspect := nativeValue "vSiteAspectDirFromNorth" t in
  (* ( aspect >= 180. ) ? ( aspect - 180. ) : ( aspect + 180. ) *)
  let upslope := if negb (aspect <? 180) then aspect - 180 else aspect + 180 in
  update "vSiteUpslopeDirFromNorth" upslope t.

(** [EqCalc::WindDirFromNorth] *)
Definition WindDirFromNorth : cmd := fun t =>
  let id := activeItemDataIndex "vWindDirFromCompass" t in
  let dd := 22.5 * inject_Z id in
  update "vWindDirFromNorth" dd t.

(** *** Fuel models, fuel particles and their moistures *)

(** [EqCalc::FuelBedModel], for [fm = currentFuelModel( 0 )]. *)
Definition FuelBedModel `{EqVarDisplay} (fm : FuelModel) : cmd :=
  (* Copy values from the FuelModel into the EqTree *)
  updateItem "vSurfaceFuelLoadTransferEq" (m_transfer fm) ;;
  update "vSurfaceFuelBedDepth" (m_depth fm) ;;
  setNum "vSurfaceFuelBedDepth" ;;
  update "vSurfaceFuelBedMextDead" (m_mext fm) ;;
  setNum "vSurfaceFuelBedMextDead" ;;
  update "vSurfaceFuelHeatDead" (m_heatDead fm) ;;
  setNum "vSurfaceFuelHeatDead" ;;
  update "vSurfaceFuelHeatLive" (m_heatLive fm) ;;
  setNum "vSurfaceFuelHeatLive" ;;
  update "vSurfaceFuelLoadDead1" (m_load1 fm) ;;
  setNum "vSurfaceFuelLoadDead1" ;;
  update "vSurfaceFuelLoadDead10" (m_load10 fm) ;;
  setNum "vSurfaceFuelLoadDead10" ;;
  update "vSurfaceFuelLoadDead100" (m_load100 fm) ;;
  setNum "vSurfaceFuelLoadDead100" ;;
  update "vSurfaceFuelLoadLiveHerb" (m_loadHerb fm) ;;
  setNum "vSurfaceFuelLoadLiveHerb" ;;
  update "vSurfaceFuelLoadLiveWood" (m_loadWood fm) ;;
  setNum "vSurfaceFuelLoadLiveWood" ;;
  update "vSurfaceFuelSavrDead1" (m_savr1 fm) ;;
  setNum "vSurfaceFuelSavrDead1" ;;
  update "vSurfaceFuelSavrLiveHerb" (m_savrHerb fm) ;;
  setNum "vSurfaceFuelSavrLiveHerb" ;;
  update "vSurfaceFuelSavrLiveWood" (m_savrWood fm) ;;
  setNum "vSurfaceFuelSavrLiveWood".

(** [EqCalc::FuelAspenParms] *)
Definition FuelAspenParms : cmd :=
  updateItem (var vSurfaceFuelLife 0) FuelLifeType_DeadTimeLag ;;
  updateItem (var vSurfaceFuelLife 1) FuelLifeType_DeadTimeLag ;;
  updateItem (var vSurfaceFuelLife 2) FuelLifeType_LiveHerb ;;
  updateItem (var vSurfaceFuelLife 3) FuelLifeType_LiveWood ;;
  updateItem (var vSurfaceFuelLife 4) FuelLifeType_DeadTimeLag ;;
  updateItem (var vSurfaceFuelLife 5) FuelLifeType_DeadTimeLag ;;
  updateItem (var vSurfaceFuelLife 6) FuelLifeType_DeadTimeLag ;;
  updateItem (var vSurfaceFuelLife 7) FuelLifeType_DeadTimeLag ;;
  updateFrom (var vSurfaceFuelLoad 0) "vSurfaceFuelAspenLoadDead1" ;;
  updateFrom (var vSurfaceFuelLoad 1) "vSurfaceFuelAspenLoadDead10" ;;
  updateFrom (var vSurfaceFuelLoad 2) "vSurfaceFuelAspenLoadLiveHerb" ;;
  updateFrom (var vSurfaceFuelLoad 3) "vSurfaceFuelAspenLoadLiveWoody" ;;
  update (var vSurfaceFuelLoad 4) 0 ;;
  update (var vSurfaceFuelLoad 5) 0 ;;
  update (var vSurfaceFuelLoad 6) 0 ;;
  update (var vSurfaceFuelLoad 7) 0 ;;
  updateFrom (var vSurfaceFuelSavr 0) "vSurfaceFuelAspenSavrDead1" ;;
  updateFrom (var vSurfaceFuelSavr 1) "vSurfaceFuelAspenSavrDead10" ;;
  updateFrom (var vSurfaceFuelSavr 2) "vSurfaceFuelAspenSavrLiveHerb" ;;
  updateFrom (var vSurfaceFuelSavr 3) "vSurfaceFuelAspenSavrLiveWoody" ;;
  update (var vSurfaceFuelSavr 4) 30.0 ;;
  update (var vSurfaceFuelSavr 5) 30.0 ;;
  update (var vSurfaceFuelSavr 6) 30.0 ;;
  update (var vSurfaceFuelSavr 7) 30.0 ;;
  forParts (fun i =>
    update (var vSurfaceFuelDens i) 32.0 ;;
    update (var vSurfaceFuelHeat i) 8000 ;;
    update (var vSurfaceFuelSeff i) 0.010 ;;
    update (var vSurfaceFuelStot i) 0.055).

(** [EqCalc::FuelMoisLifeClass] *)
Definition FuelMoisLifeClass `{EqVarDisplay} : cmd := fun t =>
  let dead := nativeValue "vSurfaceFuelMoisLifeDead" t in
  let live := nativeValue "vSurfaceFuelMoisLifeLive" t in
  (update "vSurfaceFuelMoisDead1" dead ;;
   setNum "vSurfaceFuelMoisDead1" ;;
   update "vSurfaceFuelMoisDead10" dead ;;
   setNum "vSurfaceFuelMoisDead10" ;;
   update "vSurfaceFuelMoisDead100" dead ;;
   setNum "vSurfaceFuelMoisDead100" ;;
   update "vSurfaceFuelMoisDead1000" dead ;;
   setNum "vSurfaceFuelMoisDead1000" ;;
   update "vSurfaceFuelMoisLiveHerb" live ;;
   setNum "vSurfaceFuelMoisLiveHerb" ;;
   update "vSurfaceFuelMoisLiveWood" live ;;
   setNum "vSurfaceFuelMoisLiveWood") t.

(** The [if] chain of [FuelMoisTimeLag]: the moisture variable that a
    particle of the given life category and surface-area-to-volume ratio
    takes its moisture from. *)
Definition moistureSource (life : Z) (savr : Q) : string :=
  if (life =? FuelLifeType_LiveHerb)%Z then "vSurfaceFuelMoisLiveHerb"
  else if (life =? FuelLifeType_LiveWood)%Z then "vSurfaceFuelMoisLiveWood"
  else if (life =? FuelLifeType_DeadLitter)%Z then "vSurfaceFuelMoisDead100"
  else if savr >? 192 then "vSurfaceFuelMoisDead1"
  else if savr >? 48 then "vSurfaceFuelMoisDead10"
  else if savr >? 16 then "vSurfaceFuelMoisDead100"
  else "vSurfaceFuelMoisDead1000".

(** [EqCalc::FuelMoisTimeLag] *)
Definition FuelMoisTimeLag : cmd :=
  forParts (fun i => fun t =>
    let life := activeItemDataIndex (var vSurfaceFuelLife i) t in
    let savr := nativeValue (var vSurfaceFuelSavr i) t in
    let mois := nativeValue (moistureSource life savr) t in
    update (var vSurfaceFuelMois i) mois t).

(** *** [EqCalc::showInitFromFuelModelButton] ([xeqcalcreconfig.cpp]) *)

Definition showInitFromFuelModelButton (t : EqTree) : bool :=
  isActive "fSurfaceFuelBedParms" t && negb (isActive "fSurfaceFuelBedModel" t).

End EqCalc.

(** ** The reconfiguration procedures, [xeqcalcreconfig.cpp]

    Each procedure is the sequence of flag assignments of its C++ body, in
    the order of the source.  A condition [prop->boolean( "name" )] reads
    [boolean prop "name"]; the unused [release] argument is dropped. *)

Definition reconfigureContainModule (prop : PropertyDict) : cmd :=
  if negb (boolean prop "containModuleActive") then skip else
  set_active "fContainFF" (boolean prop "containConfResourcesMultiple") ;;
  set_active "fContainFFSingle" (boolean prop "containConfResourcesSingle") ;;
  (if boolean prop "containConfResourcesSingle" then
     set_isConstant "vContainResourceName" true
   else
     set_isConstant "vContainResourceName" false) ;;
  (if boolean prop "containConfLimitDistOn" then
     set_isConstant "vContainLimitDist" false ;;
     set_isUserInput "vContainLimitDist" true
   else
     set_isConstant "vContainLimitDist" true ;;
     set_isUserInput "vContainLimitDist" false) ;;
  set_isUserOutput "vContainLine" (boolean prop "containCalcLine") ;;
  set_isUserOutput "vContainResourcesUsed"
    (boolean prop "containCalcResourcesUsed") ;;
  set_isUserOutput "vContainSize" (boolean prop "containCalcSize") ;;
  set_isUserOutput "vContainStatus" (boolean prop "containCalcStatus") ;;
  set_isUserOutput "vContainTime" (boolean prop "containCalcTime") ;;
  set_isUserOutput "vContainCost" (boolean prop "containCalcCost") ;;
  set_isUserOutput "vContainDiagram" (boolean prop "containCalcDiagram") ;;
  set_isUserOutput "vContainAttackPerimeter"
    (boolean prop "containCalcAttackPerimeter") ;;
  set_isUserOutput "vContainAttackSize"
    (boolean prop "containCalcAttackSize") ;;
  set_isConstant "vContainResourceBaseCost" false ;;
  set_isConstant "vContainResourceHourCost" false ;;
  (ifTree (fun t => negb (isUserOutput "vContainCost" t)) (
     set_isConstant "vContainResourceBaseCost" true ;;
     set_isConstant "vContainResourceHourCost" true)
   (skip)) ;;
  (if boolean prop "surfaceModuleActive" then
     set_active "fContainFFReportSpread" true ;;
     set_active "fContainFFReportRatio" true
   else skip) ;;
  (if boolean prop "sizeModuleActive" then
     set_active "fContainFFReportSpread" true ;;
     set_active "fContainFFReportRatio" true ;;
     set_active "fContainFFReportSize" true
   else skip) ;;
  set_active "fContainFFReportSpread" true.

Definition reconfigureCrownModule (prop : PropertyDict) : cmd :=
  if negb (boolean prop "crownModuleActive") then skip else
  set_active "fCrownFireActiveCrown" true ;;
  set_active "fCrownFireActiveRatio" true ;;
  set_active "fCrownFireArea" true ;;
  set_active "fCrownFireCritCrownSpreadRate" true ;;
  set_active "fCrownFireCritSurfFireInt" true ;;
  set_active "fCrownFireCritSurfFlameLeng" true ;;
  set_active "fCrownFireLengthToWidth" true ;;
  set_active "fCrownFirePerimeter" true ;;
  set_active "fCrownFireSpreadDist" true ;;
  set_active "fCrownFireSpreadMapDist" true ;;
  set_active "fCrownFireSpreadRate" true ;;
  set_active "fCrownFireTransToCrown" true ;;
  set_active "fCrownFireTransRatioFromFireIntAtVector" false ;;
  set_active "fCrownFireTransRatioFromFireIntAtVector" false ;;
  set_active "fCrownFireType" true ;;
  set_active "fCrownFireFlameLeng" true ;;
  set_active "fCrownFireFuelLoad" true ;;
  set_active "fCrownFireHeatPerUnitArea" true ;;
  set_active "fCrownFireHeatPerUnitAreaCanopy" true ;;
  set_active "fCrownFireLineInt" true ;;
  set_active "fCrownFirePowerOfFire" true ;;
  set_active "fCrownFirePowerOfWind" true ;;
  set_active "fCrownFirePowerRatio" true ;;
  set_active "fCrownFireWindDriven" true ;;
  (if boolean prop "surfaceModuleActive" then
     (if boolean prop "surfaceConfSpreadDirInput" then
        set_active "fCrownFireTransRatioFromFireIntAtVector" true
      else
        set_active "fCrownFireTransRatioFromFireIntAtVector" true)
   else
     (if boolean prop "crownConfUseFlameLeng" then
        set_active "fCrownFireTransRatioFromFlameLengAtVector" true
      else
        set_active "fCrownFireTransRatioFromFireIntAtVector" true) ;;
     (if boolean prop "surfaceConfWindSpeedAt10M"
         || boolean prop "surfaceConfWindSpeedAt10MCalc" then
        set_active "fWindSpeedAt20Ft" true
      else skip)) ;;
  set_isUserOutput "vCrownFireActiveCrown"
    (boolean prop "crownCalcActiveCrown") ;;
  set_isUserOutput "vCrownFireActiveRatio"
    (boolean prop "crownCalcActiveRatio") ;;
  set_isUserOutput "vCrownFireArea" (boolean prop "crownCalcFireArea") ;;
  set_isUserOutput "vCrownFireCritCrownSpreadRate"
    (boolean prop "crownCalcCriticalCrownSpreadRate") ;;
  set_isUserOutput "vCrownFireCritSurfFireInt"
    (boolean prop "crownCalcCriticalSurfaceIntensity") ;;
  set_isUserOutput "vCrownFireCritSurfFlameLeng"
    (boolean prop "crownCalcCriticalSurfaceFlameLeng") ;;
  set_isUserOutput "vCrownFireFlameLeng"
    (boolean prop "crownCalcFlameLeng") ;;
  set_isUserOutput "vCrownFireFuelLoad" (boolean prop "crownCalcFuelLoad") ;;
  set_isUserOutput "vCrownFireHeatPerUnitArea"
    (boolean prop "crownCalcHeatPerUnitArea") ;;
  set_isUserOutput "vCrownFireHeatPerUnitAreaCanopy"
    (boolean prop "crownCalcHeatPerUnitAreaCanopy") ;;
  set_isUserOutput "vCrownFireLengthToWidth"
    (boolean prop "crownCalcFireLengthToWidth") ;;
  set_isUserOutput "vCrownFireLineInt"
    (boolean prop "crownCalcFireLineInt") ;;
  set_isUserOutput "vCrownFirePerimeter"
    (boolean prop "crownCalcFirePerimeter") ;;
  set_isUserOutput "vCrownFirePowerOfFire"
    (boolean prop "crownCalcPowerOfFire") ;;
  set_isUserOutput "vCrownFirePowerOfWind"
    (boolean prop "crownCalcPowerOfWind") ;;
  set_isUserOutput "vCrownFirePowerRatio"
    (boolean prop "crownCalcPowerRatio") ;;
  set_isUserOutput "vCrownFireSpreadDist"
    (boolean prop "crownCalcCrownSpreadDist") ;;
  set_isUserOutput "vCrownFireSpreadRate"
    (boolean prop "crownCalcCrownSpreadRate") ;;
  set_isUserOutput "vCrownFireTransRatio"
    (boolean prop "crownCalcTransitionRatio") ;;
  set_isUserOutput "vCrownFireTransToCrown"
    (boolean prop "crownCalcTransitionToCrown") ;;
  set_isUserOutput "vCrownFireType" (boolean prop "crownCalcCrownFireType") ;;
  set_isUserOutput "vCrownFireWindDriven"
    (boolean prop "crownCalcWindDriven") ;;
  (if boolean prop "mapCalcDist" then
     set_active "fMapScale" true ;;
     set_isUserOutput "vCrownFireSpreadMapDist"
       (boolean prop "crownCalcCrownSpreadDist")
   else skip).

Definition reconfigureDocumentation (prop : PropertyDict) : cmd :=
  (if boolean prop "docDescriptionActive" then
     set_isUserInput "vDocDescription" true ;;
     set_isUserOutput "vDocDescription" true
   else skip) ;;
  (if boolean prop "docRxActive" then
     set_isUserInput "vDocRxAdminUnit" true ;;
     set_isUserOutput "vDocRxAdminUnit" true ;;
     set_isUserInput "vDocRxName" true ;;
     set_isUserOutput "vDocRxName" true ;;
     set_isUserInput "vDocRxPreparedBy" true ;;
     set_isUserOutput "vDocRxPreparedBy" true
   else skip) ;;
  (if boolean prop "docFireActive" then
     set_isUserInput "vDocFireAnalyst" true ;;
     set_isUserOutput "vDocFireAnalyst" true ;;
     set_isUserInput "vDocFireName" true ;;
     set_isUserOutput "vDocFireName" true ;;
     set_isUserInput "vDocFirePeriod" true ;;
     set_isUserOutput "vDocFirePeriod" true
   else skip) ;;
  (if boolean prop "docTrainingActive" then
     set_isUserInput "vDocTrainingCourse" true ;;
     set_isUserOutput "vDocTrainingCourse" true ;;
     set_isUserInput "vDocTrainingExercise" true ;;
     set_isUserOutput "vDocTrainingExercise" true ;;
     set_isUserInput "vDocTrainingTrainee" true ;;
     set_isUserOutput "vDocTrainingTrainee" true
   else skip).

Definition reconfigureIgnitionModule (prop : PropertyDict) : cmd :=
  if negb (boolean prop "ignitionModuleActive") then skip else
  set_active "fIgnitionFirebrandProb" true ;;
  set_active "fIgnitionLightningProb" true ;;
  set_active "fSurfaceFuelTemp" true ;;
  set_isUserOutput "vIgnitionFirebrandProb"
    (boolean prop "ignitionCalcIgnitionFirebrandProb") ;;
  set_isUserOutput "vIgnitionLightningProb"
    (boolean prop "ignitionCalcIgnitionLightningProb") ;;
  set_isUserOutput "vSurfaceFuelTemp" (boolean prop "ignitionCalcFuelTemp") ;;
  (if boolean prop "surfaceModuleActive" then
     set_active "fIgnitionFirebrandFuelMoisFromDead1Hr" true ;;
     set_active "fIgnitionLightningFuelMoisFromDead100Hr" true
   else skip).

Definition reconfigureMortalityModule (prop : PropertyDict) : cmd :=
  if negb (boolean prop "mortalityModuleActive") then skip else
  set_active "fTreeCrownBaseHt" false ;;
  set_active "fTreeCrownVolScorchedAtVector" true ;;
  set_active "fTreeMortalityCountAtVector" true ;;
  set_active "fTreeMortalityRateFofemAtVector" false ;;
  set_active "fTreeMortalityRateFofem2AtVector" false ;;
  set_active "fTreeMortalityRateFofemHoodAtVector" true ;;
  (let a := boolean prop "crownModuleActive" in
  (if a then
     set_active "fTreeCrownRatio" true
   else skip) ;;
  set_active "fTreeMortalityRateFofemHoodAtVector" true ;;
  set_active "fTreeBarkThicknessFofem" true ;;
  set_isUserOutput "vTreeBarkThickness"
    (boolean prop "mortalityCalcBarkThickness") ;;
  set_isUserOutput "vTreeCrownLengScorchedAtVector"
    (boolean prop "mortalityCalcTreeCrownLengScorched") ;;
  set_isUserOutput "vTreeCrownVolScorchedAtVector"
    (boolean prop "mortalityCalcTreeCrownVolScorched") ;;
  set_isUserOutput "vTreeMortalityCountAtVector"
    (boolean prop "mortalityCalcTreeMortalityCount") ;;
  set_isUserOutput "vTreeMortalityRateAtVector"
    (boolean prop "mortalityCalcTreeMortalityRate") ;;
  (if boolean prop "surfaceModuleActive"
      && negb (boolean prop "scorchModuleActive") then
     set_active "fSurfaceFireScorchHtFromFliAtVector" true
   else skip)).

Definition reconfigureSafetyModule (prop : PropertyDict) : cmd :=
  if negb (boolean prop "safetyModuleActive") then skip else
  (set_isUserOutput "vSafetyZoneRadius" (boolean prop "safetyCalcRadius") ;;
   (if boolean prop "safetyCalcRadius" then
      set_active "fSafetyZoneSepDist" true ;;
      set_active "fSafetyZoneRadius" true
    else skip)) ;;
  (set_isUserOutput "vSafetyZoneSepDist" (boolean prop "safetyCalcSepDist") ;;
   (if boolean prop "safetyCalcSepDist" then
      set_active "fSafetyZoneSepDist" true
    else skip)) ;;
  (set_isUserOutput "vSafetyZoneSize" (boolean prop "safetyCalcSize") ;;
   (if boolean prop "safetyCalcSize" then
      set_active "fSafetyZoneSepDist" true ;;
      set_active "fSafetyZoneRadius" true
    else skip)) ;;
  (if boolean prop "surfaceModuleActive" then
     set_active "fSurfaceFireFlameLengAtHead" true ;;
     set_isUserInput "vSurfaceFireFlameLengAtHead" false
   else skip).

Definition reconfigureScorchModule (prop : PropertyDict) : cmd :=
  if negb (boolean prop "scorchModuleActive")
     || negb (boolean prop "scorchCalcScorchHt") then skip else
  (if boolean prop "surfaceModuleActive" then
     set_active "fSurfaceFireScorchHtFromFliAtVector" true ;;
     set_isUserOutput "vSurfaceFireScorchHtAtVector" true
   else
     set_active "fWindSpeedAt20Ft" false ;;
     set_active "fWindSpeedAtMidflame" false ;;
     set_active "fWindAdjFactor" false ;;
     set_isUserOutput "vSurfaceFireScorchHtAtVector" true ;;
     (if boolean prop "scorchConfUseFlameLeng" then
        set_active "fSurfaceFireScorchHtFromFlameLengAtVector" true
      else
        set_active "fSurfaceFireScorchHtFromFliAtVector" true) ;;
     (if boolean prop "surfaceConfWindSpeedAtMidflame" then
        set_isConstant "vWindAdjFactor" true ;;
        update "vWindAdjFactor" 1.0 ;;
        set_isConstant "vWindAdjMethod" true ;;
        updateItem "vWindAdjMethod" 2
      else if boolean prop "surfaceConfWindSpeedAt20Ft" then
        set_active "fWindSpeedAtMidflame" true ;;
        set_active "fWindAdjFactor" false ;;
        set_isUserOutput "vWindSpeedAtMidflame"
          (boolean prop "surfaceCalcWindSpeedAtMidflame") ;;
        set_isConstant "vWindAdjMethod" true ;;
        updateItem "vWindAdjMethod" 2
      else if boolean prop "surfaceConfWindSpeedAt20FtCalc" then
        set_active "fWindSpeedAtMidflame" true ;;
        set_active "fWindAdjFactor" true ;;
        set_isUserOutput "vWindSpeedAtMidflame"
          (boolean prop "surfaceCalcWindSpeedAtMidflame") ;;
        set_isConstant "vWindAdjMethod" false ;;
        updateItem "vWindAdjMethod" 2
      else if boolean prop "surfaceConfWindSpeedAt10M" then
        set_active "fWindSpeedAt20Ft" true ;;
        set_active "fWindSpeedAtMidflame" true ;;
        set_active "fWindAdjFactor" false ;;
        set_isUserOutput "vWindSpeedAtMidflame"
          (boolean prop "surfaceCalcWindSpeedAtMidflame") ;;
        set_isConstant "vWindAdjMethod" true ;;
        updateItem "vWindAdjMethod" 2
      else if boolean prop "surfaceConfWindSpeedAt10MCalc" then
        set_active "fWindSpeedAt20Ft" true ;;
        set_active "fWindSpeedAtMidflame" true ;;
        set_active "fWindAdjFactor" true ;;
        set_isUserOutput "vWindSpeedAtMidflame"
          (boolean prop "surfaceCalcWindSpeedAtMidflame") ;;
        set_isConstant "vWindAdjMethod" false ;;
        updateItem "vWindAdjMethod" 2
      else skip)).

Definition reconfigureSizeModule (prop : PropertyDict) : cmd :=
  if negb (boolean prop "sizeModuleActive") then skip else
  set_active "fSurfaceFireArea" true ;;
  set_active "fSurfaceFireDistAtBack" true ;;
  set_active "fSurfaceFireDistAtHead" true ;;
  set_active "fSurfaceFireEccentricity" true ;;
  set_active "fSurfaceFireLengDist" true ;;
  set_active "fSurfaceFireLengMapDist" true ;;
  set_active "fSurfaceFireLengthToWidth" true ;;
  set_active "fSurfaceFireMapDistAtBack" true ;;
  set_active "fSurfaceFireMapDistAtHead" true ;;
  set_active "fSurfaceFirePerimeter" true ;;
  set_active "fSurfaceFireShapeDiagram" true ;;
  set_active "fSurfaceFireSpreadAtBack" true ;;
  set_active "fSurfaceFireWidthDist" true ;;
  set_active "fSurfaceFireWidthMapDist" true ;;
  set_isUserOutput "vSurfaceFireArea" (boolean prop "sizeCalcFireArea") ;;
  set_isUserOutput "vSurfaceFireDistAtBack"
    (boolean prop "sizeCalcFireDistAtBack") ;;
  set_isUserOutput "vSurfaceFireDistAtHead"
    (boolean prop "sizeCalcFireDistAtFront") ;;
  set_isUserOutput "vSurfaceFireLengthToWidth"
    (boolean prop "sizeCalcFireLengToWidth") ;;
  set_isUserOutput "vSurfaceFireLengDist"
    (boolean prop "sizeCalcFireLengDist") ;;
  set_isUserOutput "vSurfaceFirePerimeter"
    (boolean prop "sizeCalcFirePerimeter") ;;
  set_isUserOutput "vSurfaceFireWidthDist"
    (boolean prop "sizeCalcFireWidthDist") ;;
  set_isUserOutput "vSurfaceFireShapeDiagram"
    (boolean prop "sizeCalcFireShapeDiagram") ;;
  (if boolean prop "mapCalcDist" then
     set_active "fMapScale" true ;;
     set_isUserOutput "vSurfaceFireMapDistAtBack"
       (boolean prop "sizeCalcFireDistAtBack") ;;
     set_isUserOutput "vSurfaceFireMapDistAtHead"
       (boolean prop "sizeCalcFireDistAtFront") ;;
     set_isUserOutput "vSurfaceFireLengMapDist"
       (boolean prop "sizeCalcFireLengDist") ;;
     set_isUserOutput "vSurfaceFireWidthMapDist"
       (boolean prop "sizeCalcFireWidthDist")
   else skip).

Definition reconfigureSpotModule (prop : PropertyDict) : cmd :=
  if negb (boolean prop "spotModuleActive") then skip else
  set_active "fSpotDistBurningPile" true ;;
  set_active "fSpotDistSurfaceFire" true ;;
  set_active "fSpotDistTorchingTrees" true ;;
  (if negb (boolean prop "surfaceModuleActive") then
     (if boolean prop "surfaceConfWindSpeedAt10M"
         || boolean prop "surfaceConfWindSpeedAt10MCalc" then
        set_active "fWindSpeedAt20Ft" true
      else skip)
   else skip) ;;
  set_isUserOutput "vSpotDistBurningPile"
    (boolean prop "spotCalcDistBurningPile") ;;
  set_isUserOutput "vSpotCoverHtBurningPile"
    (boolean prop "spotCalcCoverHtBurningPile") ;;
  set_isUserOutput "vSpotFirebrandHtBurningPile"
    (boolean prop "spotCalcFirebrandHtBurningPile") ;;
  set_isUserOutput "vSpotFlatDistBurningPile"
    (boolean prop "spotCalcFlatDistBurningPile") ;;
  set_isUserOutput "vSpotDistSurfaceFire"
    (boolean prop "spotCalcDistSurfaceFire") ;;
  set_isUserOutput "vSpotCoverHtSurfaceFire"
    (boolean prop "spotCalcCoverHtSurfaceFire") ;;
  set_isUserOutput "vSpotFirebrandDriftSurfaceFire"
    (boolean prop "spotCalcFirebrandDriftSurfaceFire") ;;
  set_isUserOutput "vSpotFirebrandHtSurfaceFire"
    (boolean prop "spotCalcFirebrandHtSurfaceFire") ;;
  set_isUserOutput "vSpotFlatDistSurfaceFire"
    (boolean prop "spotCalcFlatDistSurfaceFire") ;;
  set_isUserOutput "vSpotDistTorchingTrees"
    (boolean prop "spotCalcDistTorchingTrees") ;;
  set_isUserOutput "vSpotCoverHtTorchingTrees"
    (boolean prop "spotCalcCoverHtTorchingTrees") ;;
  set_isUserOutput "vSpotFlameDurTorchingTrees"
    (boolean prop "spotCalcFlameDurTorchingTrees") ;;
  set_isUserOutput "vSpotFlameHtTorchingTrees"
    (boolean prop "spotCalcFlameHtTorchingTrees") ;;
  set_isUserOutput "vSpotFlameRatioTorchingTrees"
    (boolean prop "spotCalcFlameRatioTorchingTrees") ;;
  set_isUserOutput "vSpotFirebrandHtTorchingTrees"
    (boolean prop "spotCalcFirebrandHtTorchingTrees") ;;
  set_isUserOutput "vSpotFlatDistTorchingTrees"
    (boolean prop "spotCalcFlatDistTorchingTrees") ;;
  (if boolean prop "mapCalcDist" then
     set_active "fMapScale" true ;;
     set_active "fSpotMapDistBurningPile" true ;;
     set_active "fSpotMapDistSurfaceFire" true ;;
     set_active "fSpotMapDistTorchingTrees" true ;;
     set_isUserOutput "vSpotMapDistBurningPile"
       (boolean prop "spotCalcDistBurningPile") ;;
     set_isUserOutput "vSpotMapDistSurfaceFire"
       (boolean prop "spotCalcDistSurfaceFire") ;;
     set_isUserOutput "vSpotMapDistTorchingTrees"
       (boolean prop "spotCalcDistTorchingTrees")
   else skip).

(** [reconfigureSurfaceModule]: the module functions that are not user
    configurable. *)
Definition surfaceModuleFunctions : cmd :=
  set_active "fSurfaceFireCharacteristicsDiagram" true ;;
  set_active "fSurfaceFireDistAtHead" true ;;
  set_active "fSurfaceFireDistAtVector" true ;;
  set_active "fSurfaceFireEccentricity" true ;;
  set_active "fSurfaceFireEffWindAtVector" true ;;
  set_active "fSurfaceFireFlameLengAtHead" true ;;
  set_active "fSurfaceFireFlameLengAtVector" true ;;
  set_active "fSurfaceFireMaxDirFromNorth" true ;;
  set_active "fSurfaceFireHeatSource" true ;;
  set_active "fSurfaceFireMaxDirDiagram" true ;;
  set_active "fSurfaceFireMapDistAtHead" true ;;
  set_active "fSurfaceFireMapDistAtVector" true ;;
  set_active "fSurfaceFireSpreadAtBack" true ;;
  set_active "fSurfaceFireSpreadAtHead" true ;;
  set_active "fSurfaceFireVectorBeta" true ;;
  set_active "fSurfaceFireSpreadAtBeta" true ;;
  set_active "fSurfaceFireHeatPerUnitArea" true ;;
  set_active "fSurfaceFireLengthToWidth" true ;;
  set_active "fSurfaceFireLineIntAtHead" true ;;
  set_active "fSurfaceFireLineIntAtVector" true ;;
  set_active "fSurfaceFireNoWindRate" true ;;
  set_active "fSurfaceFirePropagatingFlux" true ;;
  set_active "fSurfaceFireReactionInt" true ;;
  set_active "fSurfaceFireResidenceTime" true ;;
  set_active "fSurfaceFuelBedIntermediates" true ;;
  set_active "fSurfaceFuelBedHeatSink" true ;;
  set_active "fSurfaceFuelMoisTimeLag" true.

(** Option 1, fuel is entered as ...: the commands of the choice taken,
    paired with the value the local [weighted] (initially [false]) has after
    it. *)
Definition surfaceFuelOption (prop : PropertyDict) : cmd * bool :=
  if boolean prop "surfaceConfFuelModels" then
    (set_active "fSurfaceFuelBedParms" true ;;
     set_active "fSurfaceFuelBedModel" true,
     false)
  else if boolean prop "surfaceConfFuelParms" then
    (set_active "fSurfaceFuelBedParms" true,
     false)
  else if boolean prop "surfaceConfFuelAreaWeighted"
          || boolean prop "surfaceConfFuelHarmonicMean"
          || boolean prop "surfaceConfFuel2Dimensional" then
    (set_active "fSurfaceFuelBedWeighted" true ;;
     set_isUserInput "vSurfaceFuelLoadTransferEq" false ;;
     set_isConstant "vSurfaceFuelLoadTransferEq" true ;;
     set_active "fSurfaceFuelBedModel" false ;;
     set_active "fSurfaceFuelBedParms" false ;;
     set_active "fSurfaceFuelLoadTransferFraction" false ;;
     set_active "fSurfaceFuelBedIntermediates" false ;;
     set_active "fSurfaceFireResidenceTime" false ;;
     set_active "fSurfaceFuelMoisLifeClass" false ;;
     set_active "fSurfaceFuelMoisScenarioModel" false ;;
     set_active "fSurfaceFuelMoisTimeLag" false ;;
     set_active "fSurfaceFuelBedHeatSink" false ;;
     set_active "fSurfaceFirePropagatingFlux" false ;;
     set_active "fSurfaceFireReactionInt" false ;;
     set_active "fSurfaceFireNoWindRate" false ;;
     set_active "fWindAdjFactor" false ;;
     set_active "fWindSpeedAt20Ft" false ;;
     set_active "fWindSpeedAtMidflame" false ;;
     set_active "fSurfaceFireSpreadAtHead" false ;;
     set_active "fSurfaceFireLineIntAtHead" false ;;
     set_active "fSurfaceFireFlameLengAtHead" false ;;
     set_active "fSurfaceFireLengthToWidth" false ;;
     set_active "fSurfaceFireEccentricity" false ;;
     set_active "fSurfaceFireVectorBeta" false ;;
     set_active "fSurfaceFireSpreadAtBeta" false ;;
     set_active "fSurfaceFireLineIntAtVector" false ;;
     set_active "fSurfaceFireFlameLengAtVector" false ;;
     set_active "fSurfaceFireEffWindAtVector" false ;;
     set_active "fSurfaceFireHeatPerUnitArea" false,
     true)
  else if boolean prop "surfaceConfFuelPalmettoGallberry" then
    (set_active "fSurfaceFuelPalmettoModel" true ;;
     set_active "fSurfaceFuelPalmettoParms" true ;;
     set_isUserOutput "vSurfaceFuelPalmettoLoadDead1"
       (boolean prop "surfaceCalcPalmettoLoadDead1") ;;
     set_isUserOutput "vSurfaceFuelPalmettoLoadDead10"
       (boolean prop "surfaceCalcPalmettoLoadDead10") ;;
     set_isUserOutput "vSurfaceFuelPalmettoLoadDeadFoliage"
       (boolean prop "surfaceCalcPalmettoLoadDeadFoliage") ;;
     set_isUserOutput "vSurfaceFuelPalmettoLoadLive1"
       (boolean prop "surfaceCalcPalmettoLoadLive1") ;;
     set_isUserOutput "vSurfaceFuelPalmettoLoadLive10"
       (boolean prop "surfaceCalcPalmettoLoadLive10") ;;
     set_isUserOutput "vSurfaceFuelPalmettoLoadLiveFoliage"
       (boolean prop "surfaceCalcPalmettoLoadLiveFoliage") ;;
     set_isUserOutput "vSurfaceFuelPalmettoLoadLitter"
       (boolean prop "surfaceCalcPalmettoLoadLitter") ;;
     set_isUserOutput "vSurfaceFuelBedDepth"
       (boolean prop "surfaceCalcPalmettoBedDepth"),
     false)
  else if boolean prop "surfaceConfFuelAspen" then
    (set_active "fSurfaceFuelAspenModel" true ;;
     set_active "fSurfaceFuelAspenParms" true ;;
     set_active "fTreeMortalityRateAspenAtVector" true ;;
     set_isUserOutput "vSurfaceFuelAspenLoadDead1"
       (boolean prop "surfaceCalcAspenLoadDead1") ;;
     set_isUserOutput "vSurfaceFuelAspenLoadDead10" false ;;
     set_isUserOutput "vSurfaceFuelAspenLoadLiveHerb"
       (boolean prop "surfaceCalcAspenLoadLiveHerb") ;;
     set_isUserOutput "vSurfaceFuelAspenLoadLiveWoody"
       (boolean prop "surfaceCalcAspenLoadLiveWoody") ;;
     set_isUserOutput "vSurfaceFuelAspenSavrDead1"
       (boolean prop "surfaceCalcAspenSavrDead1") ;;
     set_isUserOutput "vSurfaceFuelAspenSavrDead10" false ;;
     set_isUserOutput "vSurfaceFuelAspenSavrLiveHerb" false ;;
     set_isUserOutput "vSurfaceFuelAspenSavrLiveWoody"
       (boolean prop "surfaceCalcAspenSavrLiveWoody") ;;
     set_isUserOutput "vSurfaceFuelBedDepth" false ;;
     set_isUserOutput "vTreeMortalityRateAspenAtVector"
       (boolean prop "surfaceCalcAspenMortality"),
     false)
  else (skip, false).

(** Option 2, dynamic curing load transfer. *)
Definition surfaceLoadTransferOption (prop : PropertyDict) : cmd :=
  (if boolean prop "surfaceConfLoadTransferCalc" then
     set_isUserInput "vSurfaceFuelLoadTransferFraction" false ;;
     set_active "fSurfaceFuelLoadTransferFraction" true
   else if boolean prop "surfaceConfLoadTransferInput" then
     set_isUserInput "vSurfaceFuelLoadTransferFraction" true ;;
     set_active "fSurfaceFuelLoadTransferFraction" false
   else skip) ;;
  (if boolean prop "surfaceConfFuelPalmettoGallberry"
      || boolean prop "surfaceConfFuelAspen" then
     set_isConstant "vSurfaceFuelLoadTransferEq" true ;;
     updateItem "vSurfaceFuelLoadTransferEq" 0 ;;
     set_isUserInput "vSurfaceFuelLoadTransferFraction" false ;;
     set_active "fSurfaceFuelLoadTransferFraction" true ;;
     set_isConstant "vSurfaceFuelLoadTransferFraction" true ;;
     update "vSurfaceFuelLoadTransferFraction" 0.0
   else skip).

(** Option 3, moisture is entered by ... *)
Definition surfaceMoistureOption (prop : PropertyDict) : cmd :=
  (if boolean prop "surfaceConfMoisTimeLag" then
     skip
   else if boolean prop "surfaceConfMoisLifeCat" then
     set_active "fSurfaceFuelMoisLifeClass" true
   else if boolean prop "surfaceConfMoisScenario" then
     set_active "fSurfaceFuelMoisScenarioModel" true
   else skip).

(** Option 4, wind speed is entered as ... *)
Definition surfaceWindSpeedOption (prop : PropertyDict) (weighted : bool)
    : cmd :=
  (if boolean prop "surfaceConfWindSpeedAtMidflame" then
     set_isConstant "vTreeCanopyCrownFraction" true ;;
     update "vTreeCanopyCrownFraction" 0.0 ;;
     set_isConstant "vWindAdjFactor" true ;;
     update "vWindAdjFactor" 1.0 ;;
     set_isConstant "vWindAdjMethod" true ;;
     updateItem "vWindAdjMethod" 2
   else if boolean prop "surfaceConfWindSpeedAt20Ft" then
     set_active "fWindSpeedAtMidflame" true ;;
     set_active "fWindAdjFactor" false ;;
     set_isUserOutput "vWindSpeedAtMidflame"
       (boolean prop "surfaceCalcWindSpeedAtMidflame") ;;
     set_isConstant "vTreeCanopyCrownFraction" true ;;
     update "vTreeCanopyCrownFraction" 0.0 ;;
     set_isConstant "vWindAdjMethod" true ;;
     updateItem "vWindAdjMethod" 2
   else if boolean prop "surfaceConfWindSpeedAt20FtCalc" then
     set_active "fWindSpeedAtMidflame" true ;;
     set_active "fWindAdjFactor" true ;;
     set_isUserOutput "vWindSpeedAtMidflame"
       (boolean prop "surfaceCalcWindSpeedAtMidflame") ;;
     (if weighted then
        set_isConstant "vSurfaceFuelBedDepth" true
      else skip) ;;
     (if boolean prop "crownModuleActive" then
        set_active "fTreeCrownRatio" true ;;
        set_isUserOutput "vTreeCrownRatio"
          (boolean prop "surfaceCalcCrownRatio")
      else skip) ;;
     set_isConstant "vTreeCanopyCrownFraction" false ;;
     update "vTreeCanopyCrownFraction" 0.0 ;;
     set_isConstant "vWindAdjMethod" false ;;
     updateItem "vWindAdjMethod" 2
   else if boolean prop "surfaceConfWindSpeedAt10M" then
     set_active "fWindSpeedAt20Ft" true ;;
     set_active "fWindSpeedAtMidflame" true ;;
     set_active "fWindAdjFactor" false ;;
     set_isConstant "vTreeCanopyCrownFraction" true ;;
     set_isUserOutput "vWindSpeedAtMidflame"
       (boolean prop "surfaceCalcWindSpeedAtMidflame") ;;
     set_isConstant "vTreeCanopyCrownFraction" true ;;
     update "vTreeCanopyCrownFraction" 0.0 ;;
     set_isConstant "vWindAdjMethod" true ;;
     updateItem "vWindAdjMethod" 2
   else if boolean prop "surfaceConfWindSpeedAt10MCalc" then
     set_active "fWindSpeedAt20Ft" true ;;
     set_active "fWindSpeedAtMidflame" true ;;
     set_active "fWindAdjFactor" true ;;
     set_isUserOutput "vWindSpeedAtMidflame"
       (boolean prop "surfaceCalcWindSpeedAtMidflame") ;;
     (if weighted then
        set_isConstant "vSurfaceFuelBedDepth" true
      else skip) ;;
     (if boolean prop "crownModuleActive" then
        set_active "fTreeCrownRatio" true ;;
        set_isUserOutput "vTreeCrownRatio"
          (boolean prop "surfaceCalcCrownRatio")
      else skip) ;;
     set_isConstant "vTreeCanopyCrownFraction" false ;;
     update "vTreeCanopyCrownFraction" 0.0 ;;
     set_isConstant "vWindAdjMethod" false ;;
     updateItem "vWindAdjMethod" 2
   else skip).

(** Option 6, rate of spread is calculated ... *)
Definition surfaceSpreadDirOption (prop : PropertyDict) : cmd :=
  (if boolean prop "surfaceConfSpreadDirMax" then
     set_isConstant "vSurfaceFireVectorDirFromUpslope" true ;;
     update "vSurfaceFireVectorDirFromUpslope" 0 ;;
     set_isConstant "vSurfaceFireVectorBeta" true ;;
     update "vSurfaceFireVectorBeta" 0 ;;
     set_active "fSurfaceFireVectorBeta" false ;;
     set_isUserOutput "vSurfaceFireDistAtHead" false ;;
     set_isUserOutput "vSurfaceFireDistAtVector"
       (boolean prop "surfaceCalcFireDist") ;;
     set_isUserOutput "vSurfaceFireEffWindAtHead"
       (boolean prop "surfaceCalcFireEffWind") ;;
     set_isUserOutput "vSurfaceFireFlameLengAtHead"
       (boolean prop "surfaceCalcFireFlameLeng") ;;
     set_isUserOutput "vSurfaceFireLineIntAtHead"
       (boolean prop "surfaceCalcFireLineInt") ;;
     set_isUserOutput "vSurfaceFireSpreadAtHead"
       (boolean prop "surfaceCalcFireSpread") ;;
     (if boolean prop "mapCalcDist" then
        set_active "fMapScale" true ;;
        set_isUserOutput "vSurfaceFireMapDistAtVector"
          (boolean prop "surfaceCalcFireDist")
      else skip)
   else
     set_isConstant "vSurfaceFireVectorDirFromUpslope" false ;;
     (if boolean prop "surfaceConfDegreesWrtNorth" then
        set_active "fSurfaceFireVectorDirFromUpslope" true
      else skip) ;;
     set_isUserOutput "vSurfaceFireDistAtVector"
       (boolean prop "surfaceCalcFireDist") ;;
     set_isUserOutput "vSurfaceFireEffWindAtVector"
       (boolean prop "surfaceCalcFireEffWind") ;;
     set_isUserOutput "vSurfaceFireFlameLengAtVector"
       (boolean prop "surfaceCalcFireFlameLeng") ;;
     set_isUserOutput "vSurfaceFireLineIntAtVector"
       (boolean prop "surfaceCalcFireLineInt") ;;
     set_isUserOutput "vSurfaceFireSpreadAtVector"
       (boolean prop "surfaceCalcFireSpread") ;;
     (if boolean prop "mapCalcDist" then
        set_active "fMapScale" true ;;
        set_isUserOutput "vSurfaceFireMapDistAtVector"
          (boolean prop "surfaceCalcFireDist")
      else skip)).

(** Option 7, wind direction is ..., after the standard wind speed labels. *)
Definition surfaceWindDirOption (prop : PropertyDict) : cmd :=
  setLabel "vWindSpeedAtMidflame" EmptyString ;;
  setLabel "vWindSpeedAt20Ft" EmptyString ;;
  setLabel "vWindSpeedAt10M" EmptyString ;;
  set_isConstant "vWindDirFromUpslope" false ;;
  (if boolean prop "surfaceConfWindDirInput" then
     (if boolean prop "surfaceConfDegreesWrtNorth" then
        set_active "fWindDirFromUpslope" true
      else skip)
   else
     set_isConstant "vWindDirFromUpslope" true ;;
     update "vWindDirFromUpslope" 0 ;;
     setLabel "vWindSpeedAtMidflame" "Upslope" ;;
     setLabel "vWindSpeedAt20Ft" "Upslope" ;;
     setLabel "vWindSpeedAt10M" "Upslope").

(** Option 8, wind and spread directions are ... *)
Definition surfaceDegreesOption (prop : PropertyDict) : cmd :=
  (if boolean prop "surfaceConfDegreesWrtUpslope" then
     set_isUserOutput "vSurfaceFireMaxDirFromUpslope"
       (boolean prop "surfaceCalcFireMaxDirFromUpslope"
        || boolean prop "surfaceCalcFireMaxDirDiagram"
        || (boolean prop "sizeModuleActive"
            && boolean prop "sizeCalcFireShapeDiagram"))
   else
     set_active "fSiteUpslopeDirFromNorth" true ;;
     set_isUserOutput "vSurfaceFireMaxDirFromNorth"
       (boolean prop "surfaceCalcFireMaxDirFromUpslope"
        || boolean prop "surfaceCalcFireMaxDirDiagram"
        || (boolean prop "sizeModuleActive"
            && boolean prop "sizeCalcFireShapeDiagram"))).

(** Options 9 and 10, slope. *)
Definition surfaceSlopeOption (prop : PropertyDict) : cmd :=
  (if boolean prop "surfaceConfSlopeInput" then
     (if boolean prop "surfaceConfSlopeFraction" then
        skip
      else if boolean prop "surfaceConfSlopeDegrees" then
        set_active "fSiteSlopeFraction" true
      else skip)
   else
     set_active "fMapSlope" true ;;
     set_active "fMapScale" true ;;
     set_active "fSiteSlopeFraction" true ;;
     set_isUserOutput "vSiteSlopeReach"
       (boolean prop "surfaceCalcSlopeReach") ;;
     set_isUserOutput "vSiteSlopeRise"
       (boolean prop "surfaceCalcSlopeRise") ;;
     (if boolean prop "surfaceCalcSlopeSteepness" then
        set_isUserOutput "vSiteSlopeFraction"
          (boolean prop "surfaceConfSlopeFraction") ;;
        set_isUserOutput "vSiteSlopeDegrees"
          (boolean prop "surfaceConfSlopeDegrees")
      else skip)).

(** User output selections that no configuration option affects. *)
Definition surfaceCalcOutputs (prop : PropertyDict) : cmd :=
  set_isUserOutput "vSurfaceFireHeatPerUnitArea"
    (boolean prop "surfaceCalcFireHeatPerUnitArea") ;;
  set_isUserOutput "vSurfaceFireReactionInt"
    (boolean prop "surfaceCalcFireReactionInt") ;;
  set_isUserOutput "vSurfaceFireWindSpeedFlag"
    (boolean prop "surfaceCalcFireWindSpeedFlag") ;;
  set_isUserOutput "vSurfaceFireWindSpeedLimit"
    (boolean prop "surfaceCalcFireWindSpeedLimit") ;;
  set_isUserOutput "vTreeCanopyCrownFraction"
    (boolean prop "surfaceCalcCrownFillPortion") ;;
  set_isUserOutput "vWindAdjFactor"
    (boolean prop "surfaceCalcWindAdjFactor") ;;
  set_isUserOutput "vWindAdjMethod" (boolean prop "surfaceCalcWindAdjMethod").

(** [// These should never be output if 2 fuel models used] *)
Definition surfaceTwoFuelOutputs (prop : PropertyDict) (twofuels : bool)
    : cmd :=
  set_isUserOutput "vSurfaceFireHeatSource"
    (if twofuels then false else boolean prop "surfaceCalcFireHeatSource") ;;
  set_isUserOutput "vSurfaceFireReactionIntDead"
    (if twofuels then false
     else boolean prop "surfaceCalcFireReactionIntDead") ;;
  set_isUserOutput "vSurfaceFireReactionIntLive"
    (if twofuels then false
     else boolean prop "surfaceCalcFireReactionIntLive") ;;
  set_isUserOutput "vSurfaceFireMaxDirDiagram"
    (if twofuels then false else boolean prop "surfaceCalcFireMaxDirDiagram") ;;
  set_isUserOutput "vSurfaceFireCharacteristicsDiagram"
    (if twofuels then false
     else boolean prop "surfaceCalcFireCharacteristicsDiagram") ;;
  set_isUserOutput "vSurfaceFuelLoadTransferFraction"
    (if twofuels then false
     else boolean prop "surfaceCalcFuelLoadTransferFraction") ;;
  set_isUserOutput "vSurfaceFuelLoadDead"
    (if twofuels then false else boolean prop "surfaceCalcFuelLoadDead") ;;
  set_isUserOutput "vSurfaceFuelLoadDeadHerb"
    (if twofuels then false else boolean prop "surfaceCalcFuelLoadDeadHerb") ;;
  set_isUserOutput "vSurfaceFuelLoadLive"
    (if twofuels then false else boolean prop "surfaceCalcFuelLoadLive") ;;
  set_isUserOutput "vSurfaceFuelLoadUndeadHerb"
    (if twofuels then false
     else boolean prop "surfaceCalcFuelLoadUndeadHerb") ;;
  set_isUserOutput "vSurfaceFuelBedSigma"
    (if twofuels then false else boolean prop "surfaceCalcFuelBedSigma") ;;
  set_isUserOutput "vSurfaceFuelBedPackingRatio"
    (if twofuels then false
     else boolean prop "surfaceCalcFuelBedPackingRatio") ;;
  set_isUserOutput "vSurfaceFuelBedBulkDensity"
    (if twofuels then false
     else boolean prop "surfaceCalcFuelBedBulkDensity") ;;
  set_isUserOutput "vSurfaceFuelBedBetaRatio"
    (if twofuels then false else boolean prop "surfaceCalcFuelBedBetaRatio") ;;
  set_isUserOutput "vSurfaceFuelBedDeadFraction"
    (if twofuels then false
     else boolean prop "surfaceCalcFuelBedDeadFraction") ;;
  set_isUserOutput "vSurfaceFuelBedLiveFraction"
    (if twofuels then false
     else boolean prop "surfaceCalcFuelBedLiveFraction") ;;
  set_isUserOutput "vSurfaceFuelBedHeatSink"
    (if twofuels then false else boolean prop "surfaceCalcFuelBedHeatSink") ;;
  set_isUserOutput "vSurfaceFuelBedMoisDead"
    (if twofuels then false else boolean prop "surfaceCalcFuelBedMoisDead") ;;
  set_isUserOutput "vSurfaceFuelBedMoisLive"
    (if twofuels then false else boolean prop "surfaceCalcFuelBedMoisLive") ;;
  set_isUserOutput "vSurfaceFuelBedMextLive"
    (if twofuels then false else boolean prop "surfaceCalcFuelBedMextLive") ;;
  set_isUserOutput "vSurfaceFireResidenceTime"
    (if twofuels then false else boolean prop "surfaceCalcFireResidenceTime") ;;
  set_isUserOutput "vSurfaceFireWindFactor"
    (if twofuels then false else boolean prop "surfaceCalcFireWindFactor") ;;
  set_isUserOutput "vSurfaceFireSlopeFactor"
    (if twofuels then false else boolean prop "surfaceCalcFireSlopeFactor").

(** [// Until we add BURNUP, 1000-hr moisture is never used.] *)
Definition surfaceMoisDead1000 : cmd :=
  update "vSurfaceFuelMoisDead1000" 0.20 ;;
  set_isConstant "vSurfaceFuelMoisDead1000" true.

Definition reconfigureSurfaceModule (prop : PropertyDict) : cmd :=
  if negb (boolean prop "surfaceModuleActive") then skip else
  surfaceModuleFunctions ;;
  (* bool weighted = false; *)
  set_active "fTreeCrownRatio" false ;;
  set_isConstant "vSurfaceFuelLoadDeadHerb" true ;;
  fst (surfaceFuelOption prop) ;;
  surfaceLoadTransferOption prop ;;
  surfaceMoistureOption prop ;;
  surfaceWindSpeedOption prop (snd (surfaceFuelOption prop)) ;;
  surfaceSpreadDirOption prop ;;
  surfaceWindDirOption prop ;;
  surfaceDegreesOption prop ;;
  surfaceSlopeOption prop ;;
  surfaceCalcOutputs prop ;;
  surfaceTwoFuelOutputs prop
    (boolean prop "surfaceConfFuelAreaWeighted"
     || boolean prop "surfaceConfFuelHarmonicMean"
     || boolean prop "surfaceConfFuel2Dimensional") ;;
  surfaceMoisDead1000.

Definition reconfigureWeatherModule (prop : PropertyDict) : cmd :=
  if negb (boolean prop "weatherModuleActive") then skip else
  set_active "fWthrRelativeHumidity" true ;;
  set_active "fWthrCumulusBaseHt" true ;;
  set_active "fWthrHeatIndex" true ;;
  set_active "fWthrSummerSimmerIndex" true ;;
  set_active "fWthrWindChillTemp" true ;;
  (if boolean prop "weatherConfHumidityFromWetBulbElev" then
     set_active "fWthrDewPointTemp" true ;;
     set_isUserOutput "vWthrDewPointTemp"
       (boolean prop "weatherCalcWthrDewPointTemp")
   else
     skip) ;;
  set_isUserOutput "vWthrRelativeHumidity"
    (boolean prop "weatherCalcWthrRelativeHumidity") ;;
  set_isUserOutput "vWthrCumulusBaseHt"
    (boolean prop "weatherCalcWthrCumulusBaseHt") ;;
  set_isUserOutput "vWthrHeatIndex"
    (boolean prop "weatherCalcWthrHeatIndex") ;;
  set_isUserOutput "vWthrSummerSimmerIndex"
    (boolean prop "weatherCalcWthrSummerSimmerIndex") ;;
  set_isUserOutput "vWthrWindChillTemp"
    (boolean prop "weatherCalcWthrWindChillTemp").

(** [EqCalc::reconfigure] *)
Definition reconfigure (prop : PropertyDict) : cmd :=
  reconfigureDocumentation prop ;;
  reconfigureSurfaceModule prop ;;
  reconfigureCrownModule prop ;;
  reconfigureSizeModule prop ;;
  reconfigureContainModule prop ;;
  reconfigureSpotModule prop ;;
  reconfigureScorchModule prop ;;
  reconfigureMortalityModule prop ;;
  reconfigureIgnitionModule prop ;;
  reconfigureWeatherModule prop ;;
  reconfigureSafetyModule prop.

(** ** Modules

    The functions of a module are those whose [m_active] its procedure
    assigns, its variables those whose [m_isUserOutput] its procedure
    assigns; the lists below are read off the procedure bodies. *)

Inductive EqModule : Type :=
  | DocumentationModule | SurfaceModule | CrownModule | SizeModule
  | ContainModule | SpotModule | ScorchModule | MortalityModule
  | IgnitionModule | WeatherModule | SafetyModule.

#[global] Instance EqModule_eq_dec : EqDecision EqModule.
Proof. solve_decision. Defined.

(** The modules in the order [reconfigure] visits them. *)
Definition modules : list EqModule :=
  [DocumentationModule; SurfaceModule; CrownModule; SizeModule;
   ContainModule; SpotModule; ScorchModule; MortalityModule;
   IgnitionModule; WeatherModule; SafetyModule].

(** The master property of a module; the documentation has none. *)
Definition masterProperty (m : EqModule) : option string :=
  match m with
  | DocumentationModule => None
  | SurfaceModule => Some "surfaceModuleActive"
  | CrownModule => Some "crownModuleActive"
  | SizeModule => Some "sizeModuleActive"
  | ContainModule => Some "containModuleActive"
  | SpotModule => Some "spotModuleActive"
  | ScorchModule => Some "scorchModuleActive"
  | MortalityModule => Some "mortalityModuleActive"
  | IgnitionModule => Some "ignitionModuleActive"
  | WeatherModule => Some "weatherModuleActive"
  | SafetyModule => Some "safetyModuleActive"
  end%string.

Definition moduleProcedure (m : EqModule) : PropertyDict -> cmd :=
  match m with
  | DocumentationModule => reconfigureDocumentation
  | SurfaceModule => reconfigureSurfaceModule
  | CrownModule => reconfigureCrownModule
  | SizeModule => reconfigureSizeModule
  | ContainModule => reconfigureContainModule
  | SpotModule => reconfigureSpotModule
  | ScorchModule => reconfigureScorchModule
  | MortalityModule => reconfigureMortalityModule
  | IgnitionModule => reconfigureIgnitionModule
  | WeatherModule => reconfigureWeatherModule
  | SafetyModule => reconfigureSafetyModule
  end.

Definition documentationFunctions : list string :=
  []%string.

Definition surfaceFunctions : list string :=
  ["fSurfaceFireCharacteristicsDiagram"; "fSurfaceFireDistAtHead";
   "fSurfaceFireDistAtVector"; "fSurfaceFireEccentricity";
   "fSurfaceFireEffWindAtVector"; "fSurfaceFireFlameLengAtHead";
   "fSurfaceFireFlameLengAtVector"; "fSurfaceFireMaxDirFromNorth";
   "fSurfaceFireHeatSource"; "fSurfaceFireMaxDirDiagram";
   "fSurfaceFireMapDistAtHead"; "fSurfaceFireMapDistAtVector";
   "fSurfaceFireSpreadAtBack"; "fSurfaceFireSpreadAtHead";
   "fSurfaceFireVectorBeta"; "fSurfaceFireSpreadAtBeta";
   "fSurfaceFireHeatPerUnitArea"; "fSurfaceFireLengthToWidth";
   "fSurfaceFireLineIntAtHead"; "fSurfaceFireLineIntAtVector";
   "fSurfaceFireNoWindRate"; "fSurfaceFirePropagatingFlux";
   "fSurfaceFireReactionInt"; "fSurfaceFireResidenceTime";
   "fSurfaceFuelBedIntermediates"; "fSurfaceFuelBedHeatSink";
   "fSurfaceFuelMoisTimeLag"; "fTreeCrownRatio"; "fSurfaceFuelBedParms";
   "fSurfaceFuelBedModel"; "fSurfaceFuelBedWeighted";
   "fSurfaceFuelLoadTransferFraction"; "fSurfaceFuelMoisLifeClass";
   "fSurfaceFuelMoisScenarioModel"; "fWindAdjFactor"; "fWindSpeedAt20Ft";
   "fWindSpeedAtMidflame"; "fSurfaceFuelPalmettoModel";
   "fSurfaceFuelPalmettoParms"; "fSurfaceFuelAspenModel";
   "fSurfaceFuelAspenParms"; "fTreeMortalityRateAspenAtVector"; "fMapScale";
   "fSurfaceFireVectorDirFromUpslope"; "fWindDirFromUpslope";
   "fSiteUpslopeDirFromNorth"; "fSiteSlopeFraction"; "fMapSlope"]%string.

Definition crownFunctions : list string :=
  ["fCrownFireActiveCrown"; "fCrownFireActiveRatio"; "fCrownFireArea";
   "fCrownFireCritCrownSpreadRate"; "fCrownFireCritSurfFireInt";
   "fCrownFireCritSurfFlameLeng"; "fCrownFireLengthToWidth";
   "fCrownFirePerimeter"; "fCrownFireSpreadDist"; "fCrownFireSpreadMapDist";
   "fCrownFireSpreadRate"; "fCrownFireTransToCrown";
   "fCrownFireTransRatioFromFireIntAtVector"; "fCrownFireType";
   "fCrownFireFlameLeng"; "fCrownFireFuelLoad"; "fCrownFireHeatPerUnitArea";
   "fCrownFireHeatPerUnitAreaCanopy"; "fCrownFireLineInt";
   "fCrownFirePowerOfFire"; "fCrownFirePowerOfWind"; "fCrownFirePowerRatio";
   "fCrownFireWindDriven"; "fCrownFireTransRatioFromFlameLengAtVector";
   "fWindSpeedAt20Ft"; "fMapScale"]%string.

Definition sizeFunctions : list string :=
  ["fSurfaceFireArea"; "fSurfaceFireDistAtBack"; "fSurfaceFireDistAtHead";
   "fSurfaceFireEccentricity"; "fSurfaceFireLengDist";
   "fSurfaceFireLengMapDist"; "fSurfaceFireLengthToWidth";
   "fSurfaceFireMapDistAtBack"; "fSurfaceFireMapDistAtHead";
   "fSurfaceFirePerimeter"; "fSurfaceFireShapeDiagram";
   "fSurfaceFireSpreadAtBack"; "fSurfaceFireWidthDist";
   "fSurfaceFireWidthMapDist"; "fMapScale"]%string.

Definition containFunctions : list string :=
  ["fContainFF"; "fContainFFSingle"; "fContainFFReportSpread";
   "fContainFFReportRatio"; "fContainFFReportSize"]%string.

Definition spotFunctions : list string :=
  ["fSpotDistBurningPile"; "fSpotDistSurfaceFire"; "fSpotDistTorchingTrees";
   "fWindSpeedAt20Ft"; "fMapScale"; "fSpotMapDistBurningPile";
   "fSpotMapDistSurfaceFire"; "fSpotMapDistTorchingTrees"]%string.

Definition scorchFunctions : list string :=
  ["fSurfaceFireScorchHtFromFliAtVector"; "fWindSpeedAt20Ft";
   "fWindSpeedAtMidflame"; "fWindAdjFactor";
   "fSurfaceFireScorchHtFromFlameLengAtVector"]%string.

Definition mortalityFunctions : list string :=
  ["fTreeCrownBaseHt"; "fTreeCrownVolScorchedAtVector";
   "fTreeMortalityCountAtVector"; "fTreeMortalityRateFofemAtVector";
   "fTreeMortalityRateFofem2AtVector";
   "fTreeMortalityRateFofemHoodAtVector"; "fTreeCrownRatio";
   "fTreeBarkThicknessFofem"; "fSurfaceFireScorchHtFromFliAtVector"]%string.

Definition ignitionFunctions : list string :=
  ["fIgnitionFirebrandProb"; "fIgnitionLightningProb"; "fSurfaceFuelTemp";
   "fIgnitionFirebrandFuelMoisFromDead1Hr";
   "fIgnitionLightningFuelMoisFromDead100Hr"]%string.

Definition weatherFunctions : list string :=
  ["fWthrRelativeHumidity"; "fWthrCumulusBaseHt"; "fWthrHeatIndex";
   "fWthrSummerSimmerIndex"; "fWthrWindChillTemp"; "fWthrDewPointTemp"]%string.

Definition safetyFunctions : list string :=
  ["fSafetyZoneSepDist"; "fSafetyZoneRadius"; "fSurfaceFireFlameLengAtHead"]%string.

Definition moduleFunctions (m : EqModule) : list string :=
  match m with
  | DocumentationModule => documentationFunctions
  | SurfaceModule => surfaceFunctions
  | CrownModule => crownFunctions
  | SizeModule => sizeFunctions
  | ContainModule => containFunctions
  | SpotModule => spotFunctions
  | ScorchModule => scorchFunctions
  | MortalityModule => mortalityFunctions
  | IgnitionModule => ignitionFunctions
  | WeatherModule => weatherFunctions
  | SafetyModule => safetyFunctions
  end.

Definition documentationOutputs : list string :=
  ["vDocDescription"; "vDocRxAdminUnit"; "vDocRxName"; "vDocRxPreparedBy";
   "vDocFireAnalyst"; "vDocFireName"; "vDocFirePeriod";
   "vDocTrainingCourse"; "vDocTrainingExercise"; "vDocTrainingTrainee"]%string.

Definition surfaceOutputs : list string :=
  ["vSurfaceFuelPalmettoLoadDead1"; "vSurfaceFuelPalmettoLoadDead10";
   "vSurfaceFuelPalmettoLoadDeadFoliage"; "vSurfaceFuelPalmettoLoadLive1";
   "vSurfaceFuelPalmettoLoadLive10"; "vSurfaceFuelPalmettoLoadLiveFoliage";
   "vSurfaceFuelPalmettoLoadLitter"; "vSurfaceFuelBedDepth";
   "vSurfaceFuelAspenLoadDead1"; "vSurfaceFuelAspenLoadDead10";
   "vSurfaceFuelAspenLoadLiveHerb"; "vSurfaceFuelAspenLoadLiveWoody";
   "vSurfaceFuelAspenSavrDead1"; "vSurfaceFuelAspenSavrDead10";
   "vSurfaceFuelAspenSavrLiveHerb"; "vSurfaceFuelAspenSavrLiveWoody";
   "vTreeMortalityRateAspenAtVector"; "vWindSpeedAtMidflame";
   "vTreeCrownRatio"; "vSurfaceFireDistAtHead"; "vSurfaceFireDistAtVector";
   "vSurfaceFireEffWindAtHead"; "vSurfaceFireFlameLengAtHead";
   "vSurfaceFireLineIntAtHead"; "vSurfaceFireSpreadAtHead";
   "vSurfaceFireMapDistAtVector"; "vSurfaceFireEffWindAtVector";
   "vSurfaceFireFlameLengAtVector"; "vSurfaceFireLineIntAtVector";
   "vSurfaceFireSpreadAtVector"; "vSurfaceFireMaxDirFromUpslope";
   "vSurfaceFireMaxDirFromNorth"; "vSiteSlopeReach"; "vSiteSlopeRise";
   "vSiteSlopeFraction"; "vSiteSlopeDegrees"; "vSurfaceFireHeatPerUnitArea";
   "vSurfaceFireReactionInt"; "vSurfaceFireWindSpeedFlag";
   "vSurfaceFireWindSpeedLimit"; "vTreeCanopyCrownFraction";
   "vWindAdjFactor"; "vWindAdjMethod"; "vSurfaceFireHeatSource";
   "vSurfaceFireReactionIntDead"; "vSurfaceFireReactionIntLive";
   "vSurfaceFireMaxDirDiagram"; "vSurfaceFireCharacteristicsDiagram";
   "vSurfaceFuelLoadTransferFraction"; "vSurfaceFuelLoadDead";
   "vSurfaceFuelLoadDeadHerb"; "vSurfaceFuelLoadLive";
   "vSurfaceFuelLoadUndeadHerb"; "vSurfaceFuelBedSigma";
   "vSurfaceFuelBedPackingRatio"; "vSurfaceFuelBedBulkDensity";
   "vSurfaceFuelBedBetaRatio"; "vSurfaceFuelBedDeadFraction";
   "vSurfaceFuelBedLiveFraction"; "vSurfaceFuelBedHeatSink";
   "vSurfaceFuelBedMoisDead"; "vSurfaceFuelBedMoisLive";
   "vSurfaceFuelBedMextLive"; "vSurfaceFireResidenceTime";
   "vSurfaceFireWindFactor"; "vSurfaceFireSlopeFactor"]%string.

Definition crownOutputs : list string :=
  ["vCrownFireActiveCrown"; "vCrownFireActiveRatio"; "vCrownFireArea";
   "vCrownFireCritCrownSpreadRate"; "vCrownFireCritSurfFireInt";
   "vCrownFireCritSurfFlameLeng"; "vCrownFireFlameLeng";
   "vCrownFireFuelLoad"; "vCrownFireHeatPerUnitArea";
   "vCrownFireHeatPerUnitAreaCanopy"; "vCrownFireLengthToWidth";
   "vCrownFireLineInt"; "vCrownFirePerimeter"; "vCrownFirePowerOfFire";
   "vCrownFirePowerOfWind"; "vCrownFirePowerRatio"; "vCrownFireSpreadDist";
   "vCrownFireSpreadRate"; "vCrownFireTransRatio"; "vCrownFireTransToCrown";
   "vCrownFireType"; "vCrownFireWindDriven"; "vCrownFireSpreadMapDist"]%string.

Definition sizeOutputs : list string :=
  ["vSurfaceFireArea"; "vSurfaceFireDistAtBack"; "vSurfaceFireDistAtHead";
   "vSurfaceFireLengthToWidth"; "vSurfaceFireLengDist";
   "vSurfaceFirePerimeter"; "vSurfaceFireWidthDist";
   "vSurfaceFireShapeDiagram"; "vSurfaceFireMapDistAtBack";
   "vSurfaceFireMapDistAtHead"; "vSurfaceFireLengMapDist";
   "vSurfaceFireWidthMapDist"]%string.

Definition containOutputs : list string :=
  ["vContainLine"; "vContainResourcesUsed"; "vContainSize";
   "vContainStatus"; "vContainTime"; "vContainCost"; "vContainDiagram";
   "vContainAttackPerimeter"; "vContainAttackSize"]%string.

Definition spotOutputs : list string :=
  ["vSpotDistBurningPile"; "vSpotCoverHtBurningPile";
   "vSpotFirebrandHtBurningPile"; "vSpotFlatDistBurningPile";
   "vSpotDistSurfaceFire"; "vSpotCoverHtSurfaceFire";
   "vSpotFirebrandDriftSurfaceFire"; "vSpotFirebrandHtSurfaceFire";
   "vSpotFlatDistSurfaceFire"; "vSpotDistTorchingTrees";
   "vSpotCoverHtTorchingTrees"; "vSpotFlameDurTorchingTrees";
   "vSpotFlameHtTorchingTrees"; "vSpotFlameRatioTorchingTrees";
   "vSpotFirebrandHtTorchingTrees"; "vSpotFlatDistTorchingTrees";
   "vSpotMapDistBurningPile"; "vSpotMapDistSurfaceFire";
   "vSpotMapDistTorchingTrees"]%string.

Definition scorchOutputs : list string :=
  ["vSurfaceFireScorchHtAtVector"; "vWindSpeedAtMidflame"]%string.

Definition mortalityOutputs : list string :=
  ["vTreeBarkThickness"; "vTreeCrownLengScorchedAtVector";
   "vTreeCrownVolScorchedAtVector"; "vTreeMortalityCountAtVector";
   "vTreeMortalityRateAtVector"]%string.

Definition ignitionOutputs : list string :=
  ["vIgnitionFirebrandProb"; "vIgnitionLightningProb"; "vSurfaceFuelTemp"]%string.

Definition weatherOutputs : list string :=
  ["vWthrDewPointTemp"; "vWthrRelativeHumidity"; "vWthrCumulusBaseHt";
   "vWthrHeatIndex"; "vWthrSummerSimmerIndex"; "vWthrWindChillTemp"]%string.

Definition safetyOutputs : list string :=
  ["vSafetyZoneRadius"; "vSafetyZoneSepDist"; "vSafetyZoneSize"]%string.

Definition moduleOutputs (m : EqModule) : list string :=
  match m with
  | DocumentationModule => documentationOutputs
  | SurfaceModule => surfaceOutputs
  | CrownModule => crownOutputs
  | SizeModule => sizeOutputs
  | ContainModule => containOutputs
  | SpotModule => spotOutputs
  | ScorchModule => scorchOutputs
  | MortalityModule => mortalityOutputs
  | IgnitionModule => ignitionOutputs
  | WeatherModule => weatherOutputs
  | SafetyModule => safetyOutputs
  end.

(** A name is exclusive to a module when, of all the procedures, only the
    one of that module assigns its flag. *)
Definition onlyIn (names : EqModule -> list string) (m : EqModule)
    (k : string) : Prop :=
  k ∈ names m /\ forall m' : EqModule, m' ≠ m -> k ∉ names m'.

(** The body of a module procedure runs when the master property of the
    module is true; [reconfigureDocumentation] tests no property and always
    runs. *)
Definition moduleOn (prop : PropertyDict) (m : EqModule) : bool :=
  match masterProperty m with
  | Some p => boolean prop p
  | None => true
  end.

(** [k] is among the [names] of no module that is on: no procedure that
    runs in this configuration assigns its flag. *)
Definition assignedByNone (names : EqModule -> list string)
    (prop : PropertyDict) (k : string) : Prop :=
  forall m : EqModule, moduleOn prop m = true -> k ∉ names m.

(** The variables that [reconfigureSurfaceModule] hides when two fuel models
    are used, each with the property that selects it as an output
    otherwise. *)
Definition twoFuelHidden : list (string * string) :=
  [("vSurfaceFireHeatSource", "surfaceCalcFireHeatSource");
   ("vSurfaceFireReactionIntDead", "surfaceCalcFireReactionIntDead");
   ("vSurfaceFireReactionIntLive", "surfaceCalcFireReactionIntLive");
   ("vSurfaceFireMaxDirDiagram", "surfaceCalcFireMaxDirDiagram");
   ("vSurfaceFireCharacteristicsDiagram",
    "surfaceCalcFireCharacteristicsDiagram");
   ("vSurfaceFuelLoadTransferFraction", "surfaceCalcFuelLoadTransferFraction");
   ("vSurfaceFuelLoadDead", "surfaceCalcFuelLoadDead");
   ("vSurfaceFuelLoadDeadHerb", "surfaceCalcFuelLoadDeadHerb");
   ("vSurfaceFuelLoadLive", "surfaceCalcFuelLoadLive");
   ("vSurfaceFuelLoadUndeadHerb", "surfaceCalcFuelLoadUndeadHerb");
   ("vSurfaceFuelBedSigma", "surfaceCalcFuelBedSigma");
   ("vSurfaceFuelBedPackingRatio", "surfaceCalcFuelBedPackingRatio");
   ("vSurfaceFuelBedBulkDensity", "surfaceCalcFuelBedBulkDensity");
   ("vSurfaceFuelBedBetaRatio", "surfaceCalcFuelBedBetaRatio");
   ("vSurfaceFuelBedDeadFraction", "surfaceCalcFuelBedDeadFraction");
   ("vSurfaceFuelBedLiveFraction", "surfaceCalcFuelBedLiveFraction");
   ("vSurfaceFuelBedHeatSink", "surfaceCalcFuelBedHeatSink");
   ("vSurfaceFuelBedMoisDead", "surfaceCalcFuelBedMoisDead");
   ("vSurfaceFuelBedMoisLive", "surfaceCalcFuelBedMoisLive");
   ("vSurfaceFuelBedMextLive", "surfaceCalcFuelBedMextLive");
   ("vSurfaceFireResidenceTime", "surfaceCalcFireResidenceTime");
   ("vSurfaceFireWindFactor", "surfaceCalcFireWindFactor");
   ("vSurfaceFireSlopeFactor", "surfaceCalcFireSlopeFactor")]%string.

(** A command preserves an observation of the tree. *)
Definition preserves {A : Type} (get : EqTree -> A) (c : cmd) : Prop :=
  forall t, get (c t) = get t.

(** ** Trees laid over trees

    [overlay d t] is the tree [t] with every entry of [d] written over it.
    A command [assigns] when it writes the same entries whatever tree it
    runs on. *)
Definition overlay (d t : EqTree) : EqTree :=
  mkEqTree (m_nativeValue d ∪ m_nativeValue t)
           (m_activeItem d ∪ m_activeItem t)
           (m_store d ∪ m_store t)
           (m_isUserInput d ∪ m_isUserInput t)
           (m_isUserOutput d ∪ m_isUserOutput t)
           (m_isConstant d ∪ m_isConstant t)
           (m_label d ∪ m_label t)
           (m_active d ∪ m_active t).

Definition assigns (c : cmd) : Prop :=
  exists d, forall t, c t = overlay d t.

(** The variables whose value, and the discrete variables whose item, some
    procedure of [reconfigure] writes. *)
Definition reconfiguredValues : list string :=
  ["vSurfaceFuelLoadTransferFraction"; "vTreeCanopyCrownFraction";
   "vWindAdjFactor"; "vSurfaceFireVectorDirFromUpslope";
   "vSurfaceFireVectorBeta"; "vWindDirFromUpslope";
   "vSurfaceFuelMoisDead1000"]%string.

Definition reconfiguredItems : list string :=
  ["vSurfaceFuelLoadTransferEq"; "vWindAdjMethod"]%string.

(** The two-fuel-model choice of [reconfigureSurfaceModule]. *)
Definition twoFuelModelsChosen (prop : PropertyDict) : bool :=
  negb (boolean prop "surfaceConfFuelModels")
  && negb (boolean prop "surfaceConfFuelParms")
  && (boolean prop "surfaceConfFuelAreaWeighted"
      || boolean prop "surfaceConfFuelHarmonicMean"
      || boolean prop "surfaceConfFuel2Dimensional").

(** The functions that the two-fuel-model choice deactivates because
    [FuelBedWeighted] calls them itself, and that no later step of
    [reconfigure] activates again. *)
Definition weightedInternals : list string :=
  ["fSurfaceFuelBedModel"; "fSurfaceFuelBedParms";
   "fSurfaceFuelBedIntermediates"; "fSurfaceFireResidenceTime";
   "fSurfaceFuelMoisTimeLag"; "fSurfaceFuelBedHeatSink";
   "fSurfaceFirePropagatingFlux"; "fSurfaceFireReactionInt";
   "fSurfaceFireNoWindRate"; "fSurfaceFireSpreadAtHead";
   "fSurfaceFireLineIntAtHead"; "fSurfaceFireVectorBeta";
   "fSurfaceFireSpreadAtBeta"; "fSurfaceFireLineIntAtVector";
   "fSurfaceFireFlameLengAtVector"; "fSurfaceFireEffWindAtVector";
   "fSurfaceFireHeatPerUnitArea"]%string.

(** A command that cannot activate the function [f]. *)
Definition keepsInactive (f : string) (c : cmd) : Prop :=
  forall t, isActive f t = false -> isActive f (c t) = false.

(** The three further functions that the two-fuel-model choice deactivates
    and that the Size and the Safety module activate again. *)
Definition weightedReactivated : list string :=
  ["fSurfaceFireLengthToWidth"; "fSurfaceFireEccentricity";
   "fSurfaceFireFlameLengAtHead"]%string.

(** The variables that receive a fuel model, each with the field of the
    fuel model that it receives. *)
Definition fuelModelFields (fm : FuelModel) : list (string * Q) :=
  [("vSurfaceFuelBedDepth", m_depth fm);
   ("vSurfaceFuelBedMextDead", m_mext fm);
   ("vSurfaceFuelHeatDead", m_heatDead fm);
   ("vSurfaceFuelHeatLive", m_heatLive fm);
   ("vSurfaceFuelLoadDead1", m_load1 fm);
   ("vSurfaceFuelLoadDead10", m_load10 fm);
   ("vSurfaceFuelLoadDead100", m_load100 fm);
   ("vSurfaceFuelLoadLiveHerb", m_loadHerb fm);
   ("vSurfaceFuelLoadLiveWood", m_loadWood fm);
   ("vSurfaceFuelSavrDead1", m_savr1 fm);
   ("vSurfaceFuelSavrLiveHerb", m_savrHerb fm);
   ("vSurfaceFuelSavrLiveWood", m_savrWood fm)]%string.

(** ** Derived definitions

    Compositions of the functions above that the properties below are
    stated with. *)

(** The wind direction from upslope computed from two compass points:
    [WindDirFromNorth], [SiteAspectDirFromNorth], [SiteUpslopeDirFromNorth]
    and [WindDirFromUpslope], on the item indices [w] and [a]. *)
Definition compassWind (w a : Z) : Q :=
  let wd := 22.5 * inject_Z w in
  let aspect := 22.5 * inject_Z a in
  let sd := if negb (aspect <? 180) then aspect - 180 else aspect + 180 in
  snapToZero 0.5 (angleFrom sd (windVector wd)).

(** The moisture that [FuelMoisTimeLag] gives to particle [i]. *)
Definition particleMoisture (i : nat) (t : EqTree) : Q :=
  nativeValue
    (EqCalc.moistureSource (activeItemDataIndex (var vSurfaceFuelLife i) t)
                           (nativeValue (var vSurfaceFuelSavr i) t)) t.

(** ** Double arithmetic with its rounding

    The embeddings above compute with exact rationals.  Some properties of
    the source depend on the rounding of its double arithmetic: the range
    of the angles that [WindDirFromUpslope] and the other direction
    functions store, the map distances, and the load totals of
    [FuelBedIntermediates].  These
    functions are embedded a second time, in the module [Rounded], with a
    rounding function [rnd] applied
    to the exact result of every addition, subtraction, multiplication and
    division, as IEEE 754 arithmetic does.  With the identity for [rnd]
    they are the embeddings above; with [binary64] they compute what the
    source computes on doubles.  A constant of the source that is a double
    as written (0, 0.5, 1, 180, 360) stands as it is; one that is not
    ([0.00001]) is rounded. *)

(** The nearest integer, the even one of two that are equally near. *)
Definition roundHalfEven (q : Q) : Z :=
  let f := Qfloor q in
  match Qcompare (q - inject_Z f) (1 # 2) with
  | Lt => f
  | Gt => (f + 1)%Z
  | Eq => if Z.even f then f else (f + 1)%Z
  end.

(** The exponent [e] with [2 ^ e <= |q| < 2 ^ (e + 1)], for [q] other than
    zero. *)
Definition binade (q : Q) : Z :=
  let e := (Z.log2 (Z.abs (Qnum q)) - Z.log2 (Zpos (Qden q)))%Z in
  if Qle_bool (2 ^ e) (Qabs q) then e else (e - 1)%Z.

(** The exponent of the unit in the last place of a double in the binade of
    [q]: 52 below the binade, and -1074 for the subnormal numbers. *)
Definition ulpExponent (q : Q) : Z := (Z.max (binade q) (-1022) - 52)%Z.

(** The double nearest to [q], ties to even: IEEE 754 binary64 in its
    default rounding mode.  Overflow is outside the model: above the
    largest double the function goes on rounding to 53 bits. *)
Definition binary64 (q : Q) : Q :=
  if Qeq_bool q 0 then 0
  else Qred (inject_Z (roundHalfEven (q / 2 ^ ulpExponent q))
             * 2 ^ ulpExponent q).

(** What the proofs use of a rounding: it is monotone, and it leaves alone
    the integers of less than 53 bits. *)
Record rounding (rnd : Q -> Q) : Prop := mkRounding {
  rnd_monotone : forall x y, x <= y -> rnd x <= rnd y;
  rnd_integer : forall z : Z, (Z.abs z < 2 ^ 53)%Z ->
                  rnd (inject_Z z) == inject_Z z
}.

Module Rounded.
Section Functions.
Variable rnd : Q -> Q.

(** *** [EqCalc::WindDirFromUpslope] *)

Definition WindDirFromUpslope (t : EqTree) : EqTree :=
  let sd := nativeValue "vSiteUpslopeDirFromNorth" t in
  let wd := nativeValue "vWindDirFromNorth" t in
  (* if ( (wd -= 180.) < 0. ) wd += 360.; *)
  let wd := rnd (wd - 180) in
  let wd := if wd <? 0 then rnd (wd + 360) else wd in
  let dd := rnd (wd - sd) in
  let dd := if dd <? 0 then rnd (dd + 360) else dd in
  let dd := if Qabs dd <? 0.5 then 0 else dd in
  update "vWindDirFromUpslope" dd t.

(** The two steps before the snap, in the words of the description. *)
Definition windVector (source : Q) : Q :=
  if rnd (source - 180) <? 0 then rnd (rnd (source - 180) + 360)
  else rnd (source - 180).
Definition angleFrom (upslope vector : Q) : Q :=
  if rnd (vector - upslope) <? 0 then rnd (rnd (vector - upslope) + 360)
  else rnd (vector - upslope).

(** *** [EqCalc::SiteUpslopeDirFromNorth], [EqCalc::FireVectorDirFromUpslope]
    and [EqCalc::FireMaxDirFromNorth] *)

Definition SiteUpslopeDirFromNorth : cmd := fun t =>
  let aspect := nativeValue "vSiteAspectDirFromNorth" t in
  (* ( aspect >= 180. ) ? ( aspect - 180. ) : ( aspect + 180. ) *)
  let upslope :=
    if negb (aspect <? 180) then rnd (aspect - 180) else rnd (aspect + 180) in
  update "vSiteUpslopeDirFromNorth" upslope t.

Definition FireVectorDirFromUpslope : cmd := fun t =>
  let sd := nativeValue "vSiteUpslopeDirFromNorth" t in
  let fd := nativeValue "vSurfaceFireVectorDirFromNorth" t in
  let dd := rnd (fd - sd) in
  let dd := if dd <? 0 then rnd (dd + 360) else dd in
  update "vSurfaceFireVectorDirFromUpslope" dd t.

Definition FireMaxDirFromNorth : cmd := fun t =>
  let sd := nativeValue "vSiteUpslopeDirFromNorth" t in
  let fd := nativeValue "vSurfaceFireMaxDirFromUpslope" t in
  let dd := rnd (sd + fd) in
  (* if ( dd >= 360. ) dd -= 360.; *)
  let dd := if negb (dd <? 360) then rnd (dd - 360) else dd in
  let dd := if dd <? 0 then rnd (dd + 360) else dd in
  let dd := if Qabs dd <? 0.50 then 0.0 else dd in
  update "vSurfaceFireMaxDirFromNorth" dd t.

(** *** [EqCalc::MapScale], [EqCalc::SiteRidgeToValleyDist] and the map
    distances of the fire *)

Definition MapScale `{XfbLib} : cmd := fun t =>
  let denom := nativeValue "vMapFraction" t in
  let scale := if denom <? SMIDGEN then 0.0 else rnd (63360 / denom) in
  update "vMapScale" scale t.

Definition SiteRidgeToValleyDist `{XfbLib} : cmd := fun t =>
  let md := nativeValue "vSiteRidgeToValleyMapDist" t in
  let ms := nativeValue "vMapScale" t in
  let mi := if ms <? SMIDGEN then 0 else rnd (md / ms) in
  update "vSiteRidgeToValleyDist" mi t.

Definition FireMapDistAtBack : cmd := fun t =>
  let bd := nativeValue "vSurfaceFireDistAtBack" t in
  let ms := nativeValue "vMapScale" t in
  (* ms * bd / 5280. *)
  let md := rnd (rnd (ms * bd) / 5280) in
  update "vSurfaceFireMapDistAtBack" md t.

Definition FireMapDistAtHead : cmd := fun t =>
  let fd := nativeValue "vSurfaceFireDistAtHead" t in
  let ms := nativeValue "vMapScale" t in
  let md := rnd (rnd (ms * fd) / 5280) in
  update "vSurfaceFireMapDistAtHead" md t.

Definition FireLengMapDist : cmd := fun t =>
  let ld := nativeValue "vSurfaceFireLengDist" t in
  let ms := nativeValue "vMapScale" t in
  let md := rnd (rnd (ms * ld) / 5280) in
  update "vSurfaceFireLengMapDist" md t.

(** *** [EqCalc::FuelBedIntermediates] *)

Definition accumulateLoad (life : list Z) (l : Loads) (p : nat) : Loads :=
  if (atZ life p =? 0)%Z || (atZ life p =? 3)%Z
  then mkLoads (load l) (rnd (deadLoad l + at_ (load l) p)) (liveLoad l)
  else mkLoads (load l) (deadLoad l) (rnd (liveLoad l + at_ (load l) p)).

Definition accumulateLoads (life : list Z) (loads : list Q) : Loads :=
  fold_left (accumulateLoad life) (seq 0 MaxParts) (mkLoads loads 0 0).

(** [if ( fraction > 0.00001 ) { ... }] *)
Definition loadTransfer (fraction : Q) (l : Loads) : Loads :=
  if fraction >? rnd 0.00001 then
    (* load[DeadHerb] = fraction * load[LiveHerb]; *)
    let load1 :=
      <[DeadHerb := rnd (fraction * at_ (load l) LiveHerb)]> (load l) in
    (* load[LiveHerb] -= load[DeadHerb]; *)
    let load2 :=
      <[LiveHerb := rnd (at_ load1 LiveHerb - at_ load1 DeadHerb)]> load1 in
    (* deadLoad += load[DeadHerb];  liveLoad -= load[DeadHerb]; *)
    mkLoads load2 (rnd (deadLoad l + at_ load2 DeadHerb))
                  (rnd (liveLoad l - at_ load2 DeadHerb))
  else l.

Definition bedLoads (t : EqTree) : Loads :=
  loadTransfer (transferFraction t)
    (accumulateLoads (activeItems vSurfaceFuelLife t)
                     (nativeValues vSurfaceFuelLoad t)).

(** [( totalLoad < SMIDGEN ) ? ( 0. ) : ( deadLoad / totalLoad )] *)
Definition deadLoadFraction `{XfbLib} (l : Loads) : Q :=
  let total := rnd (deadLoad l + liveLoad l) in
  if total <? SMIDGEN then 0 else rnd (deadLoad l / total).

Definition FuelBedIntermediates `{XfbLib} : cmd := fun t =>
  (* Access current input values *)
  let dens := nativeValues vSurfaceFuelDens t in
  let heat := nativeValues vSurfaceFuelHeat t in
  let life := activeItems vSurfaceFuelLife t in
  let savr := nativeValues vSurfaceFuelSavr t in
  let seff := nativeValues vSurfaceFuelSeff t in
  let stot := nativeValues vSurfaceFuelStot t in
  (* Particle loads, fuel load transfer *)
  let l := bedLoads t in
  (* Fuel bed dead load fraction *)
  let deadFraction := deadLoadFraction l in
  (* Fuel bed intermediates *)
  let depth := nativeValue "vSurfaceFuelBedDepth" t in
  let deadMext := nativeValue "vSurfaceFuelBedMextDead" t in
  let '(sigma, bulkDensity, packingRatio, betaRatio) :=
    FBL_SurfaceFuelBedIntermediates depth deadMext MaxParts
      life (load l) savr heat dens stot seff in
  (* Store results *)
  (update "vSurfaceFuelBedSigma" sigma ;;
   update "vSurfaceFuelBedBulkDensity" bulkDensity ;;
   update "vSurfaceFuelBedPackingRatio" packingRatio ;;
   update "vSurfaceFuelBedBetaRatio" betaRatio ;;
   update "vSurfaceFuelBedDeadFraction" deadFraction ;;
   update "vSurfaceFuelBedLiveFraction" (rnd (1 - deadFraction)) ;;
   update "vSurfaceFuelLoadDeadHerb" (at_ (load l) DeadHerb) ;;
   update "vSurfaceFuelLoadUndeadHerb" (at_ (load l) LiveHerb) ;;
   update "vSurfaceFuelLoadDead" (deadLoad l) ;;
   update "vSurfaceFuelLoadLive" (liveLoad l)) t.

End Functions.
End Rounded.

(** ** Sample collaborators and inputs

    Concrete instances of the collaborator classes and concrete trees, used
    to evaluate the embedded functions. *)

(** A fire behavior library with simple closed formulas. *)
Definition sampleLib : XfbLib := {|
  SMIDGEN := 0.0000001;
  FBL_SurfaceFuelBedIntermediates :=
    fun depth deadMext parts life loads savr heat dens stot seff =>
      (at_ savr 0, totalLoad loads / depth, totalLoad loads / (32 * depth), 1);
  FBL_SurfaceFireExpectedSpreadRate :=
    fun ros cov fuels lbRatio samples depth laterals =>
      at_ cov 0 * at_ ros 0 + at_ cov 1 * at_ ros 1;
  FBL_SurfaceFireWidth := fun length ratio => length / ratio;
  FBL_SurfaceFirePerimeter := fun length width => 2 * (length + width);
  FBL_SurfaceFireArea := fun length width => length * width
|}.

(** A fuel bed of 1 lb/ft2 of 1-h dead fuel and 2 lb/ft2 of live herbaceous
    fuel, half of which the load transfer moves to dead herbaceous. *)
Definition sampleBed : EqTree :=
  (update "vSurfaceFuelLoad0" 1 ;;
   updateItem "vSurfaceFuelLife0" 0 ;;
   update "vSurfaceFuelLoad3" 2 ;;
   updateItem "vSurfaceFuelLife3" 1 ;;
   updateItem "vSurfaceFuelLoadTransferEq" 1 ;;
   update "vSurfaceFuelLoadTransferFraction" 0.5 ;;
   update "vSurfaceFuelBedDepth" 1) emptyTree.


(** A property dictionary in which exactly the listed boolean properties
    are true and every integer property is 0. *)
Definition propertiesOn (on : list string) : PropertyDict :=
  mkPropertyDict (fun name => existsb (String.eqb name) on) (fun _ => 0%Z).

(** Surface functions with simple closed formulas: every fire output is a
    multiple of the fuel bed depth or of the 20-ft wind speed. *)
Definition setFrom (out : string) (k : Q) (inp : string) : cmd :=
  fun t => update out (k * nativeValue inp t) t.

Definition sampleNodes : SurfaceNodes := {|
  FuelLoadTransferFraction := fun _ => skip;
  FireResidenceTime := fun _ => skip;
  FuelMoisLifeClass := fun _ => skip;
  FuelMoisScenarioModel := fun _ => skip;
  FuelMoisTimeLag := fun _ => skip;
  FuelBedHeatSink := fun _ => skip;
  FirePropagatingFlux := fun _ => skip;
  FireReactionInt := fun _ =>
    setFrom "vSurfaceFireReactionInt" 100 "vSurfaceFuelBedDepth";
  FireNoWindRate := fun _ => skip;
  WindAdjFactor := fun _ => setFrom "vWindAdjFactor" 0.1 "vSurfaceFuelBedDepth";
  WindSpeedAt20Ft := fun _ => setFrom "vWindSpeedAt20Ft" 1.15 "vWindSpeedAt10M";
  WindSpeedAtMidflame := fun _ =>
    setFrom "vWindSpeedAtMidflame" 0.4 "vWindSpeedAt20Ft";
  FireSpreadAtHead := fun _ =>
    setFrom "vSurfaceFireSpreadAtHead" 5 "vSurfaceFuelBedDepth" ;;
    setFrom "vSurfaceFireMaxDirFromUpslope" 10 "vSurfaceFuelBedDepth" ;;
    setFrom "vSurfaceFireEffWindAtHead" 1 "vWindSpeedAtMidflame" ;;
    setFrom "vSurfaceFireWindSpeedLimit" 3 "vSurfaceFuelBedDepth";
  FireLineIntAtHead := fun _ =>
    setFrom "vSurfaceFireLineIntAtHead" 20 "vSurfaceFuelBedDepth";
  FireFlameLengAtHead := fun _ =>
    setFrom "vSurfaceFireFlameLengAtHead" 2 "vSurfaceFuelBedDepth";
  FireLengthToWidth := fun _ =>
    setFrom "vSurfaceFireLengthToWidth" 0.5 "vWindSpeedAtMidflame";
  FireEccentricity := fun _ => skip;
  FireVectorBeta := fun _ => skip;
  FireSpreadAtBeta := fun _ =>
    setFrom "vSurfaceFireSpreadAtVector" 4 "vSurfaceFuelBedDepth";
  FireLineIntAtVector := fun _ =>
    setFrom "vSurfaceFireLineIntAtVector" 16 "vSurfaceFuelBedDepth";
  FireFlameLengAtVector := fun _ =>
    setFrom "vSurfaceFireFlameLengAtVector" 1.5 "vSurfaceFuelBedDepth";
  FireEffWindAtVector := fun _ =>
    setFrom "vSurfaceFireEffWindAtVector" 0.8 "vWindSpeedAtMidflame";
  FireHeatPerUnitArea := fun _ =>
    setFrom "vSurfaceFireHeatPerUnitArea" 50 "vSurfaceFuelBedDepth"
|}.

(** Fuel models that differ in depth only. *)
Definition fuelModelOfDepth (depth : Q) : FuelModel :=
  mkFuelModel depth 0.25 8000 8000 0.1 0.05 0.02 0.03 0.04 2000 1800 1500 0.

(** A tree with the given coverage of the primary fuel model and a 20-ft
    wind speed of 10 mi/h. *)
Definition weightedInputs (cov0 : Q) : EqTree :=
  (update "vSurfaceFuelBedCoverage1" cov0 ;;
   update "vWindSpeedAt20Ft" 10) emptyTree.

(** A containment simulator that contains the fire when the line
    production of the force exceeds the reported spread rate, is overrun
    when the force produces some line, and is exhausted without line
    otherwise. *)
Definition sampleSim (status : ContainStatus) (size line : Q) : ContainSim :=
  mkContainSim (mkContain status 1 2 1 2 0.5 1 10) size line 0 60 1 5 (-5) 3.

Definition sampleContainLib : ContainLib := {|
  resourceTokens := fun t =>
    [mkContainResource 0 (nativeValue "vContainResourceProd" t) 480 "crew" 0 0;
     mkContainResource 30 (nativeValue "vContainResourceProd" t) 480 "engine" 0 0];
  runContainSim :=
    fun reportSize reportRate lwRatio force tactic attackDist distLimit
        retry minSteps maxSteps =>
      let prod := totalLoad (map m_production force) in
      if reportRate <? prod then sampleSim Contained (2 * reportSize) prod
      else if 0 <? prod then sampleSim Overrun (100 * reportSize) prod
      else sampleSim Exhausted (100 * reportSize) 0
|}.

(** A reported fire of 1 acre spreading at the given rate, attacked by
    resources of the given line production. *)
Definition containInputs (reportRate prod : Q) : EqTree :=
  (update "vContainReportSize" 1 ;;
   update "vContainReportSpread" reportRate ;;
   update "vContainReportRatio" 2 ;;
   update "vContainResourceProd" prod) emptyTree.

(** A configuration in which the Size module is the only active module and
    its head distance output is requested. *)
Definition sizeOnly : PropertyDict :=
  propertiesOn ["sizeModuleActive"; "sizeCalcFireDistAtFront"].

(** A configuration in which the Contain module is the only active module:
    the Surface and Size modules are both off. *)
Definition containOnly : PropertyDict :=
  propertiesOn ["containModuleActive"; "containCalcSize"].

(** A configuration with the Surface and Size modules active and every
    other module off. *)
Definition surfaceAndSize : PropertyDict :=
  propertiesOn ["surfaceModuleActive"; "sizeModuleActive";
                "surfaceConfFuelModels"; "surfaceConfSpreadDirMax";
                "surfaceCalcFireSpread"; "sizeCalcFireArea"].

(** A two-fuel-model configuration that asks for the fuel bed
    intermediates as outputs. *)
Definition twoFuelModels : PropertyDict :=
  propertiesOn ["surfaceModuleActive"; "surfaceConfFuelHarmonicMean";
                "surfaceCalcFuelBedSigma"; "surfaceCalcFireResidenceTime"].

(** A display that stores the name of a variable as its text. *)
Definition sampleDisplay : EqVarDisplay := {|
  displayStore := fun v _ => v
|}.

(** A wind from compass point [w] on a slope that faces compass point [a]. *)
Definition compassInputs (w a : Z) : EqTree :=
  (updateItem "vWindDirFromCompass" w ;;
   updateItem "vSiteAspectDirFromCompass" a) emptyTree.

(** A 1:24000 map, a ridge-to-valley distance of 2 in on it, and a fire
    whose head is 600 ft and whose back is 60 ft from the origin. *)
Definition mapInputs : EqTree :=
  (update "vMapFraction" 24000 ;;
   update "vSiteRidgeToValleyMapDist" 2 ;;
   update "vSurfaceFireDistAtBack" 60 ;;
   update "vSurfaceFireDistAtHead" 600 ;;
   update "vSurfaceFireLengDist" 660) emptyTree.

(** Moistures by life category, with particle 3 live herbaceous. *)
Definition lifeClassInputs : EqTree :=
  (update "vSurfaceFuelMoisLifeDead" 0.06 ;;
   update "vSurfaceFuelMoisLifeLive" 0.9 ;;
   updateItem "vSurfaceFuelLife3" 1) emptyTree.

(** A standard fuel bed with fine 1-h fuel at 5 percent moisture. *)
Definition standardBedInputs : EqTree :=
  (update "vSurfaceFuelSavrDead1" 2000 ;;
   update "vSurfaceFuelMoisDead1" 0.05) emptyTree.

(** Configurations of the fuel choices. *)
Definition fuelParameters : PropertyDict :=
  propertiesOn ["surfaceModuleActive"; "surfaceConfFuelParms"].

Definition twoFuelModelsAndSize : PropertyDict :=
  propertiesOn ["surfaceModuleActive"; "surfaceConfFuelHarmonicMean";
                "sizeModuleActive"].

Definition aspenFuel : PropertyDict :=
  propertiesOn ["surfaceModuleActive"; "surfaceConfFuelAspen";
                "surfaceConfLoadTransferInput"].

Definition containWithCost : PropertyDict :=
  propertiesOn ["containModuleActive"; "containCalcCost"].

(** Configurations of the Crown and Scorch modules, stand-alone with the
    flame length as input and linked to the Surface module. *)
Definition crownFromFlameLength : PropertyDict :=
  propertiesOn ["crownModuleActive"; "crownConfUseFlameLeng"].

Definition crownWithSurface : PropertyDict :=
  propertiesOn ["crownModuleActive"; "surfaceModuleActive";
                "surfaceConfFuelModels"].

Definition scorchFromFlameLength : PropertyDict :=
  propertiesOn ["scorchModuleActive"; "scorchCalcScorchHt";
                "scorchConfUseFlameLeng"].

Definition scorchWithSurface : PropertyDict :=
  propertiesOn ["scorchModuleActive"; "scorchCalcScorchHt";
                "surfaceModuleActive"; "surfaceConfFuelModels"].

(** * Properties *)

(** ** Comparisons *)

Lemma Qltb_lt x y : (x <? y) = true <-> x < y.
Proof.
  unfold Qltb. destruct (Qlt_le_dec x y) as [Hlt | Hle]; split; intros H; try done.
  exfalso. apply (Qle_not_lt _ _ Hle H).
Qed.

Lemma Qltb_ge x y : (x <? y) = false <-> y <= x.
Proof.
  unfold Qltb. destruct (Qlt_le_dec x y) as [Hlt | Hle]; split; intros H; try done.
  exfalso. apply (Qle_not_lt _ _ H Hlt).
Qed.

Lemma Qltb_true x y : x < y -> (x <? y) = true.
Proof. apply Qltb_lt. Qed.

Lemma Qltb_false x y : y <= x -> (x <? y) = false.
Proof. apply Qltb_ge. Qed.

(** Case analysis on every comparison of the goal. *)
Ltac case_Qltb :=
  repeat match goal with
  | |- context [Qltb ?x ?y] =>
      let E := fresh "E" in
      destruct (Qltb x y) eqn:E;
      [apply Qltb_lt in E | apply Qltb_ge in E]
  end.

(** ** Reading back what a writer wrote *)

Section ReadBack.
Variables (v w : string) (t : EqTree).

Lemma nativeValue_update_eq x : nativeValue v (update v x t) = x.
Proof. unfold nativeValue, update; simpl. by rewrite lookup_insert_eq. Qed.

Lemma nativeValue_update_ne x :
  w ≠ v -> nativeValue v (update w x t) = nativeValue v t.
Proof.
  intros Hne. unfold nativeValue, update; simpl.
  by rewrite lookup_insert_ne.
Qed.

Lemma nativeValue_updateItem i :
  nativeValue v (updateItem w i t) = nativeValue v t.
Proof. reflexivity. Qed.

Lemma activeItem_updateItem_eq i :
  activeItemDataIndex v (updateItem v i t) = i.
Proof.
  unfold activeItemDataIndex, updateItem; simpl.
  by rewrite lookup_insert_eq.
Qed.

Lemma activeItem_updateItem_ne i :
  w ≠ v -> activeItemDataIndex v (updateItem w i t) = activeItemDataIndex v t.
Proof.
  intros Hne. unfold activeItemDataIndex, updateItem; simpl.
  by rewrite lookup_insert_ne.
Qed.

Lemma activeItem_update x :
  activeItemDataIndex v (update w x t) = activeItemDataIndex v t.
Proof. reflexivity. Qed.

Lemma isUserOutput_set_eq b : isUserOutput v (set_isUserOutput v b t) = b.
Proof.
  unfold isUserOutput, set_isUserOutput; simpl.
  by rewrite lookup_insert_eq.
Qed.

Lemma isUserOutput_set_ne b :
  w ≠ v -> isUserOutput v (set_isUserOutput w b t) = isUserOutput v t.
Proof.
  intros Hne. unfold isUserOutput, set_isUserOutput; simpl.
  by rewrite lookup_insert_ne.
Qed.

Lemma isActive_set_eq b : isActive v (set_active v b t) = b.
Proof. unfold isActive, set_active; simpl. by rewrite lookup_insert_eq. Qed.

Lemma isActive_set_ne b :
  w ≠ v -> isActive v (set_active w b t) = isActive v t.
Proof.
  intros Hne. unfold isActive, set_active; simpl.
  by rewrite lookup_insert_ne.
Qed.
End ReadBack.

(** Read a variable back through a chain of [update] and [updateItem]. *)
Ltac read_back :=
  cbv [andThen skip];
  repeat first
    [ rewrite nativeValue_update_eq
    | rewrite nativeValue_update_ne by done
    | rewrite nativeValue_updateItem
    | rewrite activeItem_updateItem_eq
    | rewrite activeItem_updateItem_ne by done
    | rewrite activeItem_update ].
(** ** Rounding to the nearest double *)

(** Powers of two. *)
Lemma pow2_pos e : 0 < 2 ^ e.
Proof. apply Qpower_0_lt. reflexivity. Qed.

Lemma pow2_le a b : (a <= b)%Z -> 2 ^ a <= 2 ^ b.
Proof. intros H. apply Qpower_le_compat_l; [exact H | discriminate]. Qed.

Lemma pow2_lt a b : (a < b)%Z -> 2 ^ a < 2 ^ b.
Proof. intros H. apply Qpower_lt_compat_l; [exact H | reflexivity]. Qed.

Lemma pow2_lt_inv a b : 2 ^ a < 2 ^ b -> (a < b)%Z.
Proof. intros H. apply (Qpower_lt_compat_l_inv 2); [exact H | reflexivity]. Qed.

Lemma pow2_add a b : 2 ^ (a + b) == 2 ^ a * 2 ^ b.
Proof. apply Qpower_plus. discriminate. Qed.

Lemma pow2_Z n : (0 <= n)%Z -> inject_Z (2 ^ n) == 2 ^ n.
Proof. intros H. apply (Zpower_Qpower 2 n H). Qed.

(** The nearest integer. *)
Lemma roundHalfEven_cases q :
  let f := Qfloor q in
  (roundHalfEven q = f /\ q - inject_Z f <= 1 # 2
   /\ (q - inject_Z f == 1 # 2 -> Z.even f = true))
  \/ (roundHalfEven q = (f + 1)%Z /\ 1 # 2 <= q - inject_Z f
      /\ (q - inject_Z f == 1 # 2 -> Z.even f = false)).
Proof.
  intros f. unfold roundHalfEven. fold f.
  destruct (Qcompare_spec (q - inject_Z f) (1 # 2)) as [E | E | E].
  - destruct (Z.even f) eqn:Ev.
    + left. split; [reflexivity |]. split; [lra | reflexivity].
    + right. split; [reflexivity |]. split; [lra | reflexivity].
  - left. split; [reflexivity |]. split; [lra |]. intros E'. lra.
  - right. split; [reflexivity |]. split; [lra |]. intros E'. lra.
Qed.

Lemma Qfloor_bounds q : inject_Z (Qfloor q) <= q /\ q < inject_Z (Qfloor q) + 1.
Proof.
  split; [apply Qfloor_le |].
  pose proof (Qlt_floor q) as H. rewrite inject_Z_plus in H. exact H.
Qed.


Lemma roundHalfEven_mono x y :
  x <= y -> (roundHalfEven x <= roundHalfEven y)%Z.
Proof.
  intros Hxy.
  pose proof (Qfloor_resp_le x y Hxy) as Hf.
  destruct (Qfloor_bounds x) as [Hx0 Hx1].
  destruct (Qfloor_bounds y) as [Hy0 Hy1].
  destruct (roundHalfEven_cases x) as [(-> & Hx & Hxe) | (-> & Hx & Hxe)];
    destruct (roundHalfEven_cases y) as [(-> & Hy & Hye) | (-> & Hy & Hye)];
    try lia.
  destruct (Z.eq_dec (Qfloor x) (Qfloor y)) as [E | E]; [| lia].
  exfalso. rewrite E in Hx, Hxe.
  assert (Ex : x - inject_Z (Qfloor y) == 1 # 2) by lra.
  assert (Ey : y - inject_Z (Qfloor y) == 1 # 2) by lra.
  rewrite (Hxe Ex) in Hye. specialize (Hye Ey). discriminate.
Qed.

Lemma roundHalfEven_Z k : roundHalfEven (inject_Z k) = k.
Proof.
  unfold roundHalfEven. rewrite Qfloor_Z.
  destruct (Qcompare_spec (inject_Z k - inject_Z k) (1 # 2)) as [E | E | E].
  - lra.
  - reflexivity.
  - lra.
Qed.

Lemma Qabs_make q : Qabs q == inject_Z (Z.abs (Qnum q)) / inject_Z (Zpos (Qden q)).
Proof. destruct q as [n d]. cbn [Qabs Qnum Qden]. apply Qmake_Qdiv. Qed.

Lemma log2_bounds n : (0 < n)%Z ->
  2 ^ Z.log2 n <= inject_Z n /\ inject_Z n < 2 ^ (Z.log2 n + 1).
Proof.
  intros Hn. destruct (Z.log2_spec n Hn) as [Hlo Hhi].
  pose proof (Z.log2_nonneg n) as H0.
  split.
  - rewrite <- pow2_Z by exact H0. rewrite <- Zle_Qle. exact Hlo.
  - rewrite <- pow2_Z by lia. rewrite <- Zlt_Qlt. exact Hhi.
Qed.

Lemma binade_spec q :
  ~ q == 0 -> 2 ^ binade q <= Qabs q /\ Qabs q < 2 ^ (binade q + 1).
Proof.
  intros Hq.
  assert (Hn : (0 < Z.abs (Qnum q))%Z).
  { destruct q as [[| n | n] d]; cbn; try lia. exfalso. apply Hq. reflexivity. }
  assert (Hd : (0 < Zpos (Qden q))%Z) by lia.
  destruct (log2_bounds _ Hn) as [Hn0 Hn1].
  destruct (log2_bounds _ Hd) as [Hd0 Hd1].
  pose proof (Qabs_make q) as Habs.
  set (n := inject_Z (Z.abs (Qnum q))) in *.
  set (d := inject_Z (Zpos (Qden q))) in *.
  set (ln := Z.log2 (Z.abs (Qnum q))) in *.
  set (ld := Z.log2 (Zpos (Qden q))) in *.
  assert (Hd' : 0 < d) by (pose proof (pow2_pos ld); lra).
  assert (Hup : Qabs q < 2 ^ (ln - ld + 1)).
  { rewrite Habs. apply Qlt_shift_div_r; [exact Hd' |].
    assert (E : 2 ^ (ln + 1) == 2 ^ (ln - ld + 1) * 2 ^ ld).
    { rewrite <- pow2_add. f_equiv. lia. }
    pose proof (pow2_pos (ln - ld + 1)). nra. }
  assert (Hlow : 2 ^ (ln - ld - 1) <= Qabs q).
  { rewrite Habs. apply Qle_shift_div_l; [exact Hd' |].
    assert (E : 2 ^ ln == 2 ^ (ln - ld - 1) * 2 ^ (ld + 1)).
    { rewrite <- pow2_add. f_equiv. lia. }
    pose proof (pow2_pos (ln - ld - 1)). nra. }
  unfold binade. fold ln ld.
  destruct (Qle_bool (2 ^ (ln - ld)) (Qabs q)) eqn:E.
  - apply Qle_bool_iff in E. split; assumption.
  - assert (Hlt : Qabs q < 2 ^ (ln - ld)).
    { apply Qnot_le_lt. intros Hle. apply Qle_bool_iff in Hle. congruence. }
    split; [exact Hlow |].
    replace (ln - ld - 1 + 1)%Z with (ln - ld)%Z by lia. exact Hlt.
Qed.

Lemma binade_mono x y :
  ~ x == 0 -> ~ y == 0 -> Qabs x <= Qabs y -> (binade x <= binade y)%Z.
Proof.
  intros Hx Hy Hxy.
  destruct (binade_spec x Hx) as [Hx0 _].
  destruct (binade_spec y Hy) as [_ Hy1].
  assert (H : 2 ^ binade x < 2 ^ (binade y + 1)) by lra.
  apply pow2_lt_inv in H. lia.
Qed.

Lemma ulpExponent_mono x y :
  ~ x == 0 -> ~ y == 0 -> Qabs x <= Qabs y -> (ulpExponent x <= ulpExponent y)%Z.
Proof.
  intros Hx Hy Hxy. pose proof (binade_mono x y Hx Hy Hxy).
  unfold ulpExponent. lia.
Qed.

Lemma Qeq_bool_false x y : ~ x == y -> Qeq_bool x y = false.
Proof.
  intros Hne. destruct (Qeq_bool x y) eqn:E; [| reflexivity].
  apply Qeq_bool_eq in E. contradiction.
Qed.

Lemma binary64_zero q : q == 0 -> binary64 q = 0.
Proof.
  intros Hq. unfold binary64.
  assert (E : Qeq_bool q 0 = true) by (apply Qeq_bool_iff; exact Hq).
  rewrite E. reflexivity.
Qed.

Lemma binary64_value q :
  ~ q == 0 ->
  binary64 q == inject_Z (roundHalfEven (q / 2 ^ ulpExponent q))
                * 2 ^ ulpExponent q.
Proof.
  intros Hq. unfold binary64. rewrite (Qeq_bool_false q 0 Hq).
  apply Qred_correct.
Qed.

(** The scaled value [q / 2 ^ ulpExponent q] has at most 53 bits. *)
Lemma scaled_bound q :
  ~ q == 0 -> Qabs q / 2 ^ ulpExponent q < 2 ^ 53.
Proof.
  intros Hq. destruct (binade_spec q Hq) as [_ Hhi].
  apply Qlt_shift_div_r; [apply pow2_pos |].
  rewrite <- pow2_add.
  assert (H : 2 ^ (binade q + 1) <= 2 ^ (53 + ulpExponent q)).
  { apply pow2_le. unfold ulpExponent. lia. }
  lra.
Qed.

Lemma scaled_normal q :
  ~ q == 0 -> (-1022 <= binade q)%Z -> 2 ^ 52 <= Qabs q / 2 ^ ulpExponent q.
Proof.
  intros Hq Hn. destruct (binade_spec q Hq) as [Hlo _].
  apply Qle_shift_div_l; [apply pow2_pos |].
  rewrite <- pow2_add.
  assert (E : (52 + ulpExponent q = binade q)%Z) by (unfold ulpExponent; lia).
  rewrite E. exact Hlo.
Qed.

Lemma Qdiv_pos_abs q p : 0 < p -> 0 <= q -> q / p == Qabs q / p.
Proof. intros Hp Hq. rewrite Qabs_pos by exact Hq. reflexivity. Qed.

Lemma Qdiv_neg_abs q p : 0 < p -> q <= 0 -> q / p == - (Qabs q / p).
Proof.
  intros Hp Hq. rewrite Qabs_neg by exact Hq. field. lra.
Qed.

Lemma Qdiv_le_compat x y p : 0 < p -> x <= y -> x / p <= y / p.
Proof.
  intros Hp Hxy. apply Qle_shift_div_l; [exact Hp |].
  assert (E : x / p * p == x) by (field; lra). lra.
Qed.

Lemma roundHalfEven_le q k : q <= inject_Z k -> (roundHalfEven q <= k)%Z.
Proof.
  intros H. apply roundHalfEven_mono in H. rewrite roundHalfEven_Z in H.
  exact H.
Qed.

Lemma roundHalfEven_ge q k : inject_Z k <= q -> (k <= roundHalfEven q)%Z.
Proof.
  intros H. apply roundHalfEven_mono in H. rewrite roundHalfEven_Z in H.
  exact H.
Qed.

(** Bounds on the rounded value of a positive and of a negative number. *)
Lemma binary64_pos q :
  0 < q ->
  0 <= binary64 q
  /\ binary64 q <= 2 ^ (ulpExponent q + 53)
  /\ ((-1022 <= binade q)%Z -> 2 ^ (ulpExponent q + 52) <= binary64 q).
Proof.
  intros Hq. assert (Hne : ~ q == 0) by lra.
  rewrite (binary64_value q Hne).
  set (s := ulpExponent q). pose proof (pow2_pos s) as Hs.
  pose proof (scaled_bound q Hne) as Hb. fold s in Hb.
  rewrite <- (Qdiv_pos_abs q (2 ^ s)) in Hb by lra.
  assert (H0 : (0 <= roundHalfEven (q / 2 ^ s))%Z).
  { apply roundHalfEven_ge.
    apply Qle_shift_div_l; [exact Hs |]. change (inject_Z 0) with 0. lra. }
  assert (H1 : (roundHalfEven (q / 2 ^ s) <= 2 ^ 53)%Z).
  { apply roundHalfEven_le. rewrite pow2_Z by lia. lra. }
  rewrite Zle_Qle in H0, H1. rewrite pow2_Z in H1 by lia.
  change (inject_Z 0) with 0 in H0.
  split; [| split].
  - nra.
  - rewrite pow2_add. nra.
  - intros Hn. pose proof (scaled_normal q Hne Hn) as Hlo. fold s in Hlo.
    rewrite <- (Qdiv_pos_abs q (2 ^ s)) in Hlo by lra.
    assert (H2 : (2 ^ 52 <= roundHalfEven (q / 2 ^ s))%Z).
    { apply roundHalfEven_ge. rewrite pow2_Z by lia. exact Hlo. }
    rewrite Zle_Qle in H2. rewrite pow2_Z in H2 by lia.
    rewrite pow2_add. nra.
Qed.

Lemma binary64_neg q :
  q < 0 ->
  binary64 q <= 0
  /\ - 2 ^ (ulpExponent q + 53) <= binary64 q
  /\ ((-1022 <= binade q)%Z -> binary64 q <= - 2 ^ (ulpExponent q + 52)).
Proof.
  intros Hq. assert (Hne : ~ q == 0) by lra.
  rewrite (binary64_value q Hne).
  set (s := ulpExponent q). pose proof (pow2_pos s) as Hs.
  pose proof (scaled_bound q Hne) as Hb. fold s in Hb.
  assert (Hqs : q / 2 ^ s == - (Qabs q / 2 ^ s)) by (apply Qdiv_neg_abs; lra).
  assert (H0 : (roundHalfEven (q / 2 ^ s) <= 0)%Z).
  { apply roundHalfEven_le.
    apply Qle_shift_div_r; [exact Hs |]. change (inject_Z 0) with 0. lra. }
  assert (H1 : (- 2 ^ 53 <= roundHalfEven (q / 2 ^ s))%Z).
  { apply roundHalfEven_ge. rewrite inject_Z_opp, pow2_Z by lia. lra. }
  rewrite Zle_Qle in H0, H1. rewrite inject_Z_opp, pow2_Z in H1 by lia.
  change (inject_Z 0) with 0 in H0.
  split; [| split].
  - nra.
  - rewrite pow2_add. nra.
  - intros Hn. pose proof (scaled_normal q Hne Hn) as Hlo. fold s in Hlo.
    assert (H2 : (roundHalfEven (q / 2 ^ s) <= - 2 ^ 52)%Z).
    { apply roundHalfEven_le. rewrite inject_Z_opp, pow2_Z by lia. lra. }
    rewrite Zle_Qle in H2. rewrite inject_Z_opp, pow2_Z in H2 by lia.
    rewrite pow2_add. nra.
Qed.

Lemma binary64_same_scale x y :
  ~ x == 0 -> ~ y == 0 -> ulpExponent x = ulpExponent y -> x <= y ->
  binary64 x <= binary64 y.
Proof.
  intros Hx Hy Hs Hxy.
  rewrite (binary64_value x Hx), (binary64_value y Hy), Hs.
  set (s := ulpExponent y). pose proof (pow2_pos s) as Hp.
  assert (H : (roundHalfEven (x / 2 ^ s) <= roundHalfEven (y / 2 ^ s))%Z).
  { apply roundHalfEven_mono. apply Qdiv_le_compat; assumption. }
  rewrite Zle_Qle in H. nra.
Qed.

Theorem binary64_monotone x y : x <= y -> binary64 x <= binary64 y.
Proof.
  intros Hxy.
  destruct (Q_dec x 0) as [[Hx | Hx] | Hx].
  - (* x < 0 *)
    destruct (binary64_neg x Hx) as (Hx0 & Hx1 & Hx2).
    destruct (Q_dec y 0) as [[Hy | Hy] | Hy].
    + destruct (binary64_neg y Hy) as (Hy0 & Hy1 & Hy2).
      assert (Hs : (ulpExponent y <= ulpExponent x)%Z).
      { apply ulpExponent_mono; try lra.
        rewrite !Qabs_neg by lra. lra. }
      destruct (Z.eq_dec (ulpExponent x) (ulpExponent y)) as [E | E].
      * apply binary64_same_scale; try lra. exact E.
      * assert (Hn : (-1022 <= binade x)%Z) by (unfold ulpExponent in *; lia).
        specialize (Hx2 Hn).
        assert (Hp : 2 ^ (ulpExponent y + 53) <= 2 ^ (ulpExponent x + 52))
          by (apply pow2_le; lia).
        lra.
    + destruct (binary64_pos y Hy) as (Hy0 & _). lra.
    + rewrite (binary64_zero y Hy). exact Hx0.
  - (* 0 < x *)
    destruct (binary64_pos x Hx) as (Hx0 & Hx1 & Hx2).
    assert (Hy : 0 < y) by lra.
    destruct (binary64_pos y Hy) as (Hy0 & Hy1 & Hy2).
    assert (Hs : (ulpExponent x <= ulpExponent y)%Z).
    { apply ulpExponent_mono; try lra.
      rewrite !Qabs_pos by lra. lra. }
    destruct (Z.eq_dec (ulpExponent x) (ulpExponent y)) as [E | E].
    + apply binary64_same_scale; try lra. exact E.
    + assert (Hn : (-1022 <= binade y)%Z) by (unfold ulpExponent in *; lia).
      specialize (Hy2 Hn).
      assert (Hp : 2 ^ (ulpExponent x + 53) <= 2 ^ (ulpExponent y + 52))
        by (apply pow2_le; lia).
      lra.
  - (* x == 0 *)
    rewrite (binary64_zero x Hx).
    destruct (Q_dec y 0) as [[Hy | Hy] | Hy].
    + lra.
    + destruct (binary64_pos y Hy) as (Hy0 & _). exact Hy0.
    + rewrite (binary64_zero y Hy). lra.
Qed.

Lemma roundHalfEven_eq x y : x == y -> roundHalfEven x = roundHalfEven y.
Proof.
  intros E. apply Z.le_antisymm; apply roundHalfEven_mono; lra.
Qed.


Lemma pow2_opp s : 2 ^ (- s) * 2 ^ s == 1.
Proof. rewrite <- pow2_add. replace (- s + s)%Z with 0%Z by lia. reflexivity. Qed.

Lemma binary64_integer z :
  (Z.abs z < 2 ^ 53)%Z -> binary64 (inject_Z z) == inject_Z z.
Proof.
  intros Hz.
  destruct (Z.eq_dec z 0%Z) as [-> | Hne]; [reflexivity |].
  assert (Hq : ~ inject_Z z == 0).
  { intros E. apply Hne. change 0 with (inject_Z 0) in E.
    apply (proj1 (inject_Z_injective z 0) E). }
  destruct (binade_spec _ Hq) as [Hlo Hhi].
  assert (Habs : Qabs (inject_Z z) == inject_Z (Z.abs z)) by reflexivity.
  rewrite Habs in Hlo, Hhi.
  assert (H1 : 1 <= inject_Z (Z.abs z)).
  { change 1 with (inject_Z 1). rewrite <- Zle_Qle. lia. }
  assert (H53 : inject_Z (Z.abs z) < 2 ^ 53).
  { rewrite <- pow2_Z by lia. rewrite <- Zlt_Qlt. exact Hz. }
  assert (Hb0 : (0 <= binade (inject_Z z))%Z).
  { assert (H : 2 ^ 0 < 2 ^ (binade (inject_Z z) + 1))
      by (change (2 ^ 0) with 1; lra).
    apply pow2_lt_inv in H. lia. }
  assert (Hb1 : (binade (inject_Z z) < 53)%Z).
  { apply pow2_lt_inv. lra. }
  rewrite (binary64_value _ Hq).
  set (s := ulpExponent (inject_Z z)).
  assert (Hs : (-52 <= s <= 0)%Z) by (subst s; unfold ulpExponent; lia).
  assert (E : inject_Z z / 2 ^ s == inject_Z (z * 2 ^ (- s))).
  { rewrite inject_Z_mult, pow2_Z by lia.
    pose proof (pow2_opp s). pose proof (pow2_pos s).
    field_simplify_eq; [| lra]. nra. }
  rewrite (roundHalfEven_eq _ _ E), roundHalfEven_Z.
  rewrite inject_Z_mult, pow2_Z by lia.
  pose proof (pow2_opp s). nra.
Qed.

Theorem binary64_rounding : rounding binary64.
Proof.
  split.
  - exact binary64_monotone.
  - exact binary64_integer.
Qed.

Lemma exact_rounding : rounding (fun x => x).
Proof. split; intros; [assumption | reflexivity]. Qed.



(** ** [WindDirFromUpslope] *)

Lemma WindDirFromUpslope_stores t :
  nativeValue "vWindDirFromUpslope" (WindDirFromUpslope t)
  = snapToZero 0.5
      (angleFrom (nativeValue "vSiteUpslopeDirFromNorth" t)
                 (windVector (nativeValue "vWindDirFromNorth" t))).
Proof.
  unfold WindDirFromUpslope. rewrite nativeValue_update_eq.
  unfold snapToZero, angleFrom, windVector.
  by destruct (nativeValue "vWindDirFromNorth" t - 180 <? 0).
Qed.

Lemma windVector_range wd : 0 <= wd -> wd < 360 ->
  0 <= windVector wd /\ windVector wd < 360.
Proof. intros H0 H1. unfold windVector. case_Qltb; lra. Qed.

Lemma angleFrom_range sd wv :
  0 <= sd -> sd < 360 -> 0 <= wv -> wv < 360 ->
  0 <= angleFrom sd wv /\ angleFrom sd wv < 360.
Proof. intros. unfold angleFrom. case_Qltb; lra. Qed.

Lemma snapToZero_small tol a : Qabs a < tol -> snapToZero tol a = 0.
Proof. intros H. unfold snapToZero. by apply Qltb_lt in H as ->. Qed.

Lemma snapToZero_large tol a : tol <= Qabs a -> snapToZero tol a = a.
Proof. intros H. unfold snapToZero. by apply Qltb_ge in H as ->. Qed.

(** C8. A wind source direction of 0 degrees (a wind vector of 180 degrees)
    with an upslope direction of 180 degrees stores a wind direction from
    upslope of 0; and for every input the stored value is the source
    direction turned into a vector (minus 180, plus 360 when negative),
    taken relative to the upslope direction (minus the upslope direction,
    plus 360 when negative), and snapped to 0 when its absolute value is
    below 0.5 degrees. *)
Theorem C8_WindDirFromUpslope_wrap (t : EqTree) :
  nativeValue "vWindDirFromUpslope" (WindDirFromUpslope t)
  = snapToZero 0.5
      (angleFrom (nativeValue "vSiteUpslopeDirFromNorth" t)
                 (windVector (nativeValue "vWindDirFromNorth" t)))
  /\ (nativeValue "vWindDirFromNorth" t == 0 ->
      nativeValue "vSiteUpslopeDirFromNorth" t == 180 ->
      windVector (nativeValue "vWindDirFromNorth" t) == 180
      /\ nativeValue "vWindDirFromUpslope" (WindDirFromUpslope t) = 0).
Proof.
  split; [apply WindDirFromUpslope_stores |].
  intros Hwd Hsd. rewrite WindDirFromUpslope_stores.
  assert (Hv : windVector (nativeValue "vWindDirFromNorth" t) == 180).
  { unfold windVector. case_Qltb; lra. }
  split; [exact Hv |].
  apply snapToZero_small.
  apply Qabs_Qlt_condition. unfold angleFrom. case_Qltb; lra.
Qed.

Lemma C8_WindDirFromUpslope_wrap_witness :
  nativeValue "vWindDirFromUpslope" (WindDirFromUpslope (windInputs 0 180)) = 0.
Proof.
  apply (proj2 (C8_WindDirFromUpslope_wrap (windInputs 0 180)));
    vm_compute; reflexivity.
Defined.

(** *** [WindDirFromUpslope] in double arithmetic *)

Lemma Rounded_WindDirFromUpslope_stores rnd t :
  nativeValue "vWindDirFromUpslope" (Rounded.WindDirFromUpslope rnd t)
  = snapToZero 0.5
      (Rounded.angleFrom rnd (nativeValue "vSiteUpslopeDirFromNorth" t)
         (Rounded.windVector rnd (nativeValue "vWindDirFromNorth" t))).
Proof.
  unfold Rounded.WindDirFromUpslope. rewrite nativeValue_update_eq.
  unfold snapToZero, Rounded.angleFrom, Rounded.windVector.
  by destruct (rnd (nativeValue "vWindDirFromNorth" t - 180) <? 0).
Qed.

(** Without rounding it is the exact embedding. *)
Lemma Rounded_WindDirFromUpslope_exact t :
  Rounded.WindDirFromUpslope (fun x => x) t = WindDirFromUpslope t.
Proof. reflexivity. Qed.

Section RoundedWind.
Variable rnd : Q -> Q.
Hypothesis Hrnd : rounding rnd.

Lemma rnd_0 : rnd 0 == 0.
Proof. by apply (rnd_integer rnd Hrnd 0). Qed.

Lemma rnd_360 : rnd 360 == 360.
Proof. by apply (rnd_integer rnd Hrnd 360). Qed.

Lemma rnd_minus_360 : rnd (-360) == -360.
Proof. by apply (rnd_integer rnd Hrnd (-360)). Qed.

(** A rounded value lies in [[a, b]] when the exact one does and the
    bounds are numbers that the rounding leaves alone. *)
Lemma rnd_between a b x :
  rnd a == a -> rnd b == b -> a <= x -> x <= b -> a <= rnd x /\ rnd x <= b.
Proof.
  intros Ha Hb Hax Hxb.
  pose proof (rnd_monotone rnd Hrnd a x Hax).
  pose proof (rnd_monotone rnd Hrnd x b Hxb).
  lra.
Qed.

Lemma Rounded_windVector_range wd : 0 <= wd -> wd < 360 ->
  0 <= Rounded.windVector rnd wd /\ Rounded.windVector rnd wd <= 360.
Proof.
  intros H0 H1. unfold Rounded.windVector.
  destruct (rnd_between (-360) 360 (wd - 180) rnd_minus_360 rnd_360)
    as [Hlo Hhi]; [lra | lra |].
  case_Qltb.
  - apply (rnd_between 0 360); [apply rnd_0 | apply rnd_360 | lra | lra].
  - lra.
Qed.

Lemma Rounded_angleFrom_range sd wv :
  0 <= sd -> sd < 360 -> 0 <= wv -> wv <= 360 ->
  0 <= Rounded.angleFrom rnd sd wv /\ Rounded.angleFrom rnd sd wv <= 360.
Proof.
  intros Hs0 Hs1 Hv0 Hv1. unfold Rounded.angleFrom.
  destruct (rnd_between (-360) 360 (wv - sd) rnd_minus_360 rnd_360)
    as [Hlo Hhi]; [lra | lra |].
  case_Qltb.
  - apply (rnd_between 0 360); [apply rnd_0 | apply rnd_360 | lra | lra].
  - lra.
Qed.
End RoundedWind.

(** C10, as the code has it.  In double arithmetic, for a wind direction
    and an upslope direction in [0, 360) the stored wind direction from
    upslope lies in [0, 360], 360 included; it is 0 when the angle before
    the snap is below 0.5 degrees and is that angle unchanged otherwise,
    also when the angle is within 0.5 degrees below 360: for a wind
    direction of 180 and an upslope direction of 0.2 the double nearest to
    359.8 is stored.  This holds for every rounding that is monotone and
    leaves small integers alone, binary64 among them. *)
Theorem C10_WindDirFromUpslope_range :
  (forall (rnd : Q -> Q) (t : EqTree),
     let wd := nativeValue "vWindDirFromNorth" t in
     let sd := nativeValue "vSiteUpslopeDirFromNorth" t in
     let dd := Rounded.angleFrom rnd sd (Rounded.windVector rnd wd) in
     let stored :=
       nativeValue "vWindDirFromUpslope" (Rounded.WindDirFromUpslope rnd t) in
     rounding rnd ->
     0 <= wd -> wd < 360 -> 0 <= sd -> sd < 360 ->
     (0 <= stored /\ stored <= 360)
     /\ (dd < 0.5 -> stored = 0)
     /\ (0.5 <= dd -> stored = dd))
  /\ nativeValue "vWindDirFromUpslope"
       (Rounded.WindDirFromUpslope binary64 (windInputs 180 (binary64 0.2)))
     == binary64 359.8.
Proof.
  split; [| vm_compute; reflexivity].
  intros rnd t wd sd dd stored Hrnd Hwd0 Hwd1 Hsd0 Hsd1.
  destruct (Rounded_windVector_range rnd Hrnd wd Hwd0 Hwd1) as [Hv0 Hv1].
  destruct (Rounded_angleFrom_range rnd Hrnd sd _ Hsd0 Hsd1 Hv0 Hv1)
    as [Hd0 Hd1].
  fold dd in Hd0, Hd1.
  assert (Hst : stored = snapToZero 0.5 dd)
    by apply Rounded_WindDirFromUpslope_stores.
  assert (Habs : Qabs dd == dd) by (apply Qabs_pos; exact Hd0).
  assert (Hsmall : dd < 0.5 -> stored = 0).
  { intros H. rewrite Hst. apply snapToZero_small. lra. }
  assert (Hlarge : 0.5 <= dd -> stored = dd).
  { intros H. rewrite Hst. apply snapToZero_large. lra. }
  split; [| split; assumption].
  destruct (Qlt_le_dec dd 0.5) as [H | H].
  - rewrite (Hsmall H). lra.
  - rewrite (Hlarge H). lra.
Qed.

Lemma C10_WindDirFromUpslope_range_witness :
  nativeValue "vWindDirFromUpslope"
    (Rounded.WindDirFromUpslope binary64 (windInputs 180 (binary64 0.2)))
  = Rounded.angleFrom binary64 (binary64 0.2)
      (Rounded.windVector binary64 180).
Proof.
  refine (proj2 (proj2 (proj1 C10_WindDirFromUpslope_range binary64
                          (windInputs 180 (binary64 0.2)) _ _ _ _ _)) _).
  - exact binary64_rounding.
  - vm_compute. discriminate.
  - vm_compute. reflexivity.
  - vm_compute. discriminate.
  - vm_compute. reflexivity.
  - vm_compute. discriminate.
Defined.

(** C10 as stated fails in the double arithmetic of the source.  The wind
    direction 180.7 and the upslope direction 0.7, as doubles, are both in
    [0, 360).  The wind vector 180.7 - 180 is a double just below 0.7, so
    the angle from upslope comes out just below 0 and 360 is added to it;
    the sum is nearer to 360 than to the next double below and is rounded
    to 360, which is stored.  So the stored angle is not always below
    360. *)
Lemma C10_binary64_stores_360 :
  (0 <= binary64 180.7 /\ binary64 180.7 < 360
   /\ 0 <= binary64 0.7 /\ binary64 0.7 < 360
   /\ binary64 (binary64 180.7 - 180) < binary64 0.7
   /\ nativeValue "vWindDirFromUpslope"
        (Rounded.WindDirFromUpslope binary64
           (windInputs (binary64 180.7) (binary64 0.7))) == 360)
  /\ ~ (forall t : EqTree,
          let wd := nativeValue "vWindDirFromNorth" t in
          let sd := nativeValue "vSiteUpslopeDirFromNorth" t in
          let stored :=
            nativeValue "vWindDirFromUpslope"
              (Rounded.WindDirFromUpslope binary64 t) in
          0 <= wd -> wd < 360 -> 0 <= sd -> sd < 360 ->
          0 <= stored /\ stored < 360).
Proof.
  assert (Hstored :
    nativeValue "vWindDirFromUpslope"
      (Rounded.WindDirFromUpslope binary64
         (windInputs (binary64 180.7) (binary64 0.7))) == 360)
    by (vm_compute; reflexivity).
  assert (Hwd0 : 0 <= binary64 180.7) by (vm_compute; discriminate).
  assert (Hwd1 : binary64 180.7 < 360) by (vm_compute; reflexivity).
  assert (Hsd0 : 0 <= binary64 0.7) by (vm_compute; discriminate).
  assert (Hsd1 : binary64 0.7 < 360) by (vm_compute; reflexivity).
  split.
  - split; [exact Hwd0 |]. split; [exact Hwd1 |].
    split; [exact Hsd0 |]. split; [exact Hsd1 |].
    split; [vm_compute; reflexivity | exact Hstored].
  - intros Hall.
    destruct (Hall (windInputs (binary64 180.7) (binary64 0.7))) as [_ Hlt];
      [exact Hwd0 | exact Hwd1 | exact Hsd0 | exact Hsd1 |].
    apply (Qlt_irrefl 360).
    apply Qle_lt_trans with (2 := Hlt). rewrite Hstored. apply Qle_refl.
Qed.

(** ** [FuelBedIntermediates] *)

Lemma accumulateLoad_load life l p : load (accumulateLoad life l p) = load l.
Proof. unfold accumulateLoad. by destruct (_ || _). Qed.

Lemma accumulateLoad_total life l p :
  deadLoad (accumulateLoad life l p) + liveLoad (accumulateLoad life l p)
  == deadLoad l + liveLoad l + at_ (load l) p.
Proof. unfold accumulateLoad. destruct (_ || _); simpl; lra. Qed.

(** The loop keeps the array and adds every visited load to exactly one of
    the two totals. *)
Lemma accumulate_fold life ps : forall l0,
  let l := fold_left (accumulateLoad life) ps l0 in
  load l = load l0
  /\ deadLoad l + liveLoad l
     == deadLoad l0 + liveLoad l0 + totalLoad (map (at_ (load l0)) ps).
Proof.
  induction ps as [| p ps IH]; intros l0; simpl.
  - split; [reflexivity | lra].
  - destruct (IH (accumulateLoad life l0 p)) as [Hload Hsum].
    rewrite accumulateLoad_load in Hload, Hsum.
    split; [exact Hload |].
    rewrite Hsum, accumulateLoad_total. lra.
Qed.

Lemma accumulateLoads_load life loads :
  load (accumulateLoads life loads) = loads.
Proof. apply (accumulate_fold life (seq 0 MaxParts) (mkLoads loads 0 0)). Qed.



Lemma loadTransfer_off fraction l :
  fraction <= 0.00001 -> loadTransfer fraction l = l.
Proof. intros Hf. unfold loadTransfer. by rewrite Qltb_false. Qed.

Section FuelBedIntermediates.
Context `{XfbLib}.

(** What [FuelBedIntermediates] stores, in terms of the loads after the
    transfer step. *)
Lemma FuelBedIntermediates_stores t :
  let t' := FuelBedIntermediates t in
  let l := bedLoads t in
  nativeValue "vSurfaceFuelBedDeadFraction" t' = deadLoadFraction l
  /\ nativeValue "vSurfaceFuelBedLiveFraction" t' = 1 - deadLoadFraction l
  /\ nativeValue "vSurfaceFuelLoadDeadHerb" t' = at_ (load l) DeadHerb
  /\ nativeValue "vSurfaceFuelLoadUndeadHerb" t' = at_ (load l) LiveHerb
  /\ nativeValue "vSurfaceFuelLoadDead" t' = deadLoad l
  /\ nativeValue "vSurfaceFuelLoadLive" t' = liveLoad l.
Proof.
  intros t' l. subst t'. unfold FuelBedIntermediates. fold l.
  destruct (FBL_SurfaceFuelBedIntermediates _ _ _ _ _ _ _ _ _ _)
    as [[[sigma bulkDensity] packingRatio] betaRatio].
  repeat split; by read_back.
Qed.
End FuelBedIntermediates.


Lemma bedLoads_on t :
  activeItemDataIndex "vSurfaceFuelLoadTransferEq" t <> 0%Z ->
  bedLoads t
  = loadTransfer (nativeValue "vSurfaceFuelLoadTransferFraction" t)
      (accumulateLoads (activeItems vSurfaceFuelLife t)
                       (nativeValues vSurfaceFuelLoad t)).
Proof.
  intros Hne. unfold bedLoads, transferFraction.
  by apply Z.eqb_neq in Hne as ->.
Qed.

Lemma bedLoads_off t :
  activeItemDataIndex "vSurfaceFuelLoadTransferEq" t = 0%Z
  \/ nativeValue "vSurfaceFuelLoadTransferFraction" t <= 0.00001 ->
  bedLoads t
  = accumulateLoads (activeItems vSurfaceFuelLife t)
                    (nativeValues vSurfaceFuelLoad t).
Proof.
  intros Hoff. unfold bedLoads, transferFraction.
  destruct (Z.eqb_spec (activeItemDataIndex "vSurfaceFuelLoadTransferEq" t) 0)
    as [E | E]; simpl.
  - apply loadTransfer_off. lra.
  - apply loadTransfer_off. destruct Hoff as [Hz | Hq]; [done | exact Hq].
Qed.

(** The loads after a transfer that is applied. *)
Lemma bedLoads_transfer t :
  let fraction := nativeValue "vSurfaceFuelLoadTransferFraction" t in
  let liveHerb := nativeValue "vSurfaceFuelLoad3" t in
  let before := accumulateLoads (activeItems vSurfaceFuelLife t)
                                (nativeValues vSurfaceFuelLoad t) in
  activeItemDataIndex "vSurfaceFuelLoadTransferEq" t <> 0%Z ->
  0.00001 < fraction ->
  at_ (load (bedLoads t)) DeadHerb = fraction * liveHerb
  /\ at_ (load (bedLoads t)) LiveHerb = liveHerb - fraction * liveHerb
  /\ deadLoad (bedLoads t) = deadLoad before + fraction * liveHerb
  /\ liveLoad (bedLoads t) = liveLoad before - fraction * liveHerb.
Proof.
  intros fraction liveHerb before Hne Hf.
  rewrite bedLoads_on by assumption. fold fraction before.
  unfold loadTransfer. rewrite Qltb_true by assumption.
  assert (Hload : load before = nativeValues vSurfaceFuelLoad t)
    by apply accumulateLoads_load.
  simpl. rewrite Hload. repeat split; reflexivity.
Qed.

(** *** [FuelBedIntermediates] in double arithmetic *)

Section RoundedFuelBed.
Variable rnd : Q -> Q.








Section Stores.
Context `{XfbLib}.

End Stores.
End RoundedFuelBed.






Section FuelBedIntermediatesProperties.
Context `{XfbLib}.

(** C7. The transfer from live herbaceous to dead herbaceous load
    (fraction times the live herbaceous load goes to the dead herbaceous
    slot, and from the live total to the dead total) is applied when the
    transfer equation selector is non-zero and the fraction exceeds
    0.00001, and only then; the stored dead load fraction is 0 when the
    total of the dead and live loads is below [SMIDGEN], and is the dead
    load divided by the total when the total is at least [SMIDGEN], so the
    division is only ever by a total of at least [SMIDGEN]. *)
Theorem C7_FuelBedIntermediates_guards (t : EqTree) :
  let transferEq := activeItemDataIndex "vSurfaceFuelLoadTransferEq" t in
  let fraction := nativeValue "vSurfaceFuelLoadTransferFraction" t in
  let liveHerb := nativeValue "vSurfaceFuelLoad3" t in
  let deadHerb := nativeValue "vSurfaceFuelLoad5" t in
  let before := accumulateLoads (activeItems vSurfaceFuelLife t)
                                (nativeValues vSurfaceFuelLoad t) in
  let t' := FuelBedIntermediates t in
  let dead' := nativeValue "vSurfaceFuelLoadDead" t' in
  let live' := nativeValue "vSurfaceFuelLoadLive" t' in
  (transferEq <> 0%Z -> 0.00001 < fraction ->
     nativeValue "vSurfaceFuelLoadDeadHerb" t' = fraction * liveHerb
     /\ nativeValue "vSurfaceFuelLoadUndeadHerb" t'
        = liveHerb - fraction * liveHerb
     /\ dead' = deadLoad before + fraction * liveHerb
     /\ live' = liveLoad before - fraction * liveHerb)
  /\ (transferEq = 0%Z \/ fraction <= 0.00001 ->
     nativeValue "vSurfaceFuelLoadDeadHerb" t' = deadHerb
     /\ nativeValue "vSurfaceFuelLoadUndeadHerb" t' = liveHerb
     /\ dead' = deadLoad before
     /\ live' = liveLoad before)
  /\ (dead' + live' < SMIDGEN ->
     nativeValue "vSurfaceFuelBedDeadFraction" t' = 0)
  /\ (SMIDGEN <= dead' + live' ->
     nativeValue "vSurfaceFuelBedDeadFraction" t' = dead' / (dead' + live')).
Proof.
  intros transferEq fraction liveHerb deadHerb before t' dead' live'.
  destruct (FuelBedIntermediates_stores t)
    as (Hdf & _ & Hdh & Huh & Hd & Hl).
  fold t' in Hdf, Hdh, Huh, Hd, Hl. fold dead' in Hd. fold live' in Hl.
  split; [| split; [| split]].
  - intros Hne Hf. rewrite Hdh, Huh, Hd, Hl.
    by apply bedLoads_transfer.
  - intros Hoff. rewrite Hdh, Huh, Hd, Hl.
    rewrite bedLoads_off by exact Hoff. fold before.
    assert (Hload : load before = nativeValues vSurfaceFuelLoad t)
      by apply accumulateLoads_load.
    rewrite Hload. repeat split; reflexivity.
  - intros Hsmall. rewrite Hdf. unfold deadLoadFraction.
    rewrite <- Hd, <- Hl. by rewrite Qltb_true.
  - intros Hbig. rewrite Hdf. unfold deadLoadFraction.
    rewrite <- Hd, <- Hl. by rewrite Qltb_false.
Qed.

End FuelBedIntermediatesProperties.

Lemma C7_FuelBedIntermediates_guards_witness :
  (let t' := FuelBedIntermediates (H := sampleLib) sampleBed in
   nativeValue "vSurfaceFuelLoadDeadHerb" t' = 0.5 * 2
   /\ nativeValue "vSurfaceFuelBedDeadFraction" t'
      = nativeValue "vSurfaceFuelLoadDead" t'
        / (nativeValue "vSurfaceFuelLoadDead" t'
           + nativeValue "vSurfaceFuelLoadLive" t'))
  /\ (let t' := FuelBedIntermediates (H := sampleLib) emptyTree in
      nativeValue "vSurfaceFuelLoadDeadHerb" t' = 0
      /\ nativeValue "vSurfaceFuelBedDeadFraction" t' = 0).
Proof.
  destruct (C7_FuelBedIntermediates_guards (H := sampleLib) sampleBed)
    as (Hon & _ & _ & Hbig).
  destruct (C7_FuelBedIntermediates_guards (H := sampleLib) emptyTree)
    as (_ & Hoff & Hsmall & _).
  split; split.
  - apply Hon; vm_compute; [discriminate | reflexivity].
  - apply Hbig. vm_compute. discriminate.
  - apply Hoff. left. vm_compute. reflexivity.
  - apply Hsmall. vm_compute. reflexivity.
Defined.



(** ** [FuelBedWeighted] *)

Lemma if_gt_max (a b : Q) : (if a >? b then a else b) == Qmax a b.
Proof.
  case_Qltb.
  - symmetry. apply Q.max_l. lra.
  - symmetry. apply Q.max_r. lra.
Qed.

Lemma if_lt_min (a b : Q) : (if a <? b then a else b) == Qmin a b.
Proof.
  case_Qltb.
  - symmetry. apply Q.min_l. lra.
  - symmetry. apply Q.min_r. lra.
Qed.

Lemma Qeq_bool_true (x y : Q) : x == y -> Qeq_bool x y = true.
Proof. apply Qeq_bool_iff. Qed.

(** With no zero among the rates and the sum of the quotients, the
    harmonic mean is the ordinary expression. *)
Lemma harmonicMean_finite c0 r0 c1 r1 :
  ~ r0 == 0 -> ~ r1 == 0 -> ~ c0 / r0 + c1 / r1 == 0 ->
  harmonicMean c0 r0 c1 r1 = 1 / (c0 / r0 + c1 / r1).
Proof.
  intros H0 H1 Hs. unfold harmonicMean, ieeeDiv.
  rewrite (Qeq_bool_false r0), (Qeq_bool_false r1) by assumption.
  cbn [ieeeAdd ieeeInv]. by rewrite Qeq_bool_false.
Qed.

(** A rate of zero with a positive coverage makes a quotient infinite and
    the harmonic mean zero. *)
Lemma harmonicMean_zero_l c0 r0 c1 r1 :
  r0 == 0 -> 0 < c0 -> ~ r1 == 0 -> harmonicMean c0 r0 c1 r1 = 0.
Proof.
  intros H0 Hc H1. unfold harmonicMean, ieeeDiv.
  rewrite (Qeq_bool_true r0) by assumption.
  rewrite (Qeq_bool_false c0) by lra.
  by rewrite (Qeq_bool_false r1).
Qed.

Lemma harmonicMean_zero_r c0 r0 c1 r1 :
  r1 == 0 -> 0 < c1 -> ~ r0 == 0 -> harmonicMean c0 r0 c1 r1 = 0.
Proof.
  intros H1 Hc H0. unfold harmonicMean, ieeeDiv.
  rewrite (Qeq_bool_true r1) by assumption.
  rewrite (Qeq_bool_false c1) by lra.
  by rewrite (Qeq_bool_false r0).
Qed.

Section FuelBedWeighted.
Context `{XfbLib} `{SurfaceNodes}.
Variables (prop : PropertyDict) (fm0 fm1 : FuelModel).

(** The wind speed flag kept for a model compares its midflame wind speed
    with its wind speed limit. *)
Lemma fuelModelPass_wsf fm t :
  let m := snd (fuelModelPass prop fm t) in
  wsf m = if wmf m >? wsl m then 1%Z else 0%Z.
Proof. reflexivity. Qed.

Lemma capturedOutputs_wsf t :
  let m0 := fst (capturedOutputs prop fm0 fm1 t) in
  let m1 := snd (capturedOutputs prop fm0 fm1 t) in
  wsf m0 = (if wmf m0 >? wsl m0 then 1%Z else 0%Z)
  /\ wsf m1 = (if wmf m1 >? wsl m1 then 1%Z else 0%Z).
Proof.
  unfold capturedOutputs, fuelModelPasses.
  pose proof (fuelModelPass_wsf fm0 t) as H0'.
  destruct (fuelModelPass prop fm0 t) as [t0 m0].
  pose proof (fuelModelPass_wsf fm1 t0) as H1'.
  destruct (fuelModelPass prop fm1 t0) as [t1 m1].
  split; assumption.
Qed.

(** [FuelBedWeighted] is the two passes followed by the stores. *)
Lemma FuelBedWeighted_passes t :
  FuelBedWeighted prop fm0 fm1 t
  = storeWeighted prop (nativeValue "vSurfaceFuelBedCoverage1" t)
      (1 - nativeValue "vSurfaceFuelBedCoverage1" t) fm0 fm1
      (fst (capturedOutputs prop fm0 fm1 t))
      (snd (capturedOutputs prop fm0 fm1 t))
      (treeAfterPasses prop fm0 fm1 t).
Proof.
  unfold FuelBedWeighted, capturedOutputs, treeAfterPasses.
  by destruct (fuelModelPasses prop fm0 fm1 t) as [[t' m0] m1].
Qed.

Variables (cov0 cov1 : Q) (m0 m1 : ModelOutputs) (t : EqTree).

(** The spread rates are the weighted ones whichever branch follows. *)
Lemma storeWeighted_spread :
  let t' := storeWeighted prop cov0 cov1 fm0 fm1 m0 m1 t in
  nativeValue "vSurfaceFireSpreadAtHead" t'
    = fst (weightedSpread prop cov0 cov1 m0 m1 t)
  /\ nativeValue "vSurfaceFireSpreadAtVector" t'
     = snd (weightedSpread prop cov0 cov1 m0 m1 t).
Proof.
  unfold storeWeighted.
  destruct (weightedSpread prop cov0 cov1 m0 m1 t) as [wtdh wtdv].
  unfold storeDominant, storeCombined.
  destruct (_ || _), (cov0 >? 0.999); split; by read_back.
Qed.

Lemma storeWeighted_primary :
  0.999 < cov0 ->
  storesModel m0 fm0 (storeWeighted prop cov0 cov1 fm0 fm1 m0 m1 t).
Proof.
  intros Hcov. unfold storeWeighted.
  destruct (weightedSpread prop cov0 cov1 m0 m1 t) as [wtdh wtdv].
  rewrite (Qltb_true _ _ Hcov). simpl orb. cbv iota.
  unfold storeDominant, storesModel. repeat split; by read_back.
Qed.

Lemma storeWeighted_secondary :
  cov0 <= 0.999 -> 0.999 < cov1 ->
  storesModel m1 fm1 (storeWeighted prop cov0 cov1 fm0 fm1 m0 m1 t).
Proof.
  intros Hcov0 Hcov1. unfold storeWeighted.
  destruct (weightedSpread prop cov0 cov1 m0 m1 t) as [wtdh wtdv].
  rewrite (Qltb_false _ _ Hcov0), (Qltb_true _ _ Hcov1). simpl orb. cbv iota.
  unfold storeDominant, storesModel. repeat split; by read_back.
Qed.

Lemma storeWeighted_combined :
  cov0 <= 0.999 -> cov1 <= 0.999 ->
  wsf m0 = (if wmf m0 >? wsl m0 then 1%Z else 0%Z) ->
  wsf m1 = (if wmf m1 >? wsl m1 then 1%Z else 0%Z) ->
  storesCombination m0 m1 fm0 fm1
    (storeWeighted prop cov0 cov1 fm0 fm1 m0 m1 t).
Proof.
  intros Hcov0 Hcov1 Hf0 Hf1. unfold storeWeighted.
  destruct (weightedSpread prop cov0 cov1 m0 m1 t) as [wtdh wtdv].
  rewrite (Qltb_false _ _ Hcov0), (Qltb_false _ _ Hcov1). simpl orb. cbv iota.
  unfold storeCombined, storesCombination.
  repeat split; read_back;
    try reflexivity; try apply if_gt_max; try apply if_lt_min.
  rewrite Hf0, Hf1. by destruct (wmf m0 >? wsl m0), (wmf m1 >? wsl m1).
Qed.
End FuelBedWeighted.

Section FuelBedWeightedProperties.
Context `{XfbLib} `{SurfaceNodes}.

(** C1. When the coverage of one fuel model exceeds 0.999, every combined
    output other than the two spread rates holds the value kept for that
    model's pass, whatever the other fuel model is: the primary model when
    the primary coverage exceeds 0.999, the secondary model when one minus
    the primary coverage does.  The head and vector spread rates are not
    copied: whatever the coverage, they are the coverage-weighted sum of
    the rates of the two models when the area weighted choice is selected;
    with the harmonic mean choice, the reciprocal of the sum of coverage
    over rate when both head rates exceed 0.000001 (the vector rate being
    0 when a model with a positive coverage has a vector rate of 0 and the
    other model a positive one) and 0 otherwise; with the two-dimensional choice, what the expected spread
    rate sampler returns for the two rates and coverages; and 0 when no
    choice is selected. *)
Theorem C1_FuelBedWeighted_dominant
    (prop : PropertyDict) (fm0 fm1 : FuelModel) (t : EqTree) :
  let cov0 := nativeValue "vSurfaceFuelBedCoverage1" t in
  let cov1 := 1 - cov0 in
  let m0 := fst (capturedOutputs prop fm0 fm1 t) in
  let m1 := snd (capturedOutputs prop fm0 fm1 t) in
  let t' := FuelBedWeighted prop fm0 fm1 t in
  let head := nativeValue "vSurfaceFireSpreadAtHead" t' in
  let vector := nativeValue "vSurfaceFireSpreadAtVector" t' in
  let lbRatio := nativeValue "vSurfaceFireLengthToWidth"
                   (treeAfterPasses prop fm0 fm1 t) in
  (0.999 < cov0 -> storesModel m0 fm0 t')
  /\ (0.999 < cov1 -> storesModel m1 fm1 t')
  /\ (boolean prop "surfaceConfFuelAreaWeighted" = true ->
      head = cov0 * rosh m0 + cov1 * rosh m1
      /\ vector = cov0 * rosv m0 + cov1 * rosv m1)
  /\ (boolean prop "surfaceConfFuelAreaWeighted" = false ->
      boolean prop "surfaceConfFuelHarmonicMean" = true ->
      (0.000001 < rosh m0 -> 0.000001 < rosh m1 ->
         head = 1 / (cov0 / rosh m0 + cov1 / rosh m1)
         /\ (~ rosv m0 == 0 -> ~ rosv m1 == 0 ->
             ~ cov0 / rosv m0 + cov1 / rosv m1 == 0 ->
             vector = 1 / (cov0 / rosv m0 + cov1 / rosv m1))
         /\ (rosv m0 == 0 -> 0 < cov0 -> 0 <= cov1 -> 0 < rosv m1 ->
             vector = 0)
         /\ (rosv m1 == 0 -> 0 < cov1 -> 0 <= cov0 -> 0 < rosv m0 ->
             vector = 0))
      /\ (rosh m0 <= 0.000001 \/ rosh m1 <= 0.000001 ->
          head == 0 /\ vector == 0))
  /\ (boolean prop "surfaceConfFuelAreaWeighted" = false ->
      boolean prop "surfaceConfFuelHarmonicMean" = false ->
      boolean prop "surfaceConfFuel2Dimensional" = true ->
      head = FBL_SurfaceFireExpectedSpreadRate [rosh m0; rosh m1] [cov0; cov1]
               2 lbRatio (integer prop "surfaceConfFuel2DSamples")
               (integer prop "surfaceConfFuel2DDepth")
               (integer prop "surfaceConfFuel2DLaterals")
      /\ vector = FBL_SurfaceFireExpectedSpreadRate [rosv m0; rosv m1]
                    [cov0; cov1] 2 lbRatio
                    (integer prop "surfaceConfFuel2DSamples")
                    (integer prop "surfaceConfFuel2DDepth")
                    (integer prop "surfaceConfFuel2DLaterals"))
  /\ (boolean prop "surfaceConfFuelAreaWeighted" = false ->
      boolean prop "surfaceConfFuelHarmonicMean" = false ->
      boolean prop "surfaceConfFuel2Dimensional" = false ->
      head == 0 /\ vector == 0).
Proof.
  intros cov0 cov1 m0 m1 t' head vector lbRatio. subst head vector t'.
  rewrite FuelBedWeighted_passes. fold cov0 cov1 m0 m1.
  destruct (storeWeighted_spread prop fm0 fm1 cov0 cov1 m0 m1
              (treeAfterPasses prop fm0 fm1 t)) as [Hh Hv].
  cbv zeta in Hh, Hv. rewrite Hh, Hv. clear Hh Hv.
  unfold weightedSpread. fold lbRatio.
  split; [| split; [| split; [| split; [| split]]]].
  - intros Hcov. by apply storeWeighted_primary.
  - intros Hcov. apply storeWeighted_secondary; [subst cov1; lra | exact Hcov].
  - intros ->. split; reflexivity.
  - intros -> ->. split.
    + intros H0' H1'. rewrite (Qltb_true _ _ H0'), (Qltb_true _ _ H1').
      cbn [andb fst snd].
      split; [reflexivity |]. split; [| split].
      * apply harmonicMean_finite.
      * intros Hz Hc _ Hr. apply harmonicMean_zero_l; [exact Hz | exact Hc |].
        lra.
      * intros Hz Hc _ Hr. apply harmonicMean_zero_r; [exact Hz | exact Hc |].
        lra.
    + intros [Hz | Hz]; rewrite (Qltb_false _ _ Hz);
        [| rewrite andb_false_r]; cbn [andb fst snd]; split; reflexivity.
  - intros -> -> ->. split; reflexivity.
  - intros -> -> ->. split; reflexivity.
Qed.

(** C2. When the primary coverage lies between 0.001 and 0.999, so that
    neither coverage exceeds 0.999: the combined reaction intensity, heat
    per unit area, fireline intensities, flame lengths and fuel bed depth
    are the maximum over the two models; the direction of maximum spread,
    wind adjustment factor, midflame wind speed, effective wind speeds and
    length-to-width ratio are those of the first model; the wind speed
    limit is the minimum over the two models; the wind speed flag is the
    logical or of the flags of the two models. *)
Theorem C2_FuelBedWeighted_combined
    (prop : PropertyDict) (fm0 fm1 : FuelModel) (t : EqTree) :
  let cov0 := nativeValue "vSurfaceFuelBedCoverage1" t in
  let m0 := fst (capturedOutputs prop fm0 fm1 t) in
  let m1 := snd (capturedOutputs prop fm0 fm1 t) in
  0.001 <= cov0 -> cov0 <= 0.999 ->
  storesCombination m0 m1 fm0 fm1 (FuelBedWeighted prop fm0 fm1 t).
Proof.
  intros cov0 m0 m1 Hlo Hhi.
  rewrite FuelBedWeighted_passes. fold cov0 m0 m1.
  destruct (capturedOutputs_wsf prop fm0 fm1 t) as [Hf0 Hf1].
  apply storeWeighted_combined; [exact Hhi | lra | exact Hf0 | exact Hf1].
Qed.

(** C3. With the harmonic mean choice selected (and the area weighted
    choice, which is tested first, not selected), the combined head spread
    rate is 1 / (cov0 / rosh0 + cov1 / rosh1) when both head spread rates
    exceed 0.000001 and is 0 otherwise; in particular it is 0 for head
    spread rates 0 and 5 with coverages 0.5 and 0.5. *)
Theorem C3_FuelBedWeighted_harmonic
    (prop : PropertyDict) (fm0 fm1 : FuelModel) (t : EqTree) :
  let cov0 := nativeValue "vSurfaceFuelBedCoverage1" t in
  let cov1 := 1 - cov0 in
  let m0 := fst (capturedOutputs prop fm0 fm1 t) in
  let m1 := snd (capturedOutputs prop fm0 fm1 t) in
  let stored :=
    nativeValue "vSurfaceFireSpreadAtHead" (FuelBedWeighted prop fm0 fm1 t) in
  boolean prop "surfaceConfFuelAreaWeighted" = false ->
  boolean prop "surfaceConfFuelHarmonicMean" = true ->
  (0.000001 < rosh m0 -> 0.000001 < rosh m1 ->
     stored == 1 / (cov0 / rosh m0 + cov1 / rosh m1))
  /\ (rosh m0 <= 0.000001 \/ rosh m1 <= 0.000001 -> stored == 0)
  /\ (rosh m0 == 0 -> rosh m1 == 5 -> cov0 == 0.5 -> stored == 0).
Proof.
  intros cov0 cov1 m0 m1 stored Harea Hharm.
  assert (Hst : stored
                = fst (weightedSpread prop cov0 cov1 m0 m1
                         (treeAfterPasses prop fm0 fm1 t))).
  { subst stored. rewrite FuelBedWeighted_passes.
    apply storeWeighted_spread. }
  rewrite Hst. unfold weightedSpread. rewrite Harea, Hharm.
  assert (Hzero : rosh m0 <= 0.000001 \/ rosh m1 <= 0.000001 ->
                  fst (if (rosh m0 >? 0.000001) && (rosh m1 >? 0.000001)
                       then (1 / (cov0 / rosh m0 + cov1 / rosh m1),
                             harmonicMean cov0 (rosv m0) cov1 (rosv m1))
                       else (0.0, 0.0)) == 0).
  { intros [Hz | Hz]; rewrite (Qltb_false _ _ Hz);
      [| rewrite andb_false_r]; simpl; lra. }
  split; [| split].
  - intros H0' H1'. rewrite (Qltb_true _ _ H0'), (Qltb_true _ _ H1').
    simpl. reflexivity.
  - exact Hzero.
  - intros Hr0 _ _. apply Hzero. left. lra.
Qed.
End FuelBedWeightedProperties.

(** With the primary model dominant, the outputs are those of the primary
    model and, with the secondary model dominant, those of the secondary
    model; the head spread rate is the weighted one all the same: with the
    harmonic mean choice and a secondary model that does not spread it is
    0, not the 5 ft/min of the dominant primary model. *)
Lemma C1_FuelBedWeighted_dominant_witness :
  (storesModel
     (fst (capturedOutputs (H := sampleLib) (H0 := sampleNodes)
             (propertiesOn ["surfaceConfFuelAreaWeighted"])
             (fuelModelOfDepth 1) (fuelModelOfDepth 2) (weightedInputs 1)))
     (fuelModelOfDepth 1)
     (FuelBedWeighted (H := sampleLib) (H0 := sampleNodes)
        (propertiesOn ["surfaceConfFuelAreaWeighted"])
        (fuelModelOfDepth 1) (fuelModelOfDepth 2) (weightedInputs 1))
   /\ storesModel
        (snd (capturedOutputs (H := sampleLib) (H0 := sampleNodes)
                (propertiesOn ["surfaceConfFuelAreaWeighted"])
                (fuelModelOfDepth 1) (fuelModelOfDepth 2) (weightedInputs 0)))
        (fuelModelOfDepth 2)
        (FuelBedWeighted (H := sampleLib) (H0 := sampleNodes)
           (propertiesOn ["surfaceConfFuelAreaWeighted"])
           (fuelModelOfDepth 1) (fuelModelOfDepth 2) (weightedInputs 0)))
  /\ (rosh (fst (capturedOutputs (H := sampleLib) (H0 := sampleNodes)
                   (propertiesOn ["surfaceConfFuelHarmonicMean"])
                   (fuelModelOfDepth 1) (fuelModelOfDepth 0)
                   (weightedInputs 1))) == 5
      /\ nativeValue "vSurfaceFireSpreadAtHead"
           (FuelBedWeighted (H := sampleLib) (H0 := sampleNodes)
              (propertiesOn ["surfaceConfFuelHarmonicMean"])
              (fuelModelOfDepth 1) (fuelModelOfDepth 0) (weightedInputs 1))
         == 0)
  /\ nativeValue "vSurfaceFireSpreadAtVector"
       (FuelBedWeighted (H := sampleLib) (H0 := sampleNodes)
          (propertiesOn ["surfaceConfFuelHarmonicMean"])
          (fuelModelOfDepth 1) (fuelModelOfDepth 2) (weightedInputs 0.25))
     = 1 / (nativeValue "vSurfaceFuelBedCoverage1" (weightedInputs 0.25)
              / rosv (fst (capturedOutputs (H := sampleLib) (H0 := sampleNodes)
                             (propertiesOn ["surfaceConfFuelHarmonicMean"])
                             (fuelModelOfDepth 1) (fuelModelOfDepth 2)
                             (weightedInputs 0.25)))
            + (1 - nativeValue "vSurfaceFuelBedCoverage1" (weightedInputs 0.25))
              / rosv (snd (capturedOutputs (H := sampleLib) (H0 := sampleNodes)
                             (propertiesOn ["surfaceConfFuelHarmonicMean"])
                             (fuelModelOfDepth 1) (fuelModelOfDepth 2)
                             (weightedInputs 0.25)))).
Proof.
  split; [split | split; [split |]].
  - apply (C1_FuelBedWeighted_dominant (H := sampleLib) (H0 := sampleNodes)
             (propertiesOn ["surfaceConfFuelAreaWeighted"])
             (fuelModelOfDepth 1) (fuelModelOfDepth 2) (weightedInputs 1)).
    vm_compute. reflexivity.
  - apply (C1_FuelBedWeighted_dominant (H := sampleLib) (H0 := sampleNodes)
             (propertiesOn ["surfaceConfFuelAreaWeighted"])
             (fuelModelOfDepth 1) (fuelModelOfDepth 2) (weightedInputs 0)).
    vm_compute. reflexivity.
  - vm_compute. reflexivity.
  - refine (proj1 (proj2 (proj1 (proj2 (proj2 (proj2
              (C1_FuelBedWeighted_dominant (H := sampleLib) (H0 := sampleNodes)
                 (propertiesOn ["surfaceConfFuelHarmonicMean"])
                 (fuelModelOfDepth 1) (fuelModelOfDepth 0)
                 (weightedInputs 1))))) _ _) _)).
    + vm_compute. reflexivity.
    + vm_compute. reflexivity.
    + right. vm_compute. discriminate.
  - refine (proj1 (proj2 (proj1 (proj1 (proj2 (proj2 (proj2
              (C1_FuelBedWeighted_dominant (H := sampleLib) (H0 := sampleNodes)
                 (propertiesOn ["surfaceConfFuelHarmonicMean"])
                 (fuelModelOfDepth 1) (fuelModelOfDepth 2)
                 (weightedInputs 0.25))))) _ _) _ _)) _ _ _).
    + vm_compute. reflexivity.
    + vm_compute. reflexivity.
    + vm_compute. reflexivity.
    + vm_compute. reflexivity.
    + vm_compute. discriminate.
    + vm_compute. discriminate.
    + vm_compute. discriminate.
Defined.

Lemma C2_FuelBedWeighted_combined_witness :
  storesCombination
    (fst (capturedOutputs (H := sampleLib) (H0 := sampleNodes)
            (propertiesOn ["surfaceConfFuelAreaWeighted"])
            (fuelModelOfDepth 1) (fuelModelOfDepth 2) (weightedInputs 0.3)))
    (snd (capturedOutputs (H := sampleLib) (H0 := sampleNodes)
            (propertiesOn ["surfaceConfFuelAreaWeighted"])
            (fuelModelOfDepth 1) (fuelModelOfDepth 2) (weightedInputs 0.3)))
    (fuelModelOfDepth 1) (fuelModelOfDepth 2)
    (FuelBedWeighted (H := sampleLib) (H0 := sampleNodes)
       (propertiesOn ["surfaceConfFuelAreaWeighted"])
       (fuelModelOfDepth 1) (fuelModelOfDepth 2) (weightedInputs 0.3)).
Proof.
  apply (C2_FuelBedWeighted_combined (H := sampleLib) (H0 := sampleNodes)
           (propertiesOn ["surfaceConfFuelAreaWeighted"])
           (fuelModelOfDepth 1) (fuelModelOfDepth 2) (weightedInputs 0.3));
    vm_compute; discriminate.
Defined.

Lemma C3_FuelBedWeighted_harmonic_witness :
  nativeValue "vSurfaceFireSpreadAtHead"
    (FuelBedWeighted (H := sampleLib) (H0 := sampleNodes)
       (propertiesOn ["surfaceConfFuelHarmonicMean"])
       (fuelModelOfDepth 0) (fuelModelOfDepth 1) (weightedInputs 0.5))
  == 0
  /\ nativeValue "vSurfaceFireSpreadAtHead"
       (FuelBedWeighted (H := sampleLib) (H0 := sampleNodes)
          (propertiesOn ["surfaceConfFuelHarmonicMean"])
          (fuelModelOfDepth 1) (fuelModelOfDepth 2) (weightedInputs 0.5))
     == 1 / (0.5 / (5 * 1) + (1 - 0.5) / (5 * 2)).
Proof.
  split.
  - refine (proj2 (proj2 (C3_FuelBedWeighted_harmonic
                            (H := sampleLib) (H0 := sampleNodes)
                            (propertiesOn ["surfaceConfFuelHarmonicMean"])
                            (fuelModelOfDepth 0) (fuelModelOfDepth 1)
                            (weightedInputs 0.5) _ _)) _ _ _);
      vm_compute; reflexivity.
  - refine (proj1 (C3_FuelBedWeighted_harmonic
                     (H := sampleLib) (H0 := sampleNodes)
                     (propertiesOn ["surfaceConfFuelHarmonicMean"])
                     (fuelModelOfDepth 1) (fuelModelOfDepth 2)
                     (weightedInputs 0.5) _ _) _ _);
      vm_compute; reflexivity.
Defined.

(** ** [ContainFF] and [ContainFFSingle] *)

(** The crosswalk followed by the override, status by status. *)
Lemma containOutcome_contained sim :
  m_status (m_left sim) = Contained ->
  containOutcome sim = (StatusContained, m_finalSize sim).
Proof. intros Hs. unfold containOutcome. by rewrite Hs. Qed.

Lemma containOutcome_other sim :
  m_status (m_left sim) <> Contained ->
  containOutcome sim
  = (if m_finalLine sim >? 0.0 then StatusWithdrawn else StatusEscaped, -1).
Proof.
  intros Hs. unfold containOutcome.
  by destruct (m_status (m_left sim)).
Qed.

Lemma containOutcome_storesOutcome sim t :
  activeItemDataIndex "vContainStatus" t = fst (containOutcome sim) ->
  nativeValue "vContainSize" t = snd (containOutcome sim) ->
  storesOutcome sim t.
Proof.
  intros Hst Hsz. split.
  - intros Hs. rewrite containOutcome_contained in Hst, Hsz by exact Hs.
    by split.
  - intros Hs. rewrite containOutcome_other in Hst, Hsz by exact Hs.
    cbn [fst snd] in Hst, Hsz. split; [exact Hsz |]. split; intros Hline.
    + rewrite Hst, Qltb_true; [reflexivity | lra].
    + rewrite Hst, Qltb_false; [reflexivity | lra].
Qed.

Section Contain.
Context `{XfbLib} `{ContainLib}.

(** C4. For every result of the simulator, in [ContainFF] and in
    [ContainFFSingle]: when the status of the simulator is Contained the
    stored status is Contained and the stored final size is the final
    size of the simulator; for every other status (Unreported, Reported,
    Attacked, Overrun, Exhausted, Overflow, DistLimit) the stored final
    size is -1 and the stored status is Withdrawn when the fire line
    built is greater than 0 and Escaped otherwise. *)
Theorem C4_Contain_status_crosswalk (prop : PropertyDict) (t : EqTree) :
  storesOutcome (ContainFF_sim prop t) (ContainFF prop t)
  /\ storesOutcome (ContainFFSingle_sim prop t) (ContainFFSingle prop t).
Proof.
  split; apply containOutcome_storesOutcome.
  - unfold ContainFF. by destruct (containOutcome _); read_back.
  - unfold ContainFF. by destruct (containOutcome _); read_back.
  - unfold ContainFFSingle. by destruct (containOutcome _); read_back.
  - unfold ContainFFSingle. by destruct (containOutcome _); read_back.
Qed.
End Contain.

Lemma C4_Contain_status_crosswalk_witness :
  (let t := ContainFF (H := sampleLib) (H0 := sampleContainLib)
              (propertiesOn []) (containInputs 5 4) in
   activeItemDataIndex "vContainStatus" t = StatusContained
   /\ nativeValue "vContainSize" t = 2 * 1)
  /\ (let t := ContainFFSingle (H := sampleLib) (H0 := sampleContainLib)
                 (propertiesOn []) (containInputs 5 4) in
      nativeValue "vContainSize" t = -1
      /\ activeItemDataIndex "vContainStatus" t = StatusWithdrawn)
  /\ (let t := ContainFFSingle (H := sampleLib) (H0 := sampleContainLib)
                 (propertiesOn []) (containInputs 5 0) in
      nativeValue "vContainSize" t = -1
      /\ activeItemDataIndex "vContainStatus" t = StatusEscaped).
Proof.
  pose proof (C4_Contain_status_crosswalk
                (H := sampleLib) (H0 := sampleContainLib)
                (propertiesOn []) (containInputs 5 4)) as [Hff Hsingle].
  pose proof (C4_Contain_status_crosswalk
                (H := sampleLib) (H0 := sampleContainLib)
                (propertiesOn []) (containInputs 5 0)) as [_ Hnone].
  split; [| split].
  - apply (proj1 Hff). vm_compute. reflexivity.
  - destruct (proj2 Hsingle) as (Hsz & Hw & _).
    + vm_compute. discriminate.
    + split; [exact Hsz |]. apply Hw. vm_compute. reflexivity.
  - destruct (proj2 Hnone) as (Hsz & _ & He).
    + vm_compute. discriminate.
    + split; [exact Hsz |]. apply He. vm_compute. discriminate.
Defined.

(** ** Reconfiguration *)

Section Preserves.
Context {A : Type} (get : EqTree -> A).

Lemma preserves_skip : preserves get skip.
Proof. by intros t. Qed.

Lemma preserves_andThen c1 c2 :
  preserves get c1 -> preserves get c2 -> preserves get (c1 ;; c2).
Proof. intros H1 H2 t. unfold andThen. by rewrite H2, H1. Qed.

Lemma preserves_if (b : bool) c1 c2 :
  preserves get c1 -> preserves get c2 ->
  preserves get (if b then c1 else c2).
Proof. by destruct b. Qed.

Lemma preserves_ifTree cond c1 c2 :
  preserves get c1 -> preserves get c2 -> preserves get (ifTree cond c1 c2).
Proof. intros H1 H2 t. unfold ifTree. by destruct (cond t). Qed.

Lemma preserves_fst_if (b : bool) (p q : cmd * bool) :
  preserves get (fst p) -> preserves get (fst q) ->
  preserves get (fst (if b then p else q)).
Proof. by destruct b. Qed.
End Preserves.

(** The active flag of [k] is untouched by every assignment but one to the
    active flag of [k] itself; likewise for the user output flag. *)
Section Flags.
Variable k : string.

Lemma isActive_set_active f b :
  f ≠ k -> preserves (isActive k) (set_active f b).
Proof. intros Hne t. by apply isActive_set_ne. Qed.

Lemma isUserOutput_set_isUserOutput v b :
  v ≠ k -> preserves (isUserOutput k) (set_isUserOutput v b).
Proof. intros Hne t. by apply isUserOutput_set_ne. Qed.

Lemma isActive_update v x : preserves (isActive k) (update v x).
Proof. by intros t. Qed.
Lemma isActive_updateItem v i : preserves (isActive k) (updateItem v i).
Proof. by intros t. Qed.
Lemma isActive_setLabel v s : preserves (isActive k) (setLabel v s).
Proof. by intros t. Qed.
Lemma isActive_set_isUserInput v b :
  preserves (isActive k) (set_isUserInput v b).
Proof. by intros t. Qed.
Lemma isActive_set_isUserOutput v b :
  preserves (isActive k) (set_isUserOutput v b).
Proof. by intros t. Qed.
Lemma isActive_set_isConstant v b :
  preserves (isActive k) (set_isConstant v b).
Proof. by intros t. Qed.

Lemma isUserOutput_update v x : preserves (isUserOutput k) (update v x).
Proof. by intros t. Qed.
Lemma isUserOutput_updateItem v i :
  preserves (isUserOutput k) (updateItem v i).
Proof. by intros t. Qed.
Lemma isUserOutput_setLabel v s : preserves (isUserOutput k) (setLabel v s).
Proof. by intros t. Qed.
Lemma isUserOutput_set_isUserInput v b :
  preserves (isUserOutput k) (set_isUserInput v b).
Proof. by intros t. Qed.
Lemma isUserOutput_set_isConstant v b :
  preserves (isUserOutput k) (set_isConstant v b).
Proof. by intros t. Qed.
Lemma isUserOutput_set_active f b :
  preserves (isUserOutput k) (set_active f b).
Proof. by intros t. Qed.
End Flags.

Create HintDb frame discriminated.
#[local] Hint Resolve
  isActive_update isActive_updateItem isActive_setLabel
  isActive_set_isUserInput isActive_set_isUserOutput isActive_set_isConstant
  isUserOutput_update isUserOutput_updateItem isUserOutput_setLabel
  isUserOutput_set_isUserInput isUserOutput_set_isConstant
  isUserOutput_set_active : frame.

(** Walk the body of a procedure; [ne] proves that an assigned name differs
    from the observed one. *)
Ltac frame ne :=
  repeat lazymatch goal with
  | |- preserves _ skip => apply preserves_skip
  | |- preserves _ (andThen _ _) => apply preserves_andThen
  | |- preserves _ (if _ then _ else _) => apply preserves_if
  | |- preserves _ (ifTree _ _ _) => apply preserves_ifTree
  | |- preserves _ (fst (if _ then _ else _)) => apply preserves_fst_if
  | |- preserves _ (fst (_, _)) => cbn [fst]
  | |- preserves (isActive _) (set_active _ _) =>
      apply isActive_set_active; ne
  | |- preserves (isUserOutput _) (set_isUserOutput _ _) =>
      apply isUserOutput_set_isUserOutput; ne
  | |- preserves _ _ => solve [auto with frame]
  end.

(** [k] is outside the list [l] of names, so the name [f] of [l] is not [k]. *)
Ltac not_listed Hk :=
  let E := fresh in
  intros E; apply Hk; rewrite <- E; compute_done.

Ltac unfold_procedures :=
  unfold reconfigureDocumentation, reconfigureSurfaceModule,
    reconfigureCrownModule, reconfigureSizeModule, reconfigureContainModule,
    reconfigureSpotModule, reconfigureScorchModule,
    reconfigureMortalityModule, reconfigureIgnitionModule,
    reconfigureWeatherModule, reconfigureSafetyModule,
    surfaceModuleFunctions, surfaceFuelOption, surfaceLoadTransferOption,
    surfaceMoistureOption, surfaceWindSpeedOption, surfaceSpreadDirOption,
    surfaceWindDirOption, surfaceDegreesOption, surfaceSlopeOption,
    surfaceCalcOutputs, surfaceTwoFuelOutputs, surfaceMoisDead1000;
  cbv zeta.

(** A procedure leaves alone the active flag of every function that is
    not among the functions of its module. *)
Lemma moduleProcedure_frame_active m prop k :
  k ∉ moduleFunctions m -> preserves (isActive k) (moduleProcedure m prop).
Proof.
  intros Hk. destruct m; simpl in Hk |- *; unfold_procedures;
    frame ltac:(not_listed Hk).
Qed.

Lemma moduleProcedure_frame_output m prop k :
  k ∉ moduleOutputs m -> preserves (isUserOutput k) (moduleProcedure m prop).
Proof.
  intros Hk. destruct m; simpl in Hk |- *; unfold_procedures;
    frame ltac:(not_listed Hk).
Qed.

(** A module procedure whose master property is false returns at once. *)
Lemma moduleProcedure_inactive m p prop t :
  masterProperty m = Some p -> boolean prop p = false ->
  moduleProcedure m prop t = t.
Proof.
  intros Hm Hp.
  destruct m; cbn [masterProperty moduleProcedure] in Hm |- *;
    try discriminate; injection Hm as <-;
    unfold reconfigureSurfaceModule, reconfigureCrownModule,
      reconfigureSizeModule, reconfigureContainModule, reconfigureSpotModule,
      reconfigureScorchModule, reconfigureMortalityModule,
      reconfigureIgnitionModule, reconfigureWeatherModule,
      reconfigureSafetyModule;
    rewrite Hp; reflexivity.
Qed.

(** [reconfigure] preserves what each of its eleven procedures preserves. *)
Lemma reconfigure_preserves {A : Type} (get : EqTree -> A) prop :
  (forall m, preserves get (moduleProcedure m prop)) ->
  preserves get (reconfigure prop).
Proof.
  intros Hall. unfold reconfigure.
  apply preserves_andThen; [exact (Hall DocumentationModule) |].
  apply preserves_andThen; [exact (Hall SurfaceModule) |].
  apply preserves_andThen; [exact (Hall CrownModule) |].
  apply preserves_andThen; [exact (Hall SizeModule) |].
  apply preserves_andThen; [exact (Hall ContainModule) |].
  apply preserves_andThen; [exact (Hall SpotModule) |].
  apply preserves_andThen; [exact (Hall ScorchModule) |].
  apply preserves_andThen; [exact (Hall MortalityModule) |].
  apply preserves_andThen; [exact (Hall IgnitionModule) |].
  apply preserves_andThen; [exact (Hall WeatherModule) |].
  exact (Hall SafetyModule).
Qed.

(** A procedure of a module that is off returns the tree unchanged. *)
Lemma moduleProcedure_off m prop t :
  moduleOn prop m = false -> moduleProcedure m prop t = t.
Proof.
  unfold moduleOn. destruct (masterProperty m) as [p |] eqn:Hm; [| done].
  by apply moduleProcedure_inactive.
Qed.

(** No procedure of [reconfigure] touches a flag that no module that is on
    has among its names. *)
Lemma reconfigure_frame_off {A : Type} (get : string -> EqTree -> A)
    (names : EqModule -> list string) prop k :
  (forall m' k', k' ∉ names m' -> preserves (get k') (moduleProcedure m' prop)) ->
  assignedByNone names prop k ->
  preserves (get k) (reconfigure prop).
Proof.
  intros Hframe Hnone. apply reconfigure_preserves. intros m.
  destruct (moduleOn prop m) eqn:Hon.
  - by apply Hframe, Hnone.
  - intros t. by rewrite moduleProcedure_off.
Qed.

(** A name that only the procedure of [m] assigns is assigned by no module
    when [m] is off. *)
Lemma onlyIn_assignedByNone names prop m p k :
  masterProperty m = Some p -> boolean prop p = false ->
  onlyIn names m k -> assignedByNone names prop k.
Proof.
  intros Hm Hp [_ Hothers] m' Hon. apply Hothers. intros ->.
  unfold moduleOn in Hon. rewrite Hm, Hp in Hon. discriminate.
Qed.

(** No other procedure assigns a flag of the Contain, Ignition or Weather
    module. *)
Lemma exclusive_modules m k :
  m ∈ [ContainModule; IgnitionModule; WeatherModule] ->
  (k ∈ moduleFunctions m -> onlyIn moduleFunctions m k)
  /\ (k ∈ moduleOutputs m -> onlyIn moduleOutputs m k).
Proof.
  intros Hm.
  repeat (apply elem_of_cons in Hm as [-> | Hm]);
    try (by apply elem_of_nil in Hm);
    split; intros Hk; (split; [exact Hk |]); intros m' Hne Hk';
    simpl in Hk;
    repeat (apply elem_of_cons in Hk as [-> | Hk]);
    try (by apply elem_of_nil in Hk);
    destruct m'; try done; by apply (bool_decide_pack _) in Hk'.
Qed.

(** C5, as the code has it.  When the master property of a module is
    false, the procedure of the module returns the tree unchanged; and
    [reconfigure] leaves as it was the active flag of every function of the
    module, and the user output flag of every variable of the module, that
    no procedure running in the configuration assigns (no module that is on
    has it among its names): on the initial tree such a function is
    inactive and such a variable is not a user output.  Functions and
    variables that only the procedure of the module assigns are of this
    kind, among them all functions and variables of the Contain, Ignition
    and Weather modules. *)
Theorem C5_inactive_module_flags_kept
    (prop : PropertyDict) (m : EqModule) (p : string) :
  masterProperty m = Some p -> boolean prop p = false ->
  (forall t, moduleProcedure m prop t = t)
  /\ (forall f, f ∈ moduleFunctions m ->
        assignedByNone moduleFunctions prop f ->
        (forall t, isActive f (reconfigure prop t) = isActive f t)
        /\ isActive f (reconfigure prop emptyTree) = false)
  /\ (forall v, v ∈ moduleOutputs m ->
        assignedByNone moduleOutputs prop v ->
        (forall t, isUserOutput v (reconfigure prop t) = isUserOutput v t)
        /\ isUserOutput v (reconfigure prop emptyTree) = false)
  /\ (forall f, onlyIn moduleFunctions m f ->
        isActive f (reconfigure prop emptyTree) = false)
  /\ (forall v, onlyIn moduleOutputs m v ->
        isUserOutput v (reconfigure prop emptyTree) = false)
  /\ (m ∈ [ContainModule; IgnitionModule; WeatherModule] ->
      (forall f, f ∈ moduleFunctions m ->
         isActive f (reconfigure prop emptyTree) = false)
      /\ (forall v, v ∈ moduleOutputs m ->
         isUserOutput v (reconfigure prop emptyTree) = false)).
Proof.
  intros Hm Hp.
  assert (Hfun : forall f, assignedByNone moduleFunctions prop f ->
                   forall t, isActive f (reconfigure prop t) = isActive f t).
  { intros f Hf.
    apply (reconfigure_frame_off isActive moduleFunctions); [| done].
    intros m' k' Hk'. by apply moduleProcedure_frame_active. }
  assert (Hout : forall v, assignedByNone moduleOutputs prop v ->
                   forall t, isUserOutput v (reconfigure prop t)
                             = isUserOutput v t).
  { intros v Hv.
    apply (reconfigure_frame_off isUserOutput moduleOutputs); [| done].
    intros m' k' Hk'. by apply moduleProcedure_frame_output. }
  assert (Hfun1 : forall f, onlyIn moduleFunctions m f ->
                    isActive f (reconfigure prop emptyTree) = false).
  { intros f Hf. rewrite Hfun; [done |].
    by apply (onlyIn_assignedByNone _ _ m p). }
  assert (Hout1 : forall v, onlyIn moduleOutputs m v ->
                    isUserOutput v (reconfigure prop emptyTree) = false).
  { intros v Hv. rewrite Hout; [done |].
    by apply (onlyIn_assignedByNone _ _ m p). }
  split; [| split; [| split; [| split; [| split]]]].
  - intros t. by apply (moduleProcedure_inactive m p).
  - intros f _ Hf. split; [by apply Hfun |]. by rewrite Hfun.
  - intros v _ Hv. split; [by apply Hout |]. by rewrite Hout.
  - exact Hfun1.
  - exact Hout1.
  - intros Hex. split.
    + intros f Hf. by apply Hfun1, (exclusive_modules m f Hex).
    + intros v Hv. by apply Hout1, (exclusive_modules m v Hex).
Qed.

(** With the Surface and the Size module both off, the function and the
    variable that the Size module shares with the Surface module stay as
    they were; and a function of the Contain module is inactive when the
    Contain module is off. *)
Lemma C5_inactive_module_flags_kept_witness :
  (isActive "fSurfaceFireDistAtHead" (reconfigure containOnly emptyTree) = false
   /\ isUserOutput "vSurfaceFireDistAtHead" (reconfigure containOnly emptyTree)
      = false)
  /\ isActive "fContainFF" (reconfigure surfaceAndSize emptyTree) = false
  /\ isUserOutput "vContainSize" (reconfigure surfaceAndSize emptyTree) = false.
Proof.
  split.
  - destruct (C5_inactive_module_flags_kept
                containOnly SurfaceModule "surfaceModuleActive")
      as (_ & Hf & Hv & _).
    + reflexivity.
    + vm_compute. reflexivity.
    + split.
      * apply Hf; [compute_done |].
        intros m' Hon. destruct m'; try discriminate Hon; compute_done.
      * apply Hv; [compute_done |].
        intros m' Hon. destruct m'; try discriminate Hon; compute_done.
  - destruct (C5_inactive_module_flags_kept
                surfaceAndSize ContainModule "containModuleActive")
      as (_ & _ & _ & _ & _ & Hall).
    + reflexivity.
    + vm_compute. reflexivity.
    + destruct Hall as [Hf Hv]; [constructor |].
      split; [apply Hf | apply Hv]; compute_done.
Defined.

(** C5 as stated fails for the Surface module: with the Surface module off
    and the Size module on, [reconfigure] on the initial tree activates
    [fSurfaceFireDistAtHead], one of the module functions that
    [reconfigureSurfaceModule] activates unconditionally, and makes
    [vSurfaceFireDistAtHead], whose user output flag
    [reconfigureSurfaceModule] assigns, a user output.  So it is not the
    case that every function of a module whose master property is false is
    inactive after [reconfigure]. *)
Lemma C5_surface_flags_set_by_size_module :
  (masterProperty SurfaceModule = Some "surfaceModuleActive"%string
   /\ boolean sizeOnly "surfaceModuleActive" = false
   /\ "fSurfaceFireDistAtHead"%string ∈ moduleFunctions SurfaceModule
   /\ isActive "fSurfaceFireDistAtHead" (reconfigure sizeOnly emptyTree) = true
   /\ "vSurfaceFireDistAtHead"%string ∈ moduleOutputs SurfaceModule
   /\ isUserOutput "vSurfaceFireDistAtHead" (reconfigure sizeOnly emptyTree)
      = true)
  /\ ~ (forall (prop : PropertyDict) (m : EqModule) (p f : string),
         masterProperty m = Some p -> boolean prop p = false ->
         f ∈ moduleFunctions m ->
         isActive f (reconfigure prop emptyTree) = false).
Proof.
  assert (Hfun : "fSurfaceFireDistAtHead"%string ∈ moduleFunctions SurfaceModule)
    by compute_done.
  assert (Hon : isActive "fSurfaceFireDistAtHead"
                  (reconfigure sizeOnly emptyTree) = true)
    by (vm_compute; reflexivity).
  split.
  - split; [reflexivity |].
    split; [vm_compute; reflexivity |].
    split; [exact Hfun |].
    split; [exact Hon |].
    split; [compute_done |].
    vm_compute; reflexivity.
  - intros Hall.
    specialize (Hall sizeOnly SurfaceModule "surfaceModuleActive"%string
                  "fSurfaceFireDistAtHead"%string eq_refl eq_refl Hfun).
    rewrite Hon in Hall. discriminate.
Qed.

(** The last block of [reconfigureSurfaceModule] decides the user output
    flag of each hidden variable. *)
Lemma surfaceTwoFuelOutputs_sets prop (twofuels : bool) t v calc :
  (v, calc) ∈ twoFuelHidden ->
  isUserOutput v (surfaceTwoFuelOutputs prop twofuels t)
  = if twofuels then false else boolean prop calc.
Proof.
  intros Hin. unfold twoFuelHidden in Hin.
  repeat (apply elem_of_cons in Hin as [[= -> ->] | Hin]);
    try (by apply elem_of_nil in Hin);
    unfold surfaceTwoFuelOutputs; cbv [andThen];
    rewrite ?isUserOutput_set_ne by done;
    by rewrite isUserOutput_set_eq.
Qed.

Lemma surfaceMoisDead1000_output v :
  preserves (isUserOutput v) surfaceMoisDead1000.
Proof. by intros t. Qed.

(** C6. With the Surface module active, [reconfigureSurfaceModule] leaves
    each of the 23 per-model intermediate variables not a user output when
    one of the three two-fuel-model choices (area weighted, harmonic mean,
    2-dimensional) is selected, whatever its "Calc" property says; when
    none of the three is selected each has the value of its "Calc"
    property. *)
Theorem C6_twoFuel_intermediates_hidden
    (prop : PropertyDict) (t : EqTree) (v calc : string) :
  boolean prop "surfaceModuleActive" = true ->
  (v, calc) ∈ twoFuelHidden ->
  (boolean prop "surfaceConfFuelAreaWeighted"
   || boolean prop "surfaceConfFuelHarmonicMean"
   || boolean prop "surfaceConfFuel2Dimensional" = true ->
   isUserOutput v (reconfigureSurfaceModule prop t) = false)
  /\ (boolean prop "surfaceConfFuelAreaWeighted"
      || boolean prop "surfaceConfFuelHarmonicMean"
      || boolean prop "surfaceConfFuel2Dimensional" = false ->
      isUserOutput v (reconfigureSurfaceModule prop t) = boolean prop calc).
Proof.
  intros Hactive Hin.
  unfold reconfigureSurfaceModule. rewrite Hactive. cbn [negb].
  cbv [andThen]. rewrite surfaceMoisDead1000_output.
  rewrite (surfaceTwoFuelOutputs_sets prop _ _ v calc Hin).
  split; intros ->; reflexivity.
Qed.

Lemma C6_twoFuel_intermediates_hidden_witness :
  boolean twoFuelModels "surfaceCalcFuelBedSigma" = true
  /\ isUserOutput "vSurfaceFuelBedSigma"
       (reconfigureSurfaceModule twoFuelModels emptyTree) = false
  /\ isUserOutput "vSurfaceFuelBedSigma"
       (reconfigureSurfaceModule
          (propertiesOn ["surfaceModuleActive"; "surfaceCalcFuelBedSigma"])
          emptyTree) = true.
Proof.
  split; [reflexivity |]. split.
  - apply (C6_twoFuel_intermediates_hidden twoFuelModels emptyTree
             "vSurfaceFuelBedSigma" "surfaceCalcFuelBedSigma");
      [reflexivity | compute_done | reflexivity].
  - refine (proj2 (C6_twoFuel_intermediates_hidden
                     (propertiesOn ["surfaceModuleActive";
                                    "surfaceCalcFuelBedSigma"])
                     emptyTree "vSurfaceFuelBedSigma"
                     "surfaceCalcFuelBedSigma" _ _) _);
      [reflexivity | compute_done | reflexivity].
Defined.

(** ** Directions: compass points, aspect, upslope and wind *)

(** X1. In double arithmetic the direction functions keep a direction on
    the circle, both ends included.  For an aspect in [0, 360)
    SiteUpslopeDirFromNorth stores an upslope direction in [0, 360], at
    most 180 when the aspect is at least 180 and at least 180 otherwise.
    For an upslope direction and a fire vector direction from north in
    [0, 360), FireVectorDirFromUpslope stores a direction in [0, 360].
    For an upslope direction in [0, 360) and a direction of maximum spread
    from upslope in [0, 360], FireMaxDirFromNorth stores a direction in
    [0, 360] that is 0 or at least 0.5.  This holds for every rounding
    that is monotone and leaves small integers alone. *)
Theorem X1_directions_on_the_circle (rnd : Q -> Q) (t : EqTree) :
  let aspect := nativeValue "vSiteAspectDirFromNorth" t in
  let sd := nativeValue "vSiteUpslopeDirFromNorth" t in
  let fd := nativeValue "vSurfaceFireVectorDirFromNorth" t in
  let md := nativeValue "vSurfaceFireMaxDirFromUpslope" t in
  let upslope := nativeValue "vSiteUpslopeDirFromNorth"
                   (Rounded.SiteUpslopeDirFromNorth rnd t) in
  let fromUpslope := nativeValue "vSurfaceFireVectorDirFromUpslope"
                       (Rounded.FireVectorDirFromUpslope rnd t) in
  let fromNorth := nativeValue "vSurfaceFireMaxDirFromNorth"
                     (Rounded.FireMaxDirFromNorth rnd t) in
  rounding rnd ->
  (0 <= aspect -> aspect < 360 ->
     0 <= upslope /\ upslope <= 360
     /\ (180 <= aspect -> upslope <= 180)
     /\ (aspect < 180 -> 180 <= upslope))
  /\ (0 <= sd -> sd < 360 -> 0 <= fd -> fd < 360 ->
      0 <= fromUpslope /\ fromUpslope <= 360)
  /\ (0 <= sd -> sd < 360 -> 0 <= md -> md <= 360 ->
      0 <= fromNorth /\ fromNorth <= 360
      /\ (fromNorth == 0 \/ 0.5 <= fromNorth)).
Proof.
  intros aspect sd fd md upslope fromUpslope fromNorth Hrnd.
  assert (R0 : rnd 0 == 0) by apply (rnd_integer rnd Hrnd 0 eq_refl).
  assert (R180 : rnd 180 == 180) by apply (rnd_integer rnd Hrnd 180 eq_refl).
  assert (R360 : rnd 360 == 360) by apply (rnd_integer rnd Hrnd 360 eq_refl).
  assert (R720 : rnd 720 == 720) by apply (rnd_integer rnd Hrnd 720 eq_refl).
  assert (Rm : rnd (-360) == -360)
    by apply (rnd_integer rnd Hrnd (-360) eq_refl).
  split; [| split].
  - intros H0 H1. subst upslope. unfold Rounded.SiteUpslopeDirFromNorth.
    rewrite nativeValue_update_eq. cbv zeta. fold aspect.
    destruct (aspect <? 180) eqn:E;
      [apply Qltb_lt in E | apply Qltb_ge in E]; cbn [negb].
    + destruct (rnd_between rnd Hrnd 180 360 (aspect + 180) R180 R360);
        [lra | lra |]. repeat split; lra.
    + destruct (rnd_between rnd Hrnd 0 180 (aspect - 180) R0 R180);
        [lra | lra |]. repeat split; lra.
  - intros Hs0 Hs1 Hf0 Hf1. subst fromUpslope.
    unfold Rounded.FireVectorDirFromUpslope.
    rewrite nativeValue_update_eq. cbv zeta. fold sd fd.
    destruct (rnd_between rnd Hrnd (-360) 360 (fd - sd) Rm R360);
      [lra | lra |].
    destruct (rnd (fd - sd) <? 0) eqn:E;
      [apply Qltb_lt in E | apply Qltb_ge in E].
    + apply (rnd_between rnd Hrnd 0 360); [exact R0 | exact R360 | lra | lra].
    + lra.
  - intros Hs0 Hs1 Hm0 Hm1. subst fromNorth.
    unfold Rounded.FireMaxDirFromNorth.
    rewrite nativeValue_update_eq. cbv zeta. fold sd md.
    destruct (rnd_between rnd Hrnd 0 720 (sd + md) R0 R720) as [Ha Hb];
      [lra | lra |].
    set (dd0 := rnd (sd + md)) in *.
    assert (Hdd1 : exists dd1,
              (if negb (dd0 <? 360) then rnd (dd0 - 360) else dd0) = dd1
              /\ 0 <= dd1 /\ dd1 <= 360).
    { destruct (dd0 <? 360) eqn:E;
        [apply Qltb_lt in E | apply Qltb_ge in E]; cbn [negb].
      - exists dd0. split; [reflexivity | lra].
      - exists (rnd (dd0 - 360)). split; [reflexivity |].
        apply (rnd_between rnd Hrnd 0 360); [exact R0 | exact R360 | lra | lra]. }
    destruct Hdd1 as (dd1 & -> & Hc & Hd).
    rewrite (Qltb_false dd1 0) by lra.
    destruct (Qabs dd1 <? 0.50) eqn:E;
      [apply Qltb_lt in E | apply Qltb_ge in E].
    + split; [lra |]. split; [lra |]. left. reflexivity.
    + rewrite Qabs_pos in E by exact Hc.
      split; [lra |]. split; [lra |]. right. lra.
Qed.

(** The upper end is reached: with binary64, the upslope direction just
    below 360 and a direction of maximum spread of 360 from it store 360
    as the direction from north. *)
Lemma X1_directions_on_the_circle_witness :
  nativeValue "vSurfaceFireMaxDirFromNorth"
    (Rounded.FireMaxDirFromNorth binary64
       ((update "vSiteUpslopeDirFromNorth" (binary64 359.99999999999994) ;;
         update "vSurfaceFireMaxDirFromUpslope" 360) emptyTree)) <= 360
  /\ nativeValue "vSurfaceFireMaxDirFromNorth"
       (Rounded.FireMaxDirFromNorth binary64
          ((update "vSiteUpslopeDirFromNorth" (binary64 359.99999999999994) ;;
            update "vSurfaceFireMaxDirFromUpslope" 360) emptyTree)) == 360.
Proof.
  split; [| vm_compute; reflexivity].
  refine (proj1 (proj2 (proj2 (proj2
            (X1_directions_on_the_circle binary64
               ((update "vSiteUpslopeDirFromNorth"
                   (binary64 359.99999999999994) ;;
                 update "vSurfaceFireMaxDirFromUpslope" 360) emptyTree)
               binary64_rounding)) _ _ _ _)));
    vm_compute; first [reflexivity | discriminate].
Defined.

Lemma compassWind_steps_bool :
  forallb (fun w => forallb (fun a =>
    Qeq_bool (compassWind (Z.of_nat w) (Z.of_nat a))
             (22.5 * inject_Z ((Z.of_nat w - Z.of_nat a) mod 16)))
    (seq 0 16)) (seq 0 16) = true.
Proof. vm_compute. reflexivity. Qed.

Lemma compassWind_steps w a :
  (0 <= w < 16)%Z -> (0 <= a < 16)%Z ->
  compassWind w a == 22.5 * inject_Z ((w - a) mod 16).
Proof.
  intros Hw Ha.
  pose proof compassWind_steps_bool as Hb.
  rewrite forallb_forall in Hb.
  specialize (Hb (Z.to_nat w)). rewrite forallb_forall in Hb.
  specialize (Hb ltac:(apply in_seq; lia) (Z.to_nat a) ltac:(apply in_seq; lia)).
  rewrite !Z2Nat.id in Hb by lia.
  by apply Qeq_bool_iff.
Qed.

(** X2. With the wind source and the aspect given as compass points (items
    0 to 15 of 22.5 degrees each), the chain WindDirFromNorth,
    SiteAspectDirFromNorth, SiteUpslopeDirFromNorth, WindDirFromUpslope
    stores 22.5 degrees times the difference of the two item indices modulo
    16: a wind from the compass point of the aspect is an upslope wind (0). *)
Theorem X2_compass_wind_from_upslope (t : EqTree) :
  let w := activeItemDataIndex "vWindDirFromCompass" t in
  let a := activeItemDataIndex "vSiteAspectDirFromCompass" t in
  let t' := (EqCalc.WindDirFromNorth ;; EqCalc.SiteAspectDirFromNorth ;;
             EqCalc.SiteUpslopeDirFromNorth ;; WindDirFromUpslope) t in
  (0 <= w < 16)%Z -> (0 <= a < 16)%Z ->
  nativeValue "vWindDirFromUpslope" t' == 22.5 * inject_Z ((w - a) mod 16)
  /\ (w = a -> nativeValue "vWindDirFromUpslope" t' == 0).
Proof.
  intros w a t' Hw Ha.
  assert (Hstored : nativeValue "vWindDirFromUpslope" t' = compassWind w a).
  { subst t'. cbv [andThen]. rewrite WindDirFromUpslope_stores.
    unfold EqCalc.SiteUpslopeDirFromNorth, EqCalc.SiteAspectDirFromNorth,
      EqCalc.WindDirFromNorth.
    cbv zeta. read_back. unfold compassWind. cbv zeta. reflexivity. }
  rewrite Hstored. split; [by apply compassWind_steps |].
  intros ->. rewrite compassWind_steps by assumption.
  rewrite Z.sub_diag. reflexivity.
Qed.

Lemma X2_compass_wind_from_upslope_witness :
  nativeValue "vWindDirFromUpslope"
    ((EqCalc.WindDirFromNorth ;; EqCalc.SiteAspectDirFromNorth ;;
      EqCalc.SiteUpslopeDirFromNorth ;; WindDirFromUpslope)
       (compassInputs 4 12))
  == 22.5 * inject_Z ((4 - 12) mod 16).
Proof.
  apply (X2_compass_wind_from_upslope (compassInputs 4 12));
    vm_compute; done.
Defined.
(** ** Map scale and map distances *)

Lemma rnd_eq rnd x y : rounding rnd -> x == y -> rnd x == rnd y.
Proof.
  intros Hrnd E.
  apply Qle_antisym; apply (rnd_monotone rnd Hrnd); lra.
Qed.

(** A map scale of zero gives a map distance of zero. *)
Lemma rnd_map_distance_zero rnd ms d :
  rounding rnd -> ms == 0 -> rnd (rnd (ms * d) / 5280) == 0.
Proof.
  intros Hrnd Hms.
  assert (R0 : rnd 0 == 0) by apply (rnd_integer rnd Hrnd 0 eq_refl).
  assert (E1 : rnd (ms * d) == 0).
  { rewrite (rnd_eq rnd (ms * d) 0 Hrnd); [exact R0 |]. rewrite Hms. ring. }
  rewrite (rnd_eq rnd (rnd (ms * d) / 5280) 0 Hrnd); [exact R0 |].
  rewrite E1. reflexivity.
Qed.

(** X5. The guard of the map scale carries through the functions that use
    the scale (SMIDGEN positive), in double arithmetic with any rounding
    that is monotone and leaves small integers alone.  With a map fraction
    1:x where x is below SMIDGEN, MapScale stores 0, and then the
    ridge-to-valley distance and the map distances of the back, the head
    and the length of the fire are all 0: there is no division by the
    fraction or by the scale.  Otherwise the scale is 63360 / x, the map
    distances are scale times distance divided by 5280, and the
    ridge-to-valley distance is the map distance divided by the scale,
    or 0 when the scale itself is below SMIDGEN. *)
Theorem X5_map_scale_guard `{XfbLib} (rnd : Q -> Q) (t : EqTree) :
  let x := nativeValue "vMapFraction" t in
  let scale := nativeValue "vMapScale" (Rounded.MapScale rnd t) in
  let t' := (Rounded.MapScale rnd ;; Rounded.SiteRidgeToValleyDist rnd ;;
             Rounded.FireMapDistAtBack rnd ;; Rounded.FireMapDistAtHead rnd ;;
             Rounded.FireLengMapDist rnd) t in
  let ridge := nativeValue "vSiteRidgeToValleyDist" t' in
  let back := nativeValue "vSurfaceFireMapDistAtBack" t' in
  let head := nativeValue "vSurfaceFireMapDistAtHead" t' in
  let leng := nativeValue "vSurfaceFireLengMapDist" t' in
  rounding rnd -> 0 < SMIDGEN ->
  (x < SMIDGEN ->
     scale == 0 /\ ridge == 0 /\ back == 0 /\ head == 0 /\ leng == 0)
  /\ (SMIDGEN <= x ->
      scale = rnd (63360 / x)
      /\ back = rnd (rnd (scale * nativeValue "vSurfaceFireDistAtBack" t) / 5280)
      /\ head = rnd (rnd (scale * nativeValue "vSurfaceFireDistAtHead" t) / 5280)
      /\ leng = rnd (rnd (scale * nativeValue "vSurfaceFireLengDist" t) / 5280)
      /\ (scale < SMIDGEN -> ridge == 0)
      /\ (SMIDGEN <= scale ->
          ridge = rnd (nativeValue "vSiteRidgeToValleyMapDist" t / scale))).
Proof.
  intros x scale t' ridge back head leng Hrnd Hpos.
  assert (Hscale : scale = if x <? SMIDGEN then 0.0 else rnd (63360 / x)).
  { subst scale. unfold Rounded.MapScale. by rewrite nativeValue_update_eq. }
  assert (Hridge : ridge
    = if scale <? SMIDGEN then 0
      else rnd (nativeValue "vSiteRidgeToValleyMapDist" t / scale)).
  { subst ridge t' scale. cbv [andThen].
    unfold Rounded.FireLengMapDist, Rounded.FireMapDistAtHead,
      Rounded.FireMapDistAtBack. read_back.
    unfold Rounded.SiteRidgeToValleyDist. read_back.
    unfold Rounded.MapScale. by read_back. }
  assert (Hback : back
    = rnd (rnd (scale * nativeValue "vSurfaceFireDistAtBack" t) / 5280)).
  { subst back t' scale. cbv [andThen].
    unfold Rounded.FireLengMapDist, Rounded.FireMapDistAtHead. read_back.
    unfold Rounded.FireMapDistAtBack. read_back.
    unfold Rounded.SiteRidgeToValleyDist. read_back.
    unfold Rounded.MapScale. by read_back. }
  assert (Hhead : head
    = rnd (rnd (scale * nativeValue "vSurfaceFireDistAtHead" t) / 5280)).
  { subst head t' scale. cbv [andThen].
    unfold Rounded.FireLengMapDist. read_back.
    unfold Rounded.FireMapDistAtHead. read_back.
    unfold Rounded.FireMapDistAtBack. read_back.
    unfold Rounded.SiteRidgeToValleyDist. read_back.
    unfold Rounded.MapScale. by read_back. }
  assert (Hleng : leng
    = rnd (rnd (scale * nativeValue "vSurfaceFireLengDist" t) / 5280)).
  { subst leng t' scale. cbv [andThen].
    unfold Rounded.FireLengMapDist. read_back.
    unfold Rounded.FireMapDistAtHead. read_back.
    unfold Rounded.FireMapDistAtBack. read_back.
    unfold Rounded.SiteRidgeToValleyDist. read_back.
    unfold Rounded.MapScale. by read_back. }
  split.
  - intros Hx. rewrite (Qltb_true _ _ Hx) in Hscale.
    assert (Hs0 : scale == 0) by (rewrite Hscale; reflexivity).
    split; [exact Hs0 |].
    split; [| split; [| split]].
    + rewrite Hridge, Qltb_true; [reflexivity | lra].
    + rewrite Hback. by apply rnd_map_distance_zero.
    + rewrite Hhead. by apply rnd_map_distance_zero.
    + rewrite Hleng. by apply rnd_map_distance_zero.
  - intros Hx. rewrite (Qltb_false _ _ Hx) in Hscale.
    split; [exact Hscale |].
    split; [exact Hback |]. split; [exact Hhead |]. split; [exact Hleng |].
    split.
    + intros Hs. rewrite Hridge, (Qltb_true _ _ Hs). reflexivity.
    + intros Hs. rewrite Hridge, (Qltb_false _ _ Hs). reflexivity.
Qed.

(** A 1:24000 map and a fire head 600 ft away: 0.3 in on the map in double
    arithmetic; and no map fraction: no map distance. *)
Lemma X5_map_scale_guard_witness :
  nativeValue "vSurfaceFireMapDistAtHead"
    ((Rounded.MapScale (H := sampleLib) binary64 ;;
      Rounded.SiteRidgeToValleyDist (H := sampleLib) binary64 ;;
      Rounded.FireMapDistAtBack binary64 ;;
      Rounded.FireMapDistAtHead binary64 ;;
      Rounded.FireLengMapDist binary64) mapInputs)
  = binary64
      (binary64
         (nativeValue "vMapScale"
            (Rounded.MapScale (H := sampleLib) binary64 mapInputs)
          * nativeValue "vSurfaceFireDistAtHead" mapInputs) / 5280)
  /\ nativeValue "vSurfaceFireMapDistAtHead"
       ((Rounded.MapScale (H := sampleLib) binary64 ;;
         Rounded.SiteRidgeToValleyDist (H := sampleLib) binary64 ;;
         Rounded.FireMapDistAtBack binary64 ;;
         Rounded.FireMapDistAtHead binary64 ;;
         Rounded.FireLengMapDist binary64)
          (update "vSurfaceFireDistAtHead" 600 emptyTree))
     == 0.
Proof.
  split.
  - refine (proj1 (proj2 (proj2 (proj2
              (X5_map_scale_guard (H := sampleLib) binary64 mapInputs
                 binary64_rounding _) _)))).
    + vm_compute. reflexivity.
    + vm_compute. discriminate.
  - refine (proj1 (proj2 (proj2 (proj2 (proj1
              (X5_map_scale_guard (H := sampleLib) binary64
                 (update "vSurfaceFireDistAtHead" 600 emptyTree)
                 binary64_rounding _) _))))).
    + vm_compute. reflexivity.
    + vm_compute. reflexivity.
Defined.

(** ** Fuel particles: standard fuel bed, aspen, moistures *)

(** Names of particle variables as literals. *)
Ltac particle_names :=
  repeat match goal with
  | |- context [var ?arr ?p] =>
      let s := eval vm_compute in (var arr p) in
      change (var arr p) with s
  end.

Section ReadBackFrom.
Variables (v w u : string) (t : EqTree).

Lemma nativeValue_updateFrom_eq :
  nativeValue v (updateFrom v w t) = nativeValue w t.
Proof. apply nativeValue_update_eq. Qed.

Lemma nativeValue_updateFrom_ne :
  v ≠ u -> nativeValue u (updateFrom v w t) = nativeValue u t.
Proof. apply nativeValue_update_ne. Qed.

Lemma activeItem_updateFrom :
  activeItemDataIndex u (updateFrom v w t) = activeItemDataIndex u t.
Proof. reflexivity. Qed.
End ReadBackFrom.

(** Read a variable back through [update], [updateItem] and [updateFrom]. *)
Ltac names_differ := apply String.eqb_neq; reflexivity.

Ltac read_back_from :=
  cbv [andThen skip];
  repeat match goal with
  | |- context [activeItemDataIndex ?v (update ?w ?x ?t)] =>
      change (activeItemDataIndex v (update w x t))
        with (activeItemDataIndex v t)
  | |- context [activeItemDataIndex ?v (updateFrom ?w ?x ?t)] =>
      change (activeItemDataIndex v (updateFrom w x t))
        with (activeItemDataIndex v t)
  | |- context [nativeValue ?v (updateItem ?w ?x ?t)] =>
      change (nativeValue v (updateItem w x t)) with (nativeValue v t)
  | |- context [nativeValue ?v (update ?v ?x ?t)] =>
      rewrite (nativeValue_update_eq v t x)
  | |- context [nativeValue ?v (update ?w ?x ?t)] =>
      rewrite (nativeValue_update_ne v w t x) by names_differ
  | |- context [nativeValue ?v (updateFrom ?v ?w ?t)] =>
      rewrite (nativeValue_updateFrom_eq v w t)
  | |- context [nativeValue ?u (updateFrom ?v ?w ?t)] =>
      rewrite (nativeValue_updateFrom_ne v w u t) by names_differ
  | |- context [activeItemDataIndex ?v (updateItem ?v ?i ?t)] =>
      rewrite (activeItem_updateItem_eq v t i)
  | |- context [activeItemDataIndex ?v (updateItem ?w ?i ?t)] =>
      rewrite (activeItem_updateItem_ne v w t i) by names_differ
  end.

(** A particle array as a list of literals. *)
Ltac particle_array arr :=
  let l := eval vm_compute in arr in
  change arr with l; cbn [map].

Ltac unfold_FuelBedParms :=
  unfold FuelBedParms, forParts;
  cbn [fold_left seq MaxParts]; cbv [andThen]; particle_names.

(** The particle arrays of the standard fuel bed. *)
Lemma FuelBedParms_life t :
  activeItems vSurfaceFuelLife (FuelBedParms t) = [0; 0; 0; 1; 2; 0; 0; 0]%Z.
Proof.
  unfold activeItems. particle_array vSurfaceFuelLife.
  unfold_FuelBedParms.
  repeat (apply (f_equal2 cons); [by read_back_from |]). reflexivity.
Qed.

Lemma FuelBedParms_load t :
  nativeValues vSurfaceFuelLoad (FuelBedParms t)
  = [nativeValue "vSurfaceFuelLoadDead1" t;
     nativeValue "vSurfaceFuelLoadDead10" t;
     nativeValue "vSurfaceFuelLoadDead100" t;
     nativeValue "vSurfaceFuelLoadLiveHerb" t;
     nativeValue "vSurfaceFuelLoadLiveWood" t;
     0.0; 0.0; 0.0].
Proof.
  unfold nativeValues. particle_array vSurfaceFuelLoad.
  unfold_FuelBedParms.
  repeat (apply (f_equal2 cons); [by read_back_from |]). reflexivity.
Qed.

Lemma FuelBedParms_savr t :
  nativeValues vSurfaceFuelSavr (FuelBedParms t)
  = [nativeValue "vSurfaceFuelSavrDead1" t; 109.0; 30.0;
     nativeValue "vSurfaceFuelSavrLiveHerb" t;
     nativeValue "vSurfaceFuelSavrLiveWood" t;
     nativeValue "vSurfaceFuelSavrLiveHerb" t; 1; 1].
Proof.
  unfold nativeValues. particle_array vSurfaceFuelSavr.
  unfold_FuelBedParms.
  repeat (apply (f_equal2 cons); [by read_back_from |]). reflexivity.
Qed.

(** [FuelBedParms] writes particle variables only. *)
Lemma FuelBedParms_frame v t :
  v ∉ vSurfaceFuelDens ++ vSurfaceFuelHeat ++ vSurfaceFuelLoad
      ++ vSurfaceFuelSavr ++ vSurfaceFuelSeff ++ vSurfaceFuelStot ->
  nativeValue v (FuelBedParms t) = nativeValue v t.
Proof.
  intros Hv. unfold_FuelBedParms.
  repeat first
    [ rewrite nativeValue_update_ne by not_listed Hv
    | rewrite nativeValue_updateItem
    | rewrite nativeValue_updateFrom_ne by not_listed Hv ].
  reflexivity.
Qed.

Lemma FuelBedParms_frame_item v t :
  v ∉ vSurfaceFuelLife ->
  activeItemDataIndex v (FuelBedParms t) = activeItemDataIndex v t.
Proof.
  intros Hv. unfold_FuelBedParms.
  repeat first
    [ rewrite activeItem_update
    | rewrite activeItem_updateFrom
    | rewrite activeItem_updateItem_ne by not_listed Hv ].
  reflexivity.
Qed.

Lemma transferFraction_FuelBedParms t :
  transferFraction (FuelBedParms t) = transferFraction t.
Proof.
  unfold transferFraction.
  rewrite FuelBedParms_frame_item by compute_done.
  rewrite FuelBedParms_frame by compute_done.
  reflexivity.
Qed.

(** X8. FuelBedParms followed by FuelBedIntermediates: the dead load stored
    is the sum of the 1-h, 10-h and 100-h loads plus the load moved from the
    live herbaceous fuel, the live load is the herbaceous plus the woody load
    minus the load moved; the load moved is the transfer fraction times the
    live herbaceous load when the transfer equation is not item 0 and the
    fraction is above 0.00001, and nothing otherwise. *)
Theorem X8_standard_fuel_bed_loads `{XfbLib} (t : EqTree) :
  let d1 := nativeValue "vSurfaceFuelLoadDead1" t in
  let d10 := nativeValue "vSurfaceFuelLoadDead10" t in
  let d100 := nativeValue "vSurfaceFuelLoadDead100" t in
  let herb := nativeValue "vSurfaceFuelLoadLiveHerb" t in
  let wood := nativeValue "vSurfaceFuelLoadLiveWood" t in
  let moved := if transferFraction t >? 0.00001
               then transferFraction t * herb else 0 in
  let t' := (FuelBedParms ;; FuelBedIntermediates) t in
  nativeValue "vSurfaceFuelLoadDead" t' == d1 + d10 + d100 + moved
  /\ nativeValue "vSurfaceFuelLoadLive" t' == herb + wood - moved
  /\ nativeValue "vSurfaceFuelLoadDeadHerb" t' == moved
  /\ nativeValue "vSurfaceFuelLoadUndeadHerb" t' == herb - moved.
Proof.
  intros d1 d10 d100 herb wood moved t'. subst t'. cbv [andThen].
  destruct (FuelBedIntermediates_stores (FuelBedParms t))
    as (_ & _ & -> & -> & -> & ->).
  unfold bedLoads.
  rewrite transferFraction_FuelBedParms, FuelBedParms_life, FuelBedParms_load.
  fold d1 d10 d100 herb wood. subst moved.
  unfold loadTransfer.
  destruct (transferFraction t >? 0.00001); cbn; repeat split; lra.
Qed.

(** ** Particle moistures *)

(** A loop of updates whose values do not depend on the variables that the
    loop writes: each variable holds the value computed from the tree
    before the loop. *)
Lemma update_loop (out : nat -> string) (g : nat -> EqTree -> Q) (l : list nat) :
  (forall i j x t, In i l -> In j l -> g i (update (out j) x t) = g i t) ->
  (forall i j, In i l -> In j l -> out i = out j -> i = j) ->
  forall t0,
    let t' := fold_left (fun t i => update (out i) (g i t) t) l t0 in
    (forall i, In i l -> nativeValue (out i) t' = g i t0)
    /\ (forall v, (forall j, In j l -> out j <> v) ->
                  nativeValue v t' = nativeValue v t0)
    /\ (forall v, activeItemDataIndex v t' = activeItemDataIndex v t0).
Proof.
  induction l as [| a l IH]; intros Hframe Hinj t0; simpl.
  - by repeat split.
  - destruct (IH) with (t0 := update (out a) (g a t0) t0)
      as (Hwritten & Hother & Hitem).
    { intros i j x t Hi Hj. apply Hframe; by right. }
    { intros i j Hi Hj. apply Hinj; by right. }
    split; [| split].
    + intros i [<- | Hi].
      * destruct (in_dec Nat.eq_dec a l) as [Ha | Ha].
        -- rewrite Hwritten by exact Ha. apply Hframe; [by right | by left].
        -- rewrite Hother; [apply nativeValue_update_eq |].
           intros j Hj E. apply Ha.
           by rewrite <- (Hinj j a (or_intror Hj) (or_introl eq_refl) E).
      * rewrite Hwritten by exact Hi. apply Hframe; [by right | by left].
    + intros v Hv. rewrite Hother by (intros j Hj; apply Hv; by right).
      apply nativeValue_update_ne. apply Hv. by left.
    + intros v. by rewrite Hitem.
Qed.

(** The moisture of a particle is taken from one of the six moisture
    inputs, never from a particle variable. *)
Lemma moistureSource_input life savr :
  In (EqCalc.moistureSource life savr)
     ["vSurfaceFuelMoisDead1"; "vSurfaceFuelMoisDead10";
      "vSurfaceFuelMoisDead100"; "vSurfaceFuelMoisDead1000";
      "vSurfaceFuelMoisLiveHerb"; "vSurfaceFuelMoisLiveWood"]%string.
Proof.
  unfold EqCalc.moistureSource.
  repeat match goal with |- context [if ?b then _ else _] => destruct b end;
    cbn; tauto.
Qed.

Ltac each_particle H :=
  cbn [seq MaxParts In] in H;
  repeat (destruct H as [<- | H]; [| try contradiction]).

Lemma particle_not_input i life savr :
  In i (seq 0 MaxParts) ->
  var vSurfaceFuelMois i <> EqCalc.moistureSource life savr.
Proof.
  intros Hi E. pose proof (moistureSource_input life savr) as Hs.
  rewrite <- E in Hs. clear E.
  each_particle Hi; vm_compute in Hs; by intuition.
Qed.

Lemma FuelMoisTimeLag_loop t :
  let t' := EqCalc.FuelMoisTimeLag t in
  (forall i, In i (seq 0 MaxParts) ->
     nativeValue (var vSurfaceFuelMois i) t' = particleMoisture i t)
  /\ (forall v, (forall j, In j (seq 0 MaxParts) -> var vSurfaceFuelMois j <> v) ->
                nativeValue v t' = nativeValue v t)
  /\ (forall v, activeItemDataIndex v t' = activeItemDataIndex v t).
Proof.
  apply (update_loop (var vSurfaceFuelMois) particleMoisture).
  - intros i j x t0 Hi Hj. unfold particleMoisture.
    change (activeItemDataIndex (var vSurfaceFuelLife i)
              (update (var vSurfaceFuelMois j) x t0))
      with (activeItemDataIndex (var vSurfaceFuelLife i) t0).
    rewrite (nativeValue_update_ne (var vSurfaceFuelSavr i)).
    + apply nativeValue_update_ne. by apply particle_not_input.
    + each_particle Hi; each_particle Hj; by vm_compute.
  - intros i j Hi Hj. each_particle Hi; each_particle Hj; by vm_compute.
Qed.

Lemma nativeValue_setNum `{EqVarDisplay} v w t :
  nativeValue v (EqCalc.setNum w t) = nativeValue v t.
Proof. reflexivity. Qed.

Lemma activeItem_setNum `{EqVarDisplay} v w t :
  activeItemDataIndex v (EqCalc.setNum w t) = activeItemDataIndex v t.
Proof. reflexivity. Qed.

(** What [FuelMoisLifeClass] leaves in the six moisture inputs. *)
Lemma FuelMoisLifeClass_stores `{EqVarDisplay} t :
  let dead := nativeValue "vSurfaceFuelMoisLifeDead" t in
  let live := nativeValue "vSurfaceFuelMoisLifeLive" t in
  let t' := EqCalc.FuelMoisLifeClass t in
  nativeValue "vSurfaceFuelMoisDead1" t' = dead
  /\ nativeValue "vSurfaceFuelMoisDead10" t' = dead
  /\ nativeValue "vSurfaceFuelMoisDead100" t' = dead
  /\ nativeValue "vSurfaceFuelMoisDead1000" t' = dead
  /\ nativeValue "vSurfaceFuelMoisLiveHerb" t' = live
  /\ nativeValue "vSurfaceFuelMoisLiveWood" t' = live.
Proof.
  intros dead live t'. subst t'. unfold EqCalc.FuelMoisLifeClass.
  cbv zeta. fold dead live. cbv [andThen].
  repeat split;
    repeat first [ rewrite nativeValue_setNum
                 | rewrite nativeValue_update_eq
                 | rewrite nativeValue_update_ne by done ];
    reflexivity.
Qed.

(** X9. FuelMoisLifeClass followed by FuelMoisTimeLag gives every one of the
    eight fuel particles the live category moisture when its life category
    is live herbaceous or live woody, and the dead category moisture
    otherwise, whatever its surface-area-to-volume ratio. *)
Theorem X9_life_class_moistures `{EqVarDisplay} (t : EqTree) (i : nat) :
  let dead := nativeValue "vSurfaceFuelMoisLifeDead" t in
  let live := nativeValue "vSurfaceFuelMoisLifeLive" t in
  let life := activeItemDataIndex (var vSurfaceFuelLife i) t in
  let t' := (EqCalc.FuelMoisLifeClass ;; EqCalc.FuelMoisTimeLag) t in
  (i < MaxParts)%nat ->
  nativeValue (var vSurfaceFuelMois i) t'
  = if (life =? EqCalc.FuelLifeType_LiveHerb)%Z
       || (life =? EqCalc.FuelLifeType_LiveWood)%Z
    then live else dead.
Proof.
  intros dead live life t' Hi. subst t'. cbv [andThen].
  destruct (FuelMoisTimeLag_loop (EqCalc.FuelMoisLifeClass t)) as (-> & _).
  2: { apply in_seq. unfold MaxParts in *. lia. }
  destruct (FuelMoisLifeClass_stores t) as (H1 & H10 & H100 & H1000 & Hh & Hw).
  unfold particleMoisture.
  change (activeItemDataIndex (var vSurfaceFuelLife i)
            (EqCalc.FuelMoisLifeClass t)) with life.
  unfold EqCalc.moistureSource.
  destruct (life =? EqCalc.FuelLifeType_LiveHerb)%Z; [exact Hh |].
  destruct (life =? EqCalc.FuelLifeType_LiveWood)%Z; [exact Hw |].
  cbn [orb].
  repeat match goal with |- context [if ?b then _ else _] => destruct b end;
    assumption.
Qed.

Lemma X9_life_class_moistures_witness :
  nativeValue (var vSurfaceFuelMois 3)
    ((@EqCalc.FuelMoisLifeClass sampleDisplay ;; EqCalc.FuelMoisTimeLag)
       lifeClassInputs)
  = nativeValue "vSurfaceFuelMoisLifeLive" lifeClassInputs.
Proof.
  apply (@X9_life_class_moistures sampleDisplay lifeClassInputs 3).
  unfold MaxParts. lia.
Defined.

(** Element [i] of a particle array read from the tree. *)
Lemma at_nativeValues arr i t :
  (i < length arr)%nat -> nativeValue (var arr i) t = at_ (nativeValues arr t) i.
Proof.
  intros Hi. unfold at_, nativeValues, var.
  rewrite (nth_indep _ 0 (nativeValue EmptyString t))
    by (by rewrite length_map).
  symmetry. apply (map_nth (fun v => nativeValue v t)).
Qed.

Lemma atZ_activeItems arr i t :
  (i < length arr)%nat ->
  activeItemDataIndex (var arr i) t = atZ (activeItems arr t) i.
Proof.
  intros Hi. unfold atZ, activeItems, var.
  rewrite (nth_indep _ 0%Z (activeItemDataIndex EmptyString t))
    by (by rewrite length_map).
  symmetry. apply (map_nth (fun v => activeItemDataIndex v t)).
Qed.

Lemma particleMoisture_FuelBedParms i t :
  (i < MaxParts)%nat ->
  particleMoisture i (FuelBedParms t)
  = nativeValue
      (EqCalc.moistureSource
         (atZ [0; 0; 0; 1; 2; 0; 0; 0]%Z i)
         (at_ [nativeValue "vSurfaceFuelSavrDead1" t; 109.0; 30.0;
               nativeValue "vSurfaceFuelSavrLiveHerb" t;
               nativeValue "vSurfaceFuelSavrLiveWood" t;
               nativeValue "vSurfaceFuelSavrLiveHerb" t; 1; 1] i)) t.
Proof.
  intros Hi. unfold particleMoisture.
  rewrite atZ_activeItems, at_nativeValues by exact Hi.
  rewrite FuelBedParms_life, FuelBedParms_savr.
  apply FuelBedParms_frame.
  pose proof (moistureSource_input
                (atZ [0; 0; 0; 1; 2; 0; 0; 0]%Z i)
                (at_ [nativeValue "vSurfaceFuelSavrDead1" t; 109.0; 30.0;
                      nativeValue "vSurfaceFuelSavrLiveHerb" t;
                      nativeValue "vSurfaceFuelSavrLiveWood" t;
                      nativeValue "vSurfaceFuelSavrLiveHerb" t; 1; 1] i))
    as Hin.
  cbn [In] in Hin.
  repeat (destruct Hin as [<- | Hin]; [compute_done |]). contradiction.
Qed.

(** X10. FuelBedParms followed by FuelMoisTimeLag: in the standard fuel bed
    the 10-h and 100-h particles take the 10-h and 100-h moistures, the live
    herbaceous and live woody particles the live herbaceous and live woody
    moistures, and the two unused particles the 1000-h moisture; the 1-h
    particle and the dead herbaceous particle take the 1-h moisture when
    their surface-area-to-volume ratio is above 192 ft2/ft3. *)
Theorem X10_standard_bed_moistures (t : EqTree) :
  let t' := (FuelBedParms ;; EqCalc.FuelMoisTimeLag) t in
  let mois i := nativeValue (var vSurfaceFuelMois i) t' in
  mois 1%nat = nativeValue "vSurfaceFuelMoisDead10" t
  /\ mois 2%nat = nativeValue "vSurfaceFuelMoisDead100" t
  /\ mois 3%nat = nativeValue "vSurfaceFuelMoisLiveHerb" t
  /\ mois 4%nat = nativeValue "vSurfaceFuelMoisLiveWood" t
  /\ mois 6%nat = nativeValue "vSurfaceFuelMoisDead1000" t
  /\ mois 7%nat = nativeValue "vSurfaceFuelMoisDead1000" t
  /\ (192 < nativeValue "vSurfaceFuelSavrDead1" t ->
      mois 0%nat = nativeValue "vSurfaceFuelMoisDead1" t)
  /\ (192 < nativeValue "vSurfaceFuelSavrLiveHerb" t ->
      mois 5%nat = nativeValue "vSurfaceFuelMoisDead1" t).
Proof.
  intros t' mois. subst mois t'. cbv [andThen].
  destruct (FuelMoisTimeLag_loop (FuelBedParms t)) as (Hloop & _).
  repeat split; try intros Hlarge;
    (rewrite Hloop by (apply in_seq; unfold MaxParts; lia));
    (rewrite particleMoisture_FuelBedParms by (unfold MaxParts; lia));
    cbn [atZ at_ nth]; unfold EqCalc.moistureSource; cbn [Z.eqb Pos.eqb
      EqCalc.FuelLifeType_LiveHerb EqCalc.FuelLifeType_LiveWood
      EqCalc.FuelLifeType_DeadLitter];
    try reflexivity.
  - by rewrite (Qltb_true 192) by exact Hlarge.
  - by rewrite (Qltb_true 192) by exact Hlarge.
Qed.

Lemma X10_standard_bed_moistures_witness :
  nativeValue (var vSurfaceFuelMois 0)
    ((FuelBedParms ;; EqCalc.FuelMoisTimeLag) standardBedInputs)
  = nativeValue "vSurfaceFuelMoisDead1" standardBedInputs.
Proof.
  apply (X10_standard_bed_moistures standardBedInputs). vm_compute. reflexivity.
Defined.

(** ** The structure of [reconfigure] *)

Lemma overlay_emptyTree_l t : overlay emptyTree t = t.
Proof.
  destruct t. unfold overlay, emptyTree; cbn.
  by rewrite !(left_id_L ∅ (∪)).
Qed.

Lemma overlay_emptyTree_r d : overlay d emptyTree = d.
Proof.
  destruct d. unfold overlay, emptyTree; cbn.
  by rewrite !(right_id_L ∅ (∪)).
Qed.

Lemma overlay_assoc d2 d1 t :
  overlay d2 (overlay d1 t) = overlay (overlay d2 d1) t.
Proof. unfold overlay; cbn. by rewrite !(assoc_L (∪)). Qed.

Lemma overlay_idemp d t : overlay d (overlay d t) = overlay d t.
Proof. rewrite overlay_assoc. unfold overlay; cbn. by rewrite !(idemp_L (∪)). Qed.

Lemma assigns_skip : assigns skip.
Proof. exists emptyTree. intros t. by rewrite overlay_emptyTree_l. Qed.

Lemma assigns_andThen c1 c2 : assigns c1 -> assigns c2 -> assigns (c1 ;; c2).
Proof.
  intros [d1 H1] [d2 H2]. exists (overlay d2 d1). intros t.
  unfold andThen. by rewrite H1, H2, overlay_assoc.
Qed.

Lemma assigns_if (b : bool) c1 c2 :
  assigns c1 -> assigns c2 -> assigns (if b then c1 else c2).
Proof. by destruct b. Qed.

Lemma assigns_fst_if (b : bool) (p q : cmd * bool) :
  assigns (fst p) -> assigns (fst q) -> assigns (fst (if b then p else q)).
Proof. by destruct b. Qed.

(** An [if] on the tree whose condition the commands before it decide. *)
Lemma assigns_ifTree_after (pre : cmd) cond c1 c2 rest (b : bool) :
  (forall t, cond (pre t) = b) ->
  assigns pre -> assigns (if b then c1 else c2) -> assigns rest ->
  assigns (pre ;; (ifTree cond c1 c2 ;; rest)).
Proof.
  intros Hcond Hpre Hif Hrest.
  destruct (assigns_andThen _ _ Hpre (assigns_andThen _ _ Hif Hrest))
    as [d Hd].
  exists d. intros t. rewrite <- Hd. unfold andThen, ifTree.
  rewrite Hcond. by destruct b.
Qed.

Lemma assigns_assoc c1 c2 c3 :
  assigns ((c1 ;; c2) ;; c3) -> assigns (c1 ;; (c2 ;; c3)).
Proof. intros [d Hd]. exists d. exact Hd. Qed.

Ltac assigns_writer w :=
  exists (w emptyTree); intros [? ? ? ? ? ? ? ?];
  unfold overlay; cbn;
  rewrite ?(left_id_L ∅ (∪)), ?insert_empty, <- ?insert_union_singleton_l;
  reflexivity.

Lemma assigns_update v x : assigns (update v x).
Proof. assigns_writer (update v x). Qed.
Lemma assigns_updateItem v i : assigns (updateItem v i).
Proof. assigns_writer (updateItem v i). Qed.
Lemma assigns_setLabel v s : assigns (setLabel v s).
Proof. assigns_writer (setLabel v s). Qed.
Lemma assigns_set_isUserInput v b : assigns (set_isUserInput v b).
Proof. assigns_writer (set_isUserInput v b). Qed.
Lemma assigns_set_isUserOutput v b : assigns (set_isUserOutput v b).
Proof. assigns_writer (set_isUserOutput v b). Qed.
Lemma assigns_set_isConstant v b : assigns (set_isConstant v b).
Proof. assigns_writer (set_isConstant v b). Qed.
Lemma assigns_set_active f b : assigns (set_active f b).
Proof. assigns_writer (set_active f b). Qed.

(** What a command that assigns writes is what it writes on the empty
    tree. *)
Lemma assigns_from_empty c t : assigns c -> c t = overlay (c emptyTree) t.
Proof. intros [d Hd]. by rewrite (Hd emptyTree), overlay_emptyTree_r. Qed.

Lemma assigns_idemp c t : assigns c -> c (c t) = c t.
Proof. intros [d Hd]. by rewrite !Hd, overlay_idemp. Qed.

(** Walk the body of a procedure that has no condition on the tree. *)
Ltac assigns_walk :=
  repeat lazymatch goal with
  | |- assigns skip => apply assigns_skip
  | |- assigns (andThen _ _) => apply assigns_andThen
  | |- assigns (if _ then _ else _) => apply assigns_if
  | |- assigns (fst (if _ then _ else _)) => apply assigns_fst_if
  | |- assigns (fst (_, _)) => cbn [fst]
  | |- assigns (update _ _) => apply assigns_update
  | |- assigns (updateItem _ _) => apply assigns_updateItem
  | |- assigns (setLabel _ _) => apply assigns_setLabel
  | |- assigns (set_isUserInput _ _) => apply assigns_set_isUserInput
  | |- assigns (set_isUserOutput _ _) => apply assigns_set_isUserOutput
  | |- assigns (set_isConstant _ _) => apply assigns_set_isConstant
  | |- assigns (set_active _ _) => apply assigns_set_active
  end.

(** Gather the commands before the first condition on the tree. *)
Ltac assigns_gather :=
  repeat lazymatch goal with
  | |- assigns (_ ;; (ifTree _ _ _ ;; _)) => fail
  | |- assigns (_ ;; (_ ;; _)) => apply assigns_assoc
  end.

Lemma reconfigureContainModule_assigns prop :
  assigns (reconfigureContainModule prop).
Proof.
  unfold reconfigureContainModule.
  apply assigns_if; [apply assigns_skip |].
  assigns_gather.
  apply (assigns_ifTree_after _ _ _ _ _
           (negb (boolean prop "containCalcCost"))).
  - intros t. cbv [andThen].
    rewrite !(isUserOutput_set_isConstant "vContainCost").
    rewrite !isUserOutput_set_ne by done.
    by rewrite isUserOutput_set_eq.
  - assigns_walk.
  - assigns_walk.
  - assigns_walk.
Qed.

Lemma moduleProcedure_assigns m prop : assigns (moduleProcedure m prop).
Proof.
  destruct m; cbn [moduleProcedure];
    try apply reconfigureContainModule_assigns;
    unfold_procedures; assigns_walk.
Qed.

Lemma reconfigure_assigns prop : assigns (reconfigure prop).
Proof.
  unfold reconfigure.
  apply assigns_andThen; [exact (moduleProcedure_assigns DocumentationModule prop) |].
  apply assigns_andThen; [exact (moduleProcedure_assigns SurfaceModule prop) |].
  apply assigns_andThen; [exact (moduleProcedure_assigns CrownModule prop) |].
  apply assigns_andThen; [exact (moduleProcedure_assigns SizeModule prop) |].
  apply assigns_andThen; [exact (moduleProcedure_assigns ContainModule prop) |].
  apply assigns_andThen; [exact (moduleProcedure_assigns SpotModule prop) |].
  apply assigns_andThen; [exact (moduleProcedure_assigns ScorchModule prop) |].
  apply assigns_andThen; [exact (moduleProcedure_assigns MortalityModule prop) |].
  apply assigns_andThen; [exact (moduleProcedure_assigns IgnitionModule prop) |].
  apply assigns_andThen; [exact (moduleProcedure_assigns WeatherModule prop) |].
  exact (moduleProcedure_assigns SafetyModule prop).
Qed.

(** X11. What reconfigure writes depends on the configuration only: on any
    tree its result is the result on the initial tree laid over that tree.
    Every flag, value and label that the configuration does not make it
    assign keeps what an earlier configuration left there. *)
Theorem X11_reconfigure_lays_over (prop : PropertyDict) (t : EqTree) :
  reconfigure prop t = overlay (reconfigure prop emptyTree) t.
Proof. apply assigns_from_empty, reconfigure_assigns. Qed.

(** X12. reconfigure is idempotent: run again with the same configuration
    on its own result, it changes nothing. *)
Theorem X12_reconfigure_idempotent (prop : PropertyDict) (t : EqTree) :
  reconfigure prop (reconfigure prop t) = reconfigure prop t.
Proof. apply assigns_idemp, reconfigure_assigns. Qed.

(** ** What [reconfigure] writes and leaves *)

Section ValueFrame.
Variable k : string.

Lemma nativeValue_frame_update v x :
  v ≠ k -> preserves (nativeValue k) (update v x).
Proof. intros Hne t. by apply nativeValue_update_ne. Qed.

Lemma activeItem_frame_updateItem v i :
  v ≠ k -> preserves (activeItemDataIndex k) (updateItem v i).
Proof. intros Hne t. by apply activeItem_updateItem_ne. Qed.

Lemma isConstant_frame_set v b :
  v ≠ k -> preserves (isConstant k) (set_isConstant v b).
Proof.
  intros Hne t. unfold isConstant, set_isConstant; simpl.
  by rewrite lookup_insert_ne.
Qed.
End ValueFrame.

(** Walk the body of a procedure for an observation of a value, an item, a
    stored text or a constant flag; [ne] proves that a written name differs
    from the observed one. *)
Ltac frame_values ne :=
  repeat lazymatch goal with
  | |- preserves _ skip => apply preserves_skip
  | |- preserves _ (andThen _ _) => apply preserves_andThen
  | |- preserves _ (if _ then _ else _) => apply preserves_if
  | |- preserves _ (ifTree _ _ _) => apply preserves_ifTree
  | |- preserves _ (fst (if _ then _ else _)) => apply preserves_fst_if
  | |- preserves _ (fst (_, _)) => cbn [fst]
  | |- preserves (nativeValue _) (update _ _) =>
      apply nativeValue_frame_update; ne
  | |- preserves (activeItemDataIndex _) (updateItem _ _) =>
      apply activeItem_frame_updateItem; ne
  | |- preserves (isConstant _) (set_isConstant _ _) =>
      apply isConstant_frame_set; ne
  | |- preserves (isActive _) (set_active _ _) =>
      apply isActive_set_active; ne
  | |- preserves (isUserOutput _) (set_isUserOutput _ _) =>
      apply isUserOutput_set_isUserOutput; ne
  | |- preserves _ _ => intros ?; reflexivity
  end.

Lemma moduleProcedure_frame_value m prop k :
  k ∉ reconfiguredValues -> preserves (nativeValue k) (moduleProcedure m prop).
Proof.
  intros Hk. destruct m; cbn [moduleProcedure]; unfold_procedures;
    frame_values ltac:(not_listed Hk).
Qed.

Lemma moduleProcedure_frame_item m prop k :
  k ∉ reconfiguredItems ->
  preserves (activeItemDataIndex k) (moduleProcedure m prop).
Proof.
  intros Hk. destruct m; cbn [moduleProcedure]; unfold_procedures;
    frame_values ltac:(not_listed Hk).
Qed.

Lemma moduleProcedure_frame_store m prop k :
  preserves (store k) (moduleProcedure m prop).
Proof.
  destruct m; cbn [moduleProcedure]; unfold_procedures;
    frame_values ltac:(fail).
Qed.

(** X13. reconfigure leaves the value of every variable as it was, except
    for the seven variables that a configuration choice pins to a constant
    (load transfer fraction, canopy crown fraction, wind adjustment factor,
    vector direction from upslope, vector beta, wind direction from upslope,
    1000-h moisture) and for the two discrete variables whose item it sets
    (load transfer equation, wind adjustment method), whose value follows
    the item; it leaves the item of every discrete variable except those
    two; and it leaves every stored input text. *)
Theorem X13_reconfigure_keeps_values (prop : PropertyDict) (t : EqTree)
    (v : string) :
  (v ∉ reconfiguredValues -> v ∉ reconfiguredItems ->
   nativeValue v (reconfigure prop t) = nativeValue v t)
  /\ (v ∉ reconfiguredItems ->
      activeItemDataIndex v (reconfigure prop t) = activeItemDataIndex v t)
  /\ store v (reconfigure prop t) = store v t.
Proof.
  split; [| split].
  - intros Hv _. apply reconfigure_preserves. intros m.
    by apply moduleProcedure_frame_value.
  - intros Hv. apply reconfigure_preserves. intros m.
    by apply moduleProcedure_frame_item.
  - apply reconfigure_preserves. intros m.
    apply moduleProcedure_frame_store.
Qed.

Lemma X13_reconfigure_keeps_values_witness :
  nativeValue "vSurfaceFuelBedDepth"
    (reconfigure twoFuelModels (update "vSurfaceFuelBedDepth" 2 emptyTree))
  = nativeValue "vSurfaceFuelBedDepth" (update "vSurfaceFuelBedDepth" 2 emptyTree).
Proof.
  apply (X13_reconfigure_keeps_values twoFuelModels
           (update "vSurfaceFuelBedDepth" 2 emptyTree) "vSurfaceFuelBedDepth");
    compute_done.
Defined.

(** ** The fuel choices of the Surface module *)

Lemma andThen_apply (c1 c2 : cmd) t : (c1 ;; c2) t = c2 (c1 t).
Proof. reflexivity. Qed.

Section KeepsInactive.
Variable f : string.

Lemma keepsInactive_skip : keepsInactive f skip.
Proof. by intros t. Qed.

Lemma keepsInactive_andThen c1 c2 :
  keepsInactive f c1 -> keepsInactive f c2 -> keepsInactive f (c1 ;; c2).
Proof. intros H1 H2 t Ht. by apply H2, H1. Qed.

Lemma keepsInactive_if (b : bool) c1 c2 :
  keepsInactive f c1 -> keepsInactive f c2 ->
  keepsInactive f (if b then c1 else c2).
Proof. by destruct b. Qed.

Lemma keepsInactive_set_false : keepsInactive f (set_active f false).
Proof. intros t _. apply isActive_set_eq. Qed.

Lemma keepsInactive_preserves c :
  preserves (isActive f) c -> keepsInactive f c.
Proof. intros Hc t Ht. by rewrite Hc. Qed.

Lemma keepsInactive_after c1 c2 t :
  keepsInactive f c2 -> isActive f (c1 t) = false ->
  isActive f ((c1 ;; c2) t) = false.
Proof. intros H2 H1. by apply H2. Qed.
End KeepsInactive.

Ltac keeps_inactive :=
  repeat lazymatch goal with
  | |- keepsInactive _ skip => apply keepsInactive_skip
  | |- keepsInactive _ (andThen _ _) => apply keepsInactive_andThen
  | |- keepsInactive _ (if _ then _ else _) => apply keepsInactive_if
  | |- keepsInactive ?f (set_active ?f false) => apply keepsInactive_set_false
  | |- keepsInactive _ (set_active _ _) =>
      apply keepsInactive_preserves, isActive_set_active; names_differ
  | |- keepsInactive _ _ => apply keepsInactive_preserves; intros ?; reflexivity
  end.

(** Read an active flag back through a chain of assignments. *)
Ltac read_active :=
  cbv [andThen skip];
  repeat match goal with
  | |- context [isActive ?f (set_active ?f ?b ?t)] =>
      rewrite (isActive_set_eq f t b)
  | |- context [isActive ?f (set_active ?g ?b ?t)] =>
      rewrite (isActive_set_ne f g t b) by names_differ
  | |- context [isActive ?f (set_isUserInput ?v ?b ?t)] =>
      rewrite (isActive_set_isUserInput f v b t)
  | |- context [isActive ?f (set_isUserOutput ?v ?b ?t)] =>
      rewrite (isActive_set_isUserOutput f v b t)
  | |- context [isActive ?f (set_isConstant ?v ?b ?t)] =>
      rewrite (isActive_set_isConstant f v b t)
  | |- context [isActive ?f (update ?v ?x ?t)] =>
      rewrite (isActive_update f v x t)
  | |- context [isActive ?f (updateItem ?v ?i ?t)] =>
      rewrite (isActive_updateItem f v i t)
  | |- context [isActive ?f (setLabel ?v ?s ?t)] =>
      rewrite (isActive_setLabel f v s t)
  | |- context [isActive _ ((if ?b then _ else _) _)] =>
      destruct b; cbv [andThen skip]
  end.

Ltac each_name H :=
  repeat (apply elem_of_cons in H as [-> | H]);
  try (by apply elem_of_nil in H).

Lemma twoFuelModelsChosen_true prop :
  twoFuelModelsChosen prop = true ->
  boolean prop "surfaceConfFuelModels" = false
  /\ boolean prop "surfaceConfFuelParms" = false
  /\ boolean prop "surfaceConfFuelAreaWeighted"
     || boolean prop "surfaceConfFuelHarmonicMean"
     || boolean prop "surfaceConfFuel2Dimensional" = true.
Proof.
  unfold twoFuelModelsChosen. intros H.
  apply andb_prop in H as [H H3]. apply andb_prop in H as [H1 H2].
  apply negb_true_iff in H1, H2. done.
Qed.

(** The two-fuel-model choice deactivates each function that
    [FuelBedWeighted] calls, and the rest of the procedure does not
    activate it again. *)
Lemma reconfigureSurfaceModule_weighted prop f t :
  boolean prop "surfaceModuleActive" = true ->
  twoFuelModelsChosen prop = true ->
  f ∈ weightedInternals ++ weightedReactivated ->
  isActive f (reconfigureSurfaceModule prop t) = false.
Proof.
  intros Hactive Htwo Hf.
  apply twoFuelModelsChosen_true in Htwo as (Hmodels & Hparms & Hany).
  unfold reconfigureSurfaceModule. rewrite Hactive. cbn [negb].
  do 3 rewrite andThen_apply.
  apply keepsInactive_after.
  - cbn [app weightedInternals weightedReactivated] in Hf.
    unfold surfaceLoadTransferOption, surfaceMoistureOption,
      surfaceWindSpeedOption, surfaceSpreadDirOption, surfaceWindDirOption,
      surfaceDegreesOption, surfaceSlopeOption, surfaceCalcOutputs,
      surfaceTwoFuelOutputs, surfaceMoisDead1000.
    each_name Hf; keeps_inactive.
  - unfold surfaceFuelOption. rewrite Hmodels, Hparms, Hany. cbn [fst].
    cbn [app weightedInternals weightedReactivated] in Hf.
    each_name Hf; by read_active.
Qed.

Lemma reconfigure_unfold prop t :
  reconfigure prop t
  = reconfigureSafetyModule prop
      (reconfigureWeatherModule prop
         (reconfigureIgnitionModule prop
            (reconfigureMortalityModule prop
               (reconfigureScorchModule prop
                  (reconfigureSpotModule prop
                     (reconfigureContainModule prop
                        (reconfigureSizeModule prop
                           (reconfigureCrownModule prop
                              (reconfigureSurfaceModule prop
                                 (reconfigureDocumentation prop t)))))))))).
Proof. reflexivity. Qed.

(** The procedure of a module other than [m] leaves the active flag of a
    function that is not among its functions. *)
Ltac skip_module m f :=
  let H := fresh in
  let prop := lazymatch goal with
              | |- context [reconfigureDocumentation ?p _] => p
              end in
  pose proof (moduleProcedure_frame_active m prop f
                ltac:(cbn [moduleFunctions]; compute_done)) as H;
  cbn [moduleProcedure] in H; unfold preserves in H; rewrite H; clear H.

Ltac skip_modules_after_size f :=
  skip_module SafetyModule f; skip_module WeatherModule f;
  skip_module IgnitionModule f; skip_module MortalityModule f;
  skip_module ScorchModule f; skip_module SpotModule f;
  skip_module ContainModule f.

Ltac skip_modules_after_surface f :=
  skip_modules_after_size f;
  skip_module SizeModule f; skip_module CrownModule f.

(** X14. With the Surface module active and one of the two-fuel-model
    choices selected (and neither the fuel model nor the fuel parameter
    choice, which are tested first), reconfigure on any tree leaves
    fSurfaceFuelBedWeighted active and leaves inactive each of seventeen
    functions that FuelBedWeighted calls itself, whatever the other
    properties and the other modules are. *)
Theorem X14_two_fuel_internals_inactive
    (prop : PropertyDict) (t : EqTree) (f : string) :
  boolean prop "surfaceModuleActive" = true ->
  twoFuelModelsChosen prop = true ->
  f ∈ weightedInternals ->
  isActive f (reconfigure prop t) = false
  /\ isActive "fSurfaceFuelBedWeighted" (reconfigure prop t) = true.
Proof.
  intros Hactive Htwo Hf. rewrite !reconfigure_unfold. split.
  - assert (Hsurface : isActive f (reconfigureSurfaceModule prop
                                     (reconfigureDocumentation prop t)) = false).
    { apply reconfigureSurfaceModule_weighted; try done.
      apply elem_of_app. by left. }
    unfold weightedInternals in Hf.
    each_name Hf;
      match goal with |- isActive ?g _ = _ => skip_modules_after_surface g end;
      exact Hsurface.
  - skip_modules_after_surface "fSurfaceFuelBedWeighted"%string.
    apply twoFuelModelsChosen_true in Htwo as (Hmodels & Hparms & Hany).
    unfold reconfigureSurfaceModule. rewrite Hactive. cbn [negb].
    do 3 rewrite andThen_apply. rewrite andThen_apply.
    match goal with |- isActive ?g (?rest ?tree) = _ =>
      assert (Hrest : preserves (isActive g) rest)
    end.
    { unfold surfaceLoadTransferOption, surfaceMoistureOption,
        surfaceWindSpeedOption, surfaceSpreadDirOption, surfaceWindDirOption,
        surfaceDegreesOption, surfaceSlopeOption, surfaceCalcOutputs,
        surfaceTwoFuelOutputs, surfaceMoisDead1000.
      frame_values ltac:(names_differ). }
    rewrite Hrest. unfold surfaceFuelOption.
    rewrite Hmodels, Hparms, Hany. cbn [fst]. by read_active.
Qed.

Lemma X14_two_fuel_internals_inactive_witness :
  isActive "fSurfaceFireSpreadAtHead" (reconfigure twoFuelModels emptyTree)
  = false.
Proof.
  apply (X14_two_fuel_internals_inactive twoFuelModels emptyTree
           "fSurfaceFireSpreadAtHead");
    [reflexivity | reflexivity | compute_done].
Defined.

(** X15. In the same two-fuel-model configuration three more functions
    that FuelBedWeighted calls itself are deactivated by the Surface
    module and activated again by a later module: after reconfigure,
    fSurfaceFireLengthToWidth and fSurfaceFireEccentricity are active
    exactly when the Size module is active, and fSurfaceFireFlameLengAtHead
    exactly when the Safety module is active. *)
Theorem X15_two_fuel_functions_reactivated
    (prop : PropertyDict) (t : EqTree) :
  boolean prop "surfaceModuleActive" = true ->
  twoFuelModelsChosen prop = true ->
  isActive "fSurfaceFireLengthToWidth" (reconfigure prop t)
  = boolean prop "sizeModuleActive"
  /\ isActive "fSurfaceFireEccentricity" (reconfigure prop t)
     = boolean prop "sizeModuleActive"
  /\ isActive "fSurfaceFireFlameLengAtHead" (reconfigure prop t)
     = boolean prop "safetyModuleActive".
Proof.
  intros Hactive Htwo.
  assert (Hsurface : forall f, f ∈ weightedReactivated ->
            isActive f (reconfigureSurfaceModule prop
                          (reconfigureDocumentation prop t)) = false).
  { intros f Hf. apply reconfigureSurfaceModule_weighted; try done.
    apply elem_of_app. by right. }
  rewrite !reconfigure_unfold. split; [| split].
  - skip_modules_after_size "fSurfaceFireLengthToWidth"%string.
    unfold reconfigureSizeModule.
    destruct (boolean prop "sizeModuleActive"); cbn [negb].
    + by read_active.
    + unfold skip. skip_module CrownModule "fSurfaceFireLengthToWidth"%string.
      apply Hsurface. compute_done.
  - skip_modules_after_size "fSurfaceFireEccentricity"%string.
    unfold reconfigureSizeModule.
    destruct (boolean prop "sizeModuleActive"); cbn [negb].
    + by read_active.
    + unfold skip. skip_module CrownModule "fSurfaceFireEccentricity"%string.
      apply Hsurface. compute_done.
  - unfold reconfigureSafetyModule.
    destruct (boolean prop "safetyModuleActive"); cbn [negb].
    + rewrite Hactive. by read_active.
    + unfold skip.
      skip_module WeatherModule "fSurfaceFireFlameLengAtHead"%string.
      skip_module IgnitionModule "fSurfaceFireFlameLengAtHead"%string.
      skip_module MortalityModule "fSurfaceFireFlameLengAtHead"%string.
      skip_module ScorchModule "fSurfaceFireFlameLengAtHead"%string.
      skip_module SpotModule "fSurfaceFireFlameLengAtHead"%string.
      skip_module ContainModule "fSurfaceFireFlameLengAtHead"%string.
      skip_module SizeModule "fSurfaceFireFlameLengAtHead"%string.
      skip_module CrownModule "fSurfaceFireFlameLengAtHead"%string.
      apply Hsurface. compute_done.
Qed.

Lemma X15_two_fuel_functions_reactivated_witness :
  isActive "fSurfaceFireLengthToWidth"
    (reconfigure twoFuelModelsAndSize emptyTree)
  = boolean twoFuelModelsAndSize "sizeModuleActive".
Proof.
  apply (X15_two_fuel_functions_reactivated twoFuelModelsAndSize emptyTree);
    reflexivity.
Defined.

(** ** The "Init from Fuel Model" button *)

Lemma surfaceModuleFunctions_frame f :
  f ∈ ["fSurfaceFuelBedParms"; "fSurfaceFuelBedModel"]%string ->
  preserves (isActive f) surfaceModuleFunctions.
Proof.
  intros Hf. unfold surfaceModuleFunctions.
  each_name Hf; frame_values ltac:(names_differ).
Qed.

(** The active flag of [fSurfaceFuelBedParms] or [fSurfaceFuelBedModel]
    after [reconfigure]: the value [chosen] when the Surface module is
    active and the fuel option assigns it, the value it had otherwise. *)
Lemma reconfigure_fuel_function prop t f :
  f ∈ ["fSurfaceFuelBedParms"; "fSurfaceFuelBedModel"]%string ->
  isActive f (reconfigure prop t)
  = if boolean prop "surfaceModuleActive" then
      isActive f (fst (surfaceFuelOption prop) t)
    else isActive f t.
Proof.
  intros Hf. rewrite reconfigure_unfold.
  assert (Hdoc : isActive f (reconfigureDocumentation prop t) = isActive f t).
  { each_name Hf;
      match goal with |- isActive ?g _ = _ =>
        skip_module DocumentationModule g end; reflexivity. }
  assert (Hlater : isActive f (reconfigure prop t)
                   = isActive f (reconfigureSurfaceModule prop
                                   (reconfigureDocumentation prop t))).
  { rewrite reconfigure_unfold.
    each_name Hf;
      match goal with |- isActive ?g _ = _ =>
        skip_modules_after_surface g end; reflexivity. }
  rewrite reconfigure_unfold in Hlater. rewrite Hlater. clear Hlater.
  unfold reconfigureSurfaceModule.
  destruct (boolean prop "surfaceModuleActive"); cbn [negb]; [| exact Hdoc].
  do 4 rewrite andThen_apply.
  match goal with |- isActive _ (?rest ?tree) = _ =>
    assert (Hrest : preserves (isActive f) rest)
  end.
  { unfold surfaceLoadTransferOption, surfaceMoistureOption,
      surfaceWindSpeedOption, surfaceSpreadDirOption, surfaceWindDirOption,
      surfaceDegreesOption, surfaceSlopeOption, surfaceCalcOutputs,
      surfaceTwoFuelOutputs, surfaceMoisDead1000.
    each_name Hf; frame_values ltac:(names_differ). }
  rewrite Hrest.
  assert (Hpre : isActive f (surfaceModuleFunctions
                               (reconfigureDocumentation prop t))
                 = isActive f t).
  { by rewrite surfaceModuleFunctions_frame. }
  unfold surfaceFuelOption.
  repeat match goal with
         | |- context [fst (if ?b then _ else _)] => destruct b
         end;
    cbn [fst]; each_name Hf; read_active; first [reflexivity | exact Hpre].
Qed.

(** X16. The "Init from Fuel Model" button after reconfigure.  From the
    initial tree it is shown exactly when the Surface module is active and
    fuel is entered as fuel parameters.  On a tree that an earlier
    configuration left, the fuel parameter choice shows it only when
    fSurfaceFuelBedModel was inactive before: the choice activates
    fSurfaceFuelBedParms and does not clear fSurfaceFuelBedModel, so after
    a change from the fuel model choice to the fuel parameter choice the
    button stays hidden. *)
Theorem X16_init_from_fuel_model_button
    (prop : PropertyDict) (t : EqTree) :
  EqCalc.showInitFromFuelModelButton (reconfigure prop emptyTree)
  = boolean prop "surfaceModuleActive"
    && negb (boolean prop "surfaceConfFuelModels")
    && boolean prop "surfaceConfFuelParms"
  /\ (boolean prop "surfaceModuleActive" = true ->
      boolean prop "surfaceConfFuelModels" = false ->
      boolean prop "surfaceConfFuelParms" = true ->
      EqCalc.showInitFromFuelModelButton (reconfigure prop t)
      = negb (isActive "fSurfaceFuelBedModel" t))
  /\ (forall prop0,
      boolean prop0 "surfaceModuleActive" = true ->
      boolean prop0 "surfaceConfFuelModels" = true ->
      boolean prop "surfaceModuleActive" = true ->
      boolean prop "surfaceConfFuelModels" = false ->
      boolean prop "surfaceConfFuelParms" = true ->
      EqCalc.showInitFromFuelModelButton
        (reconfigure prop (reconfigure prop0 t)) = false).
Proof.
  assert (Hparms : forall p t0,
            boolean p "surfaceModuleActive" = true ->
            boolean p "surfaceConfFuelModels" = false ->
            boolean p "surfaceConfFuelParms" = true ->
            EqCalc.showInitFromFuelModelButton (reconfigure p t0)
            = negb (isActive "fSurfaceFuelBedModel" t0)).
  { intros p t0 Ha Hm Hp. unfold EqCalc.showInitFromFuelModelButton.
    rewrite !reconfigure_fuel_function by compute_done.
    rewrite Ha. unfold surfaceFuelOption. rewrite Hm, Hp. cbn [fst].
    by read_active. }
  split; [| split].
  - unfold EqCalc.showInitFromFuelModelButton.
    rewrite !reconfigure_fuel_function by compute_done.
    destruct (boolean prop "surfaceModuleActive"); [| reflexivity].
    unfold surfaceFuelOption.
    destruct (boolean prop "surfaceConfFuelModels");
      [cbn [fst]; by read_active |].
    destruct (boolean prop "surfaceConfFuelParms");
      [cbn [fst]; by read_active |].
    destruct (_ || _); [cbn [fst]; by read_active |].
    destruct (boolean prop "surfaceConfFuelPalmettoGallberry");
      [cbn [fst]; by read_active |].
    destruct (boolean prop "surfaceConfFuelAspen");
      cbn [fst]; by read_active.
  - apply Hparms.
  - intros prop0 Ha0 Hm0 Ha Hm Hp. rewrite Hparms by assumption.
    rewrite reconfigure_fuel_function by compute_done.
    rewrite Ha0. unfold surfaceFuelOption. rewrite Hm0. cbn [fst].
    by read_active.
Qed.

Lemma X16_init_from_fuel_model_button_witness :
  EqCalc.showInitFromFuelModelButton
    (reconfigure fuelParameters (reconfigure surfaceAndSize emptyTree))
  = false.
Proof.
  apply (X16_init_from_fuel_model_button fuelParameters emptyTree);
    reflexivity.
Defined.

(** ** The cost inputs of the Contain module *)

Section ConstantFlags.
Variables (k : string) (t : EqTree).

Lemma isConstant_set_eq b : isConstant k (set_isConstant k b t) = b.
Proof.
  unfold isConstant, set_isConstant; simpl. by rewrite lookup_insert_eq.
Qed.

Lemma isConstant_set_ne v b :
  v ≠ k -> isConstant k (set_isConstant v b t) = isConstant k t.
Proof. intros Hne. by apply isConstant_frame_set. Qed.

Lemma isConstant_set_active f b :
  isConstant k (set_active f b t) = isConstant k t.
Proof. reflexivity. Qed.

Lemma isConstant_set_isUserOutput v b :
  isConstant k (set_isUserOutput v b t) = isConstant k t.
Proof. reflexivity. Qed.

Lemma isUserOutput_through_isConstant v b :
  isUserOutput k (set_isConstant v b t) = isUserOutput k t.
Proof. reflexivity. Qed.

Lemma isUserOutput_through_active f b :
  isUserOutput k (set_active f b t) = isUserOutput k t.
Proof. reflexivity. Qed.
End ConstantFlags.

Lemma moduleProcedure_frame_cost m prop k :
  m ≠ ContainModule ->
  k ∈ ["vContainResourceBaseCost"; "vContainResourceHourCost"]%string ->
  preserves (isConstant k) (moduleProcedure m prop).
Proof.
  intros Hm Hk. destruct m; try done; cbn [moduleProcedure];
    unfold_procedures; each_name Hk; frame_values ltac:(names_differ).
Qed.

(** What the Contain procedure leaves in the cost flags. *)
Lemma reconfigureContainModule_cost prop t :
  boolean prop "containModuleActive" = true ->
  let t' := reconfigureContainModule prop t in
  isUserOutput "vContainCost" t' = boolean prop "containCalcCost"
  /\ isConstant "vContainResourceBaseCost" t'
     = negb (boolean prop "containCalcCost")
  /\ isConstant "vContainResourceHourCost" t'
     = negb (boolean prop "containCalcCost").
Proof.
  intros Hactive t'. subst t'. unfold reconfigureContainModule.
  rewrite Hactive. cbn [negb].
  destruct (boolean prop "surfaceModuleActive"),
           (boolean prop "sizeModuleActive");
    cbv [andThen ifTree skip];
    rewrite ?isUserOutput_through_active, ?isConstant_set_active;
    rewrite ?isUserOutput_through_isConstant;
    rewrite ?isUserOutput_set_ne by names_differ;
    rewrite isUserOutput_set_eq;
    destruct (boolean prop "containCalcCost"); cbn [negb];
    rewrite ?isUserOutput_through_isConstant;
    rewrite ?isUserOutput_set_ne by names_differ;
    rewrite ?isUserOutput_set_eq;
    rewrite ?isConstant_set_eq;
    rewrite ?isConstant_set_ne by names_differ;
    rewrite ?isConstant_set_eq;
    done.
Qed.

(** X17. With the Contain module active, after reconfigure on any tree the
    two resource cost inputs are constants (masked) exactly when the
    containment cost is not a requested output, the condition under which
    ContainFF and ContainFFSingle do not read them. *)
Theorem X17_contain_cost_inputs (prop : PropertyDict) (t : EqTree) :
  boolean prop "containModuleActive" = true ->
  isUserOutput "vContainCost" (reconfigure prop t)
  = boolean prop "containCalcCost"
  /\ isConstant "vContainResourceBaseCost" (reconfigure prop t)
     = negb (isUserOutput "vContainCost" (reconfigure prop t))
  /\ isConstant "vContainResourceHourCost" (reconfigure prop t)
     = negb (isUserOutput "vContainCost" (reconfigure prop t)).
Proof.
  intros Hactive.
  destruct (reconfigureContainModule_cost prop
              (reconfigureSizeModule prop
                 (reconfigureCrownModule prop
                    (reconfigureSurfaceModule prop
                       (reconfigureDocumentation prop t)))) Hactive)
    as (Hout & Hbase & Hhour).
  assert (Hlater : forall {A} (get : EqTree -> A),
            (forall m, m ≠ ContainModule ->
                       preserves get (moduleProcedure m prop)) ->
            get (reconfigure prop t)
            = get (reconfigureContainModule prop
                     (reconfigureSizeModule prop
                        (reconfigureCrownModule prop
                           (reconfigureSurfaceModule prop
                              (reconfigureDocumentation prop t)))))).
  { intros A get Hall. rewrite reconfigure_unfold.
    rewrite (Hall SafetyModule), (Hall WeatherModule), (Hall IgnitionModule),
      (Hall MortalityModule), (Hall ScorchModule), (Hall SpotModule) by done.
    reflexivity. }
  assert (Houtput : isUserOutput "vContainCost" (reconfigure prop t)
                    = boolean prop "containCalcCost").
  { rewrite Hlater; [exact Hout |].
    intros m Hm. apply moduleProcedure_frame_output.
    destruct m; try done; compute_done. }
  rewrite Houtput. split; [reflexivity |]. split.
  - rewrite Hlater; [exact Hbase |].
    intros m Hm. apply moduleProcedure_frame_cost; [exact Hm | compute_done].
  - rewrite Hlater; [exact Hhour |].
    intros m Hm. apply moduleProcedure_frame_cost; [exact Hm | compute_done].
Qed.

Lemma X17_contain_cost_inputs_witness :
  isConstant "vContainResourceBaseCost"
    (reconfigure containWithCost emptyTree)
  = negb (isUserOutput "vContainCost" (reconfigure containWithCost emptyTree)).
Proof.
  apply (X17_contain_cost_inputs containWithCost emptyTree). reflexivity.
Defined.

(** ** Aspen fuel: no load transfer *)

Ltac unfold_FuelAspenParms :=
  unfold EqCalc.FuelAspenParms, forParts;
  cbn [fold_left seq MaxParts]; cbv [andThen]; particle_names;
  unfold EqCalc.FuelLifeType_DeadTimeLag, EqCalc.FuelLifeType_LiveHerb,
    EqCalc.FuelLifeType_LiveWood.

Lemma FuelAspenParms_life t :
  activeItems vSurfaceFuelLife (EqCalc.FuelAspenParms t)
  = [0; 0; 1; 2; 0; 0; 0; 0]%Z.
Proof.
  unfold activeItems. particle_array vSurfaceFuelLife.
  unfold_FuelAspenParms.
  repeat (apply (f_equal2 cons); [by read_back_from |]). reflexivity.
Qed.

Lemma FuelAspenParms_load t :
  nativeValues vSurfaceFuelLoad (EqCalc.FuelAspenParms t)
  = [nativeValue "vSurfaceFuelAspenLoadDead1" t;
     nativeValue "vSurfaceFuelAspenLoadDead10" t;
     nativeValue "vSurfaceFuelAspenLoadLiveHerb" t;
     nativeValue "vSurfaceFuelAspenLoadLiveWoody" t;
     0; 0; 0; 0].
Proof.
  unfold nativeValues. particle_array vSurfaceFuelLoad.
  unfold_FuelAspenParms.
  repeat (apply (f_equal2 cons); [by read_back_from |]). reflexivity.
Qed.

Lemma FuelAspenParms_transferEq t :
  activeItemDataIndex "vSurfaceFuelLoadTransferEq" (EqCalc.FuelAspenParms t)
  = activeItemDataIndex "vSurfaceFuelLoadTransferEq" t.
Proof. unfold_FuelAspenParms. by read_back_from. Qed.

Lemma moduleProcedure_frame_transferEq m prop :
  m ≠ SurfaceModule ->
  preserves (activeItemDataIndex "vSurfaceFuelLoadTransferEq")
            (moduleProcedure m prop).
Proof.
  intros Hm. destruct m; try done; cbn [moduleProcedure];
    unfold_procedures; frame_values ltac:(names_differ).
Qed.

(** The Palmetto-Gallberry and the aspen fuel choice switch the load
    transfer off. *)
Lemma reconfigure_special_fuel_transferEq prop t :
  boolean prop "surfaceModuleActive" = true ->
  boolean prop "surfaceConfFuelPalmettoGallberry"
  || boolean prop "surfaceConfFuelAspen" = true ->
  activeItemDataIndex "vSurfaceFuelLoadTransferEq" (reconfigure prop t) = 0%Z.
Proof.
  intros Hactive Hspecial. rewrite reconfigure_unfold.
  rewrite (moduleProcedure_frame_transferEq SafetyModule),
    (moduleProcedure_frame_transferEq WeatherModule),
    (moduleProcedure_frame_transferEq IgnitionModule),
    (moduleProcedure_frame_transferEq MortalityModule),
    (moduleProcedure_frame_transferEq ScorchModule),
    (moduleProcedure_frame_transferEq SpotModule),
    (moduleProcedure_frame_transferEq ContainModule),
    (moduleProcedure_frame_transferEq SizeModule),
    (moduleProcedure_frame_transferEq CrownModule) by done.
  unfold reconfigureSurfaceModule. rewrite Hactive. cbn [negb].
  do 5 rewrite andThen_apply.
  match goal with |- activeItemDataIndex _ (?rest ?tree) = _ =>
    assert (Hrest : preserves
                      (activeItemDataIndex "vSurfaceFuelLoadTransferEq") rest)
  end.
  { unfold surfaceMoistureOption,
      surfaceWindSpeedOption, surfaceSpreadDirOption, surfaceWindDirOption,
      surfaceDegreesOption, surfaceSlopeOption, surfaceCalcOutputs,
      surfaceTwoFuelOutputs, surfaceMoisDead1000.
    frame_values ltac:(names_differ). }
  rewrite Hrest. unfold surfaceLoadTransferOption. rewrite Hspecial.
  cbv [andThen].
  rewrite activeItem_update.
  change (activeItemDataIndex "vSurfaceFuelLoadTransferEq"
            (set_isConstant ?v ?b ?t0))
    with (activeItemDataIndex "vSurfaceFuelLoadTransferEq" t0).
  apply activeItem_updateItem_eq.
Qed.

(** X18. With the Surface module active and the aspen fuel choice selected,
    reconfigure switches the load transfer off (transfer equation item 0),
    whatever the load transfer choice is.  FuelAspenParms followed by
    FuelBedIntermediates then stores the sum of the two dead aspen loads as
    the dead load and the sum of the live herbaceous and live woody aspen
    loads as the live load, and no dead herbaceous load.  The variable for
    the remaining live herbaceous load receives particle 3, which in the
    aspen fuel bed is the live woody load. *)
Theorem X18_aspen_fuel_bed_loads `{XfbLib}
    (prop : PropertyDict) (t : EqTree) :
  let t1 := reconfigure prop t in
  let t2 := (EqCalc.FuelAspenParms ;; FuelBedIntermediates) t1 in
  let dead1 := nativeValue "vSurfaceFuelAspenLoadDead1" t1 in
  let dead10 := nativeValue "vSurfaceFuelAspenLoadDead10" t1 in
  let herb := nativeValue "vSurfaceFuelAspenLoadLiveHerb" t1 in
  let woody := nativeValue "vSurfaceFuelAspenLoadLiveWoody" t1 in
  boolean prop "surfaceModuleActive" = true ->
  boolean prop "surfaceConfFuelAspen" = true ->
  activeItemDataIndex "vSurfaceFuelLoadTransferEq" t1 = 0%Z
  /\ nativeValue "vSurfaceFuelLoadDead" t2 == dead1 + dead10
  /\ nativeValue "vSurfaceFuelLoadLive" t2 == herb + woody
  /\ nativeValue "vSurfaceFuelLoadDeadHerb" t2 == 0
  /\ nativeValue "vSurfaceFuelLoadUndeadHerb" t2 == woody.
Proof.
  intros t1 t2 dead1 dead10 herb woody Hactive Haspen.
  assert (Heq : activeItemDataIndex "vSurfaceFuelLoadTransferEq" t1 = 0%Z).
  { apply reconfigure_special_fuel_transferEq; [exact Hactive |].
    rewrite Haspen. apply orb_true_r. }
  split; [exact Heq |].
  subst t2. cbv [andThen].
  destruct (FuelBedIntermediates_stores (EqCalc.FuelAspenParms t1))
    as (_ & _ & -> & -> & -> & ->).
  rewrite bedLoads_off
    by (left; by rewrite FuelAspenParms_transferEq).
  rewrite FuelAspenParms_life, FuelAspenParms_load.
  fold dead1 dead10 herb woody.
  cbn. repeat split; lra.
Qed.

Lemma X18_aspen_fuel_bed_loads_witness :
  activeItemDataIndex "vSurfaceFuelLoadTransferEq"
    (reconfigure aspenFuel
       (updateItem "vSurfaceFuelLoadTransferEq" 1 emptyTree)) = 0%Z.
Proof.
  apply (X18_aspen_fuel_bed_loads (H := sampleLib) aspenFuel
           (updateItem "vSurfaceFuelLoadTransferEq" 1 emptyTree));
    reflexivity.
Defined.

(** ** [FuelBedModel] and the load step of [FuelBedWeighted] *)

Lemma store_setNum_eq `{EqVarDisplay} v t :
  store v (EqCalc.setNum v t) = displayStore v (nativeValue v t).
Proof. unfold store, EqCalc.setNum; simpl. by rewrite lookup_insert_eq. Qed.

Lemma store_setNum_ne `{EqVarDisplay} v w t :
  w ≠ v -> store v (EqCalc.setNum w t) = store v t.
Proof.
  intros Hne. unfold store, EqCalc.setNum; simpl. by rewrite lookup_insert_ne.
Qed.

Lemma store_update v w x t : store v (update w x t) = store v t.
Proof. reflexivity. Qed.

Lemma store_updateItem v w i t : store v (updateItem w i t) = store v t.
Proof. reflexivity. Qed.

(** X21. FuelBedModel and the load step at the head of each pass of
    FuelBedWeighted, which replaces it, leave the same value in every
    variable and the same item in every discrete variable: each of the
    twelve fuel model variables holds its field of the fuel model, and the
    load transfer equation holds the transfer item.  They differ in the
    stored text: FuelBedModel stores the display text of each of the twelve
    values, the load step of FuelBedWeighted leaves every stored text as it
    was. *)
Theorem X21_FuelBedModel_loads_the_same `{EqVarDisplay}
    (fm : FuelModel) (t : EqTree) (v : string) (x : Q) :
  nativeValue v (EqCalc.FuelBedModel fm t) = nativeValue v (loadFuelModel fm t)
  /\ activeItemDataIndex v (EqCalc.FuelBedModel fm t)
     = activeItemDataIndex v (loadFuelModel fm t)
  /\ activeItemDataIndex "vSurfaceFuelLoadTransferEq" (loadFuelModel fm t)
     = m_transfer fm
  /\ store v (loadFuelModel fm t) = store v t
  /\ ((v, x) ∈ fuelModelFields fm ->
      nativeValue v (loadFuelModel fm t) = x
      /\ store v (EqCalc.FuelBedModel fm t) = displayStore v x).
Proof.
  split; [reflexivity |]. split; [reflexivity |].
  split; [unfold loadFuelModel; by read_back |].
  split; [reflexivity |].
  intros Hin. unfold fuelModelFields in Hin.
  repeat (apply elem_of_cons in Hin as [[= -> ->] | Hin]);
    try (by apply elem_of_nil in Hin);
    (split;
     [ unfold loadFuelModel; by read_back
     | unfold EqCalc.FuelBedModel; cbv [andThen];
       repeat first [ rewrite store_update
                    | rewrite store_setNum_ne by names_differ ];
       rewrite store_setNum_eq; by rewrite nativeValue_update_eq ]).
Qed.

Lemma X21_FuelBedModel_loads_the_same_witness :
  store "vSurfaceFuelBedDepth"
    (@EqCalc.FuelBedModel sampleDisplay (fuelModelOfDepth 2) emptyTree)
  = @displayStore sampleDisplay "vSurfaceFuelBedDepth" 2.
Proof.
  apply (@X21_FuelBedModel_loads_the_same sampleDisplay
           (fuelModelOfDepth 2) emptyTree "vSurfaceFuelBedDepth" 2).
  unfold fuelModelFields. simpl. constructor.
Defined.

(** ** Functions that store the same variable

    [CrownFireTransRatioFromFireIntAtVector] and
    [CrownFireTransRatioFromFlameLengAtVector] both store
    [vCrownFireTransRatio]; [FireScorchHtFromFliAtVector] and
    [FireScorchHtFromFlameLengAtVector] both store
    [vSurfaceFireScorchHtAtVector]. *)

Ltac skip_modules_before_crown f :=
  skip_module SurfaceModule f; skip_module DocumentationModule f.

(** X22. The two functions that store the crown fire transition ratio.
    With the Crown module active, after reconfigure on any tree the
    function working from the fireline intensity is active exactly when the
    Surface module is active or the flame length is not the chosen input;
    the function working from the flame length is active when the Surface
    module is inactive and the flame length is the chosen input, and also
    whenever it was active before, because the procedure clears the
    intensity function twice and the flame length function never.  So from
    the initial tree exactly one of the two is active, and on a tree where
    the flame length function was active a configuration linked to the
    Surface module leaves both active. *)
Theorem X22_crown_transition_ratio_functions
    (prop : PropertyDict) (t : EqTree) :
  let fromIntensity :=
    isActive "fCrownFireTransRatioFromFireIntAtVector" (reconfigure prop t) in
  let fromFlameLength :=
    isActive "fCrownFireTransRatioFromFlameLengAtVector" (reconfigure prop t) in
  let chosen := negb (boolean prop "surfaceModuleActive")
                && boolean prop "crownConfUseFlameLeng" in
  boolean prop "crownModuleActive" = true ->
  fromIntensity = negb chosen
  /\ fromFlameLength
     = chosen || isActive "fCrownFireTransRatioFromFlameLengAtVector" t
  /\ (isActive "fCrownFireTransRatioFromFlameLengAtVector" t = false ->
      xorb fromIntensity fromFlameLength = true)
  /\ (isActive "fCrownFireTransRatioFromFlameLengAtVector" t = true ->
      boolean prop "surfaceModuleActive" = true ->
      fromIntensity = true /\ fromFlameLength = true).
Proof.
  intros fromIntensity fromFlameLength chosen Hcrown.
  assert (Hint : fromIntensity = negb chosen).
  { subst fromIntensity chosen. rewrite reconfigure_unfold.
    skip_modules_after_size "fCrownFireTransRatioFromFireIntAtVector"%string.
    skip_module SizeModule "fCrownFireTransRatioFromFireIntAtVector"%string.
    unfold reconfigureCrownModule. rewrite Hcrown. cbn [negb].
    destruct (boolean prop "surfaceModuleActive"),
             (boolean prop "crownConfUseFlameLeng");
      by read_active. }
  assert (Hfl : fromFlameLength
                = chosen
                  || isActive "fCrownFireTransRatioFromFlameLengAtVector" t).
  { subst fromFlameLength chosen. rewrite reconfigure_unfold.
    skip_modules_after_size "fCrownFireTransRatioFromFlameLengAtVector"%string.
    skip_module SizeModule "fCrownFireTransRatioFromFlameLengAtVector"%string.
    unfold reconfigureCrownModule. rewrite Hcrown. cbn [negb].
    destruct (boolean prop "surfaceModuleActive"),
             (boolean prop "crownConfUseFlameLeng");
      read_active; cbn [negb andb orb]; try reflexivity;
      skip_modules_before_crown
        "fCrownFireTransRatioFromFlameLengAtVector"%string;
      reflexivity. }
  rewrite Hint, Hfl. split; [reflexivity |]. split; [reflexivity |]. split.
  - intros ->. by destruct chosen.
  - intros -> Hsurface. subst chosen. rewrite Hsurface. by cbn.
Qed.

Lemma X22_crown_transition_ratio_functions_witness :
  isActive "fCrownFireTransRatioFromFireIntAtVector"
    (reconfigure crownWithSurface (reconfigure crownFromFlameLength emptyTree))
  = true
  /\ isActive "fCrownFireTransRatioFromFlameLengAtVector"
       (reconfigure crownWithSurface
          (reconfigure crownFromFlameLength emptyTree))
     = true.
Proof.
  apply (X22_crown_transition_ratio_functions crownWithSurface
           (reconfigure crownFromFlameLength emptyTree));
    vm_compute; reflexivity.
Defined.

(** X23. The two functions that store the scorch height.  After
    reconfigure on any tree the function working from the flame length is
    active when the Scorch module computes the scorch height without the
    Surface module and with the flame length as the chosen input, or when
    it was active before; the function working from the fireline intensity
    is active when the Scorch module computes the scorch height in another
    way, when the Mortality module is linked to the Surface module without
    the Scorch module, or when it was active before.  From the initial tree
    the two are never active together. *)
Theorem X23_scorch_height_functions
    (prop : PropertyDict) (t : EqTree) :
  let fromIntensity :=
    isActive "fSurfaceFireScorchHtFromFliAtVector" (reconfigure prop t) in
  let fromFlameLength :=
    isActive "fSurfaceFireScorchHtFromFlameLengAtVector"
      (reconfigure prop t) in
  let scorch := boolean prop "scorchModuleActive"
                && boolean prop "scorchCalcScorchHt" in
  let surface := boolean prop "surfaceModuleActive" in
  let chosen := boolean prop "scorchConfUseFlameLeng" in
  fromFlameLength
  = scorch && negb surface && chosen
    || isActive "fSurfaceFireScorchHtFromFlameLengAtVector" t
  /\ fromIntensity
     = scorch && (surface || negb chosen)
       || boolean prop "mortalityModuleActive" && surface
          && negb (boolean prop "scorchModuleActive")
       || isActive "fSurfaceFireScorchHtFromFliAtVector" t
  /\ (isActive "fSurfaceFireScorchHtFromFlameLengAtVector" t = false ->
      isActive "fSurfaceFireScorchHtFromFliAtVector" t = false ->
      fromIntensity && fromFlameLength = false).
Proof.
  intros fromIntensity fromFlameLength scorch surface chosen.
  assert (Hfl : fromFlameLength
                = scorch && negb surface && chosen
                  || isActive "fSurfaceFireScorchHtFromFlameLengAtVector" t).
  { subst fromFlameLength scorch surface chosen. rewrite reconfigure_unfold.
    skip_module SafetyModule "fSurfaceFireScorchHtFromFlameLengAtVector"%string.
    skip_module WeatherModule
      "fSurfaceFireScorchHtFromFlameLengAtVector"%string.
    skip_module IgnitionModule
      "fSurfaceFireScorchHtFromFlameLengAtVector"%string.
    skip_module MortalityModule
      "fSurfaceFireScorchHtFromFlameLengAtVector"%string.
    unfold reconfigureScorchModule.
    destruct (boolean prop "scorchModuleActive"),
             (boolean prop "scorchCalcScorchHt"),
             (boolean prop "surfaceModuleActive"),
             (boolean prop "scorchConfUseFlameLeng");
      cbn [negb andb orb]; read_active; try reflexivity;
      skip_module SpotModule
        "fSurfaceFireScorchHtFromFlameLengAtVector"%string;
      skip_module ContainModule
        "fSurfaceFireScorchHtFromFlameLengAtVector"%string;
      skip_module SizeModule
        "fSurfaceFireScorchHtFromFlameLengAtVector"%string;
      skip_module CrownModule
        "fSurfaceFireScorchHtFromFlameLengAtVector"%string;
      skip_modules_before_crown
        "fSurfaceFireScorchHtFromFlameLengAtVector"%string;
      reflexivity. }
  assert (Hint : fromIntensity
                 = scorch && (surface || negb chosen)
                   || boolean prop "mortalityModuleActive" && surface
                      && negb (boolean prop "scorchModuleActive")
                   || isActive "fSurfaceFireScorchHtFromFliAtVector" t).
  { subst fromIntensity scorch surface chosen. rewrite reconfigure_unfold.
    skip_module SafetyModule "fSurfaceFireScorchHtFromFliAtVector"%string.
    skip_module WeatherModule "fSurfaceFireScorchHtFromFliAtVector"%string.
    skip_module IgnitionModule "fSurfaceFireScorchHtFromFliAtVector"%string.
    unfold reconfigureMortalityModule, reconfigureScorchModule. cbv zeta.
    destruct (boolean prop "mortalityModuleActive"),
             (boolean prop "scorchModuleActive"),
             (boolean prop "scorchCalcScorchHt"),
             (boolean prop "surfaceModuleActive"),
             (boolean prop "scorchConfUseFlameLeng");
      cbn [negb andb orb]; read_active; try reflexivity;
      skip_module SpotModule "fSurfaceFireScorchHtFromFliAtVector"%string;
      skip_module ContainModule "fSurfaceFireScorchHtFromFliAtVector"%string;
      skip_module SizeModule "fSurfaceFireScorchHtFromFliAtVector"%string;
      skip_module CrownModule "fSurfaceFireScorchHtFromFliAtVector"%string;
      skip_modules_before_crown "fSurfaceFireScorchHtFromFliAtVector"%string;
      reflexivity. }
  rewrite Hint, Hfl. split; [reflexivity |]. split; [reflexivity |].
  intros -> ->. subst scorch surface chosen.
  destruct (boolean prop "mortalityModuleActive"),
           (boolean prop "scorchModuleActive"),
           (boolean prop "scorchCalcScorchHt"),
           (boolean prop "surfaceModuleActive"),
           (boolean prop "scorchConfUseFlameLeng"); reflexivity.
Qed.

Lemma X23_scorch_height_functions_witness :
  isActive "fSurfaceFireScorchHtFromFliAtVector"
    (reconfigure scorchWithSurface emptyTree)
  && isActive "fSurfaceFireScorchHtFromFlameLengAtVector"
       (reconfigure scorchWithSurface emptyTree) = false.
Proof.
  apply (X23_scorch_height_functions scorchWithSurface emptyTree);
    reflexivity.
Defined.
